(** * Movement-alert engine of the nRF location tracker (functions/src/index.ts)

    A shallow embedding of the Cloud Functions in [functions/src/index.ts]:
    the haversine distance, the lock / unlock / token-registration handlers,
    the notification dispatcher, the LED indicator, the on-demand alert
    listing and the scheduled location check.

    Modelling conventions.
    - A JavaScript [number] is a real number ([R]); NaN and the infinities are
      outside the model, and IEEE rounding is idealised away.
    - Firestore collections with caller-chosen document ids are [gmap string _];
      collections filled with [add] are lists, newest document first, so that
      [orderBy('timestamp','desc')] is the list order.  Firestore calls are
      taken to succeed: a handler's [try] block is modelled, and its [catch]
      branch, which answers 500 when a Firestore call throws, is not.  A
      call throws for a document id that Firestore refuses; statements that
      depend on the id being accepted say so with [plainDocId].
    - Calls that leave the process (nRF Cloud, FCM) are recorded in
      [effects], newest first, together with the outcome the environment
      gave them; [setTimeout] callbacks are recorded in [timers].
    - Everything a handler reads from outside (request time, outcome of each
      remote call, the telemetry answer) comes from an [Env]. *)

From Stdlib Require Import Reals Lra ZArith String List.
From stdpp Require Import gmap strings list fin_maps.

Open Scope R_scope.

(** ** Geometry *)

Module Geo.

(** [Math.atan2 y x] on real arguments. *)
Definition atan2 (y x : R) : R :=
  if Rlt_dec 0 x then atan (y / x)
  else if Rlt_dec x 0 then
         (if Rle_dec 0 y then atan (y / x) + PI else atan (y / x) - PI)
  else if Rlt_dec 0 y then PI / 2
  else if Rlt_dec y 0 then - PI / 2
  else 0.

(** [calculateDistance], index.ts lines 61-71. *)
Definition calculateDistance (lat1 lon1 lat2 lon2 : R) : R :=
  let R := 6371000 in
  let dLat := (lat2 - lat1) * PI / 180 in
  let dLon := (lon2 - lon1) * PI / 180 in
  let a :=
    sin (dLat / 2) * sin (dLat / 2) +
    cos (lat1 * PI / 180) * cos (lat2 * PI / 180) *
    sin (dLon / 2) * sin (dLon / 2) in
  let c := 2 * atan2 (sqrt a) (sqrt (1 - a)) in
  R * c.

End Geo.

(** ** Data model *)

Inductive Severity := low | medium | high.

#[global] Instance Severity_eq_dec : EqDecision Severity.
Proof. solve_decision. Defined.

Record LatLon := { lat : R; lon : R }.

(** A coordinate as it arrives in JSON: a number, or a string together with
    the number [parseFloat] reads from it. *)
Inductive JsScalar :=
| JNumber (x : R)
| JString (s : string) (x : R).

(** JavaScript truthiness of the values the handlers test. *)
Definition truthyR (x : R) : bool := if Req_dec_T x 0 then false else true.
Definition truthyS (s : string) : bool := if decide (s = EmptyString) then false else true.
Definition truthy (v : JsScalar) : bool :=
  match v with
  | JNumber x => truthyR x
  | JString s _ => truthyS s
  end.
Definition parseFloat (v : JsScalar) : R :=
  match v with
  | JNumber x => x
  | JString _ x => x
  end.

(** [x || d] on an optional string field. *)
Definition orS (x : option string) (d : string) : string :=
  match x with
  | Some s => if truthyS s then s else d
  | None => d
  end.
(** [x || null] on optional fields. *)
Definition orNullS (x : option string) : option string :=
  match x with
  | Some s => if truthyS s then Some s else None
  | None => None
  end.
Definition orNullR (x : option R) : option R :=
  match x with
  | Some r => if truthyR r then Some r else None
  | None => None
  end.

(** The [MovementAlert] interface (lines 24-46), with the two LED fields the
    handlers add to stored alerts. *)
Module MovementAlert.
Record t := {
  id : option nat;
  deviceId : string;
  alertType : string;
  distance : R;
  threshold : R;
  lockedLocation : LatLon;
  currentLocation : LatLon;
  lockedAt : string;
  detectedAt : string;
  severity : Severity;
  message : string;
  timestamp : nat;
  source : string;
  notificationSent : bool;
  notificationSentAt : option nat;
  ledActivated : bool;
  ledActivatedAt : option nat
}.

Definition with_id (i : nat) (a : t) : t :=
  {| id := Some i; deviceId := deviceId a; alertType := alertType a;
     distance := distance a; threshold := threshold a;
     lockedLocation := lockedLocation a; currentLocation := currentLocation a;
     lockedAt := lockedAt a; detectedAt := detectedAt a; severity := severity a;
     message := message a; timestamp := timestamp a; source := source a;
     notificationSent := notificationSent a;
     notificationSentAt := notificationSentAt a;
     ledActivated := ledActivated a; ledActivatedAt := ledActivatedAt a |}.

(** The field update both evaluators apply after a successful dispatch
    (lines 684-689 and 829-834). *)
Definition mark_sent (now : nat) (a : t) : t :=
  {| id := id a; deviceId := deviceId a; alertType := alertType a;
     distance := distance a; threshold := threshold a;
     lockedLocation := lockedLocation a; currentLocation := currentLocation a;
     lockedAt := lockedAt a; detectedAt := detectedAt a; severity := severity a;
     message := message a; timestamp := timestamp a; source := source a;
     notificationSent := true;
     notificationSentAt := Some now;
     ledActivated := true; ledActivatedAt := Some now |}.
End MovementAlert.

(** The [TokenData] interface (lines 49-58). *)
Inductive TokenType := expo | fcm.

#[global] Instance TokenType_eq_dec : EqDecision TokenType.
Proof. solve_decision. Defined.

Module TokenData.
Record t := {
  deviceId : string;
  pushToken : string;
  tokenType : TokenType;
  userId : string;
  platform : string;
  registeredAt : nat;
  lastUsed : nat;
  active : bool
}.
End TokenData.

#[global] Instance TokenData_eq_dec : EqDecision TokenData.t.
Proof. solve_decision. Defined.

(** A document of [locked_locations]: the fields written by
    [postLockedLocation], and the fields the scheduled check adds later
    ([None] while the field is absent). *)
Module LockedLocation.
Record location_t := {
  lat : R;
  lon : R;
  uncertainty : option R;
  serviceType : option string
}.
Record t := {
  deviceId : string;
  lockedAt : string;
  location : location_t;
  originalLocationData : option string;
  status : string;
  timestamp : string;
  createdAt : nat;
  updatedAt : nat;
  lastMovementAlert : option MovementAlert.t;
  lastAlertAt : option nat;
  lastCheckedAt : option nat;
  currentDistance : option R;
  alertCount : option nat
}.
End LockedLocation.

(** A document of [location_lock_history]. *)
Inductive LockHistory :=
| LockEntry (data : LockedLocation.t)
| UnlockEntry (deviceId unlockedAt status timestamp : string)
              (previousLockData : LockedLocation.t) (createdAt : nat).

(** A document of [notification_summary] (lines 377-387). *)
Module NotificationSummary.
Record t := {
  deviceId : string;
  alertType : string;
  fcmTokenCount : nat;
  expoTokenCount : nat;
  fcmSuccess : bool;
  expoSuccess : bool;
  overallSuccess : bool;
  sentAt : nat;
  alertData : MovementAlert.t
}.
End NotificationSummary.

(** A document of [failed_tokens] (lines 282-286). *)
Module FailedTokens.
Record t := {
  deviceId : string;
  failedTokens : list string;
  timestamp : nat
}.
End FailedTokens.

(** One item of the nRF Cloud location-history answer, and the answer. *)
Record LocationItem := { item_lat : JsScalar; item_lon : JsScalar }.
Record LocationData := { items : option (list LocationItem) }.

(** A document of [location_history] (lines 762-768). *)
Module LocationHistory.
Record t := {
  deviceId : string;
  latest : bool;
  data : LocationData;
  timestamp : nat;
  source : string
}.
End LocationHistory.

(** The LED part of the desired device state (lines 108-115, 132-139). *)
Record LedConfig := {
  red : Z;
  green : Z;
  blue : Z;
  duration_on_msec : Z;
  duration_off_msec : Z;
  repetitions : Z
}.

#[global] Instance LedConfig_eq_dec : EqDecision LedConfig.
Proof. solve_decision. Defined.

(** ** The world: Firestore collections, remote calls made, pending timers *)

(** [NrfPatchState] is the PATCH of a device's desired state,
    [{update_interval: 60, led: ...}]; [NrfLocationHistory] the GET of the
    latest location; the FCM calls carry the alert their message is built
    from. *)
Inductive Effect :=
| NrfPatchState (deviceId : string) (led : LedConfig) (ok : bool)
| NrfLocationHistory (deviceId : string) (answer : option LocationData)
| FcmSend (topic : string) (alert : MovementAlert.t) (ok : bool)
| FcmMulticast (tokens : list string) (alert : MovementAlert.t)
               (responses : option (list bool))
| FcmSubscribe (token topic : string) (ok : bool).

Inductive TimerCallback := TurnOffLED (deviceId : string).

Record Timer := { callback : TimerCallback; delay : Z }.

Record World := {
  locked_locations : gmap string LockedLocation.t;
  location_lock_history : list LockHistory;
  user_push_tokens : gmap string TokenData.t;
  movement_alerts : list (nat * MovementAlert.t);
  notification_summary : list NotificationSummary.t;
  failed_tokens : list FailedTokens.t;
  location_history : list LocationHistory.t;
  effects : list Effect;
  timers : list Timer
}.

Definition set_locked_locations (f : gmap string LockedLocation.t -> gmap string LockedLocation.t)
    (w : World) : World :=
  {| locked_locations := f (locked_locations w);
     location_lock_history := location_lock_history w;
     user_push_tokens := user_push_tokens w;
     movement_alerts := movement_alerts w;
     notification_summary := notification_summary w;
     failed_tokens := failed_tokens w;
     location_history := location_history w;
     effects := effects w; timers := timers w |}.

Definition set_location_lock_history (f : list LockHistory -> list LockHistory)
    (w : World) : World :=
  {| locked_locations := locked_locations w;
     location_lock_history := f (location_lock_history w);
     user_push_tokens := user_push_tokens w;
     movement_alerts := movement_alerts w;
     notification_summary := notification_summary w;
     failed_tokens := failed_tokens w;
     location_history := location_history w;
     effects := effects w; timers := timers w |}.

Definition set_user_push_tokens (f : gmap string TokenData.t -> gmap string TokenData.t)
    (w : World) : World :=
  {| locked_locations := locked_locations w;
     location_lock_history := location_lock_history w;
     user_push_tokens := f (user_push_tokens w);
     movement_alerts := movement_alerts w;
     notification_summary := notification_summary w;
     failed_tokens := failed_tokens w;
     location_history := location_history w;
     effects := effects w; timers := timers w |}.

Definition set_movement_alerts
    (f : list (nat * MovementAlert.t) -> list (nat * MovementAlert.t))
    (w : World) : World :=
  {| locked_locations := locked_locations w;
     location_lock_history := location_lock_history w;
     user_push_tokens := user_push_tokens w;
     movement_alerts := f (movement_alerts w);
     notification_summary := notification_summary w;
     failed_tokens := failed_tokens w;
     location_history := location_history w;
     effects := effects w; timers := timers w |}.

Definition set_notification_summary
    (f : list NotificationSummary.t -> list NotificationSummary.t)
    (w : World) : World :=
  {| locked_locations := locked_locations w;
     location_lock_history := location_lock_history w;
     user_push_tokens := user_push_tokens w;
     movement_alerts := movement_alerts w;
     notification_summary := f (notification_summary w);
     failed_tokens := failed_tokens w;
     location_history := location_history w;
     effects := effects w; timers := timers w |}.

Definition set_failed_tokens (f : list FailedTokens.t -> list FailedTokens.t)
    (w : World) : World :=
  {| locked_locations := locked_locations w;
     location_lock_history := location_lock_history w;
     user_push_tokens := user_push_tokens w;
     movement_alerts := movement_alerts w;
     notification_summary := notification_summary w;
     failed_tokens := f (failed_tokens w);
     location_history := location_history w;
     effects := effects w; timers := timers w |}.

Definition set_location_history (f : list LocationHistory.t -> list LocationHistory.t)
    (w : World) : World :=
  {| locked_locations := locked_locations w;
     location_lock_history := location_lock_history w;
     user_push_tokens := user_push_tokens w;
     movement_alerts := movement_alerts w;
     notification_summary := notification_summary w;
     failed_tokens := failed_tokens w;
     location_history := f (location_history w);
     effects := effects w; timers := timers w |}.

(** Record a remote call. *)
Definition emit (e : Effect) (w : World) : World :=
  {| locked_locations := locked_locations w;
     location_lock_history := location_lock_history w;
     user_push_tokens := user_push_tokens w;
     movement_alerts := movement_alerts w;
     notification_summary := notification_summary w;
     failed_tokens := failed_tokens w;
     location_history := location_history w;
     effects := e :: effects w; timers := timers w |}.

(** [setTimeout(callback, delay)]. *)
Definition setTimeout (c : TimerCallback) (ms : Z) (w : World) : World :=
  {| locked_locations := locked_locations w;
     location_lock_history := location_lock_history w;
     user_push_tokens := user_push_tokens w;
     movement_alerts := movement_alerts w;
     notification_summary := notification_summary w;
     failed_tokens := failed_tokens w;
     location_history := location_history w;
     effects := effects w;
     timers := {| callback := c; delay := ms |} :: timers w |}.

Definition empty_world : World :=
  {| locked_locations := ∅; location_lock_history := [];
     user_push_tokens := ∅; movement_alerts := [];
     notification_summary := []; failed_tokens := [];
     location_history := []; effects := []; timers := [] |}.

(** What a handler invocation gets from outside.  The outcome of a remote
    call is indexed by the number of remote calls made before it. *)
Record Env := {
  DEVICE_ID : string;
  serverTimestamp : nat;
  nowISO : string;
  toFixed : R -> nat -> string;
  nrf_patch_ok : nat -> bool;
  nrf_history : nat -> option LocationData;
  fcm_send_ok : nat -> bool;
  fcm_multicast : nat -> option (string -> bool);
  fcm_subscribe_ok : nat -> bool
}.

Definition FCM_ALERT_TOPIC (env : Env) : string :=
  ("device_" ++ DEVICE_ID env ++ "_movement_alerts")%string.

(** ** The LED indicator (lines 73-147) *)

Definition controlNRFCloudLED (env : Env) (deviceId : string) (ledConfig : LedConfig)
    (w : World) : bool * World :=
  let ok := nrf_patch_ok env (length (effects w)) in
  (ok, emit (NrfPatchState deviceId ledConfig ok) w).

Definition alertLedConfig : LedConfig :=
  {| red := 0; green := 0; blue := 255;
     duration_on_msec := 500; duration_off_msec := 1000; repetitions := 5 |}.

Definition ledOffConfig : LedConfig :=
  {| red := 0; green := 0; blue := 0;
     duration_on_msec := 0; duration_off_msec := 0; repetitions := 0 |}.

Definition turnOnMovementAlertLED (env : Env) (deviceId : string) (w : World) : World :=
  let '(_, w1) := controlNRFCloudLED env deviceId alertLedConfig w in
  setTimeout (TurnOffLED deviceId) 60000 w1.

Definition turnOffLED (env : Env) (deviceId : string) (w : World) : World :=
  snd (controlNRFCloudLED env deviceId ledOffConfig w).

(** A pending timer fires. *)
Definition run_timer (env : Env) (t : Timer) (w : World) : World :=
  match callback t with
  | TurnOffLED deviceId => turnOffLED env deviceId w
  end.

(** ** The notification dispatcher (lines 149-397) *)

Definition sendFCMNotification (env : Env) (movementAlert : MovementAlert.t)
    (w : World) : bool * World :=
  let ok := fcm_send_ok env (length (effects w)) in
  (ok, emit (FcmSend (FCM_ALERT_TOPIC env) movementAlert ok) w).

Definition sendFCMNotificationsToUsers (env : Env) (movementAlert : MovementAlert.t)
    (userTokens : list string) (w : World) : World :=
  match userTokens with
  | [] => w
  | _ :: _ =>
    match fcm_multicast env (length (effects w)) with
    | None => emit (FcmMulticast userTokens movementAlert None) w
    | Some outcome =>
      let responses := map outcome userTokens in
      let w1 := emit (FcmMulticast userTokens movementAlert (Some responses)) w in
      let failureCount := length (List.filter negb responses) in
      if (0 <? failureCount)%nat then
        let failedTokens :=
          map fst (List.filter (fun p => negb (snd p)) (combine userTokens responses)) in
        set_failed_tokens
          (cons {| FailedTokens.deviceId := MovementAlert.deviceId movementAlert;
                   FailedTokens.failedTokens := failedTokens;
                   FailedTokens.timestamp := serverTimestamp env |}) w1
      else w1
    end
  end.

(** The query [user_push_tokens where deviceId == d and active == true]. *)
Definition activeTokens (deviceId : string) (w : World) : list TokenData.t :=
  List.filter
    (fun d => bool_decide (TokenData.deviceId d = deviceId) && TokenData.active d)
    (map snd (map_to_list (user_push_tokens w))).

Definition fcmTokensOf (docs : list TokenData.t) : list string :=
  map TokenData.pushToken
      (List.filter (fun d => negb (bool_decide (TokenData.tokenType d = expo))) docs).

Definition expoTokensOf (docs : list TokenData.t) : list string :=
  map TokenData.pushToken
      (List.filter (fun d => bool_decide (TokenData.tokenType d = expo)) docs).

Definition sendMovementAlertNotification (env : Env) (movementAlert : MovementAlert.t)
    (w : World) : bool * World :=
  let w1 := turnOnMovementAlertLED env (MovementAlert.deviceId movementAlert) w in
  let tokenSnapshot := activeTokens (MovementAlert.deviceId movementAlert) w1 in
  match tokenSnapshot with
  | [] =>
    let '(_, w2) := sendFCMNotification env movementAlert w1 in
    (false, w2)
  | _ :: _ =>
    let fcmTokens := fcmTokensOf tokenSnapshot in
    let expoTokens := expoTokensOf tokenSnapshot in
    let '(fcmSuccess, w2) :=
      match fcmTokens with
      | [] => (false, w1)
      | _ :: _ => (true, sendFCMNotificationsToUsers env movementAlert fcmTokens w1)
      end in
    let expoSuccess := false in
    let '(_, w3) := sendFCMNotification env movementAlert w2 in
    let success := fcmSuccess || expoSuccess in
    let w4 :=
      set_notification_summary
        (cons {| NotificationSummary.deviceId := MovementAlert.deviceId movementAlert;
                 NotificationSummary.alertType := "movement_detected";
                 NotificationSummary.fcmTokenCount := length fcmTokens;
                 NotificationSummary.expoTokenCount := length expoTokens;
                 NotificationSummary.fcmSuccess := fcmSuccess;
                 NotificationSummary.expoSuccess := expoSuccess;
                 NotificationSummary.overallSuccess := success;
                 NotificationSummary.sentAt := serverTimestamp env;
                 NotificationSummary.alertData := movementAlert |}) w3 in
    (success, w4)
  end.

(** ** Lock and unlock (lines 399-548) *)

Record Reply := { status : nat; success : bool }.

Definition truthyO {A} (f : A -> bool) (x : option A) : bool :=
  match x with
  | Some a => f a
  | None => false
  end.

Module LockRequest.
Record location_t := {
  lat : option JsScalar;
  lon : option JsScalar;
  uncertainty : option R;
  serviceType : option string
}.
Record t := {
  deviceId : option string;
  lockedAt : option string;
  location : option location_t;
  originalLocationData : option string;
  status : option string;
  timestamp : option string
}.
End LockRequest.

(** The [try] block of the handler, lines 402-455.  Its [catch] branch
    (lines 458-466, status 500) is reached when
    [doc(deviceId)] or a write throws; it is outside the model, and the
    definition is the handler for device ids that Firestore accepts. *)
Definition postLockedLocation (env : Env) (body : LockRequest.t) (w : World)
    : Reply * World :=
  match LockRequest.deviceId body, LockRequest.location body with
  | Some deviceId, Some location =>
    match LockRequest.lat location, LockRequest.lon location with
    | Some lat, Some lon =>
      if truthyS deviceId && truthy lat && truthy lon then
        let lockedLocationData :=
          {| LockedLocation.deviceId := deviceId;
             LockedLocation.lockedAt := orS (LockRequest.lockedAt body) (nowISO env);
             LockedLocation.location :=
               {| LockedLocation.lat := parseFloat lat;
                  LockedLocation.lon := parseFloat lon;
                  LockedLocation.uncertainty := orNullR (LockRequest.uncertainty location);
                  LockedLocation.serviceType := orNullS (LockRequest.serviceType location) |};
             LockedLocation.originalLocationData :=
               orNullS (LockRequest.originalLocationData body);
             LockedLocation.status := orS (LockRequest.status body) "locked";
             LockedLocation.timestamp := orS (LockRequest.timestamp body) (nowISO env);
             LockedLocation.createdAt := serverTimestamp env;
             LockedLocation.updatedAt := serverTimestamp env;
             LockedLocation.lastMovementAlert := None;
             LockedLocation.lastAlertAt := None;
             LockedLocation.lastCheckedAt := None;
             LockedLocation.currentDistance := None;
             LockedLocation.alertCount := None |} in
        let w1 := set_locked_locations (insert deviceId lockedLocationData) w in
        let w2 := set_location_lock_history (cons (LockEntry lockedLocationData)) w1 in
        ({| status := 200; success := true |}, w2)
      else ({| status := 400; success := false |}, w)
    | _, _ => ({| status := 400; success := false |}, w)
    end
  | _, _ => ({| status := 400; success := false |}, w)
  end.

Module UnlockRequest.
Record t := {
  deviceId : option string;
  unlockedAt : option string;
  status : option string;
  timestamp : option string
}.
End UnlockRequest.

(** The [try] block of the handler, lines 475-535.  Its [catch] branch
    (lines 538-546, status 500) is outside the model, as
    above. *)
Definition clearLockedLocation (env : Env) (body : UnlockRequest.t) (w : World)
    : Reply * World :=
  if truthyO truthyS (UnlockRequest.deviceId body) then
    let deviceId := default EmptyString (UnlockRequest.deviceId body) in
    match locked_locations w !! deviceId with
    | None => ({| status := 404; success := false |}, w)
    | Some existingData =>
      let unlockData :=
        UnlockEntry deviceId
          (orS (UnlockRequest.unlockedAt body) (nowISO env))
          (orS (UnlockRequest.status body) "unlocked")
          (orS (UnlockRequest.timestamp body) (nowISO env))
          existingData (serverTimestamp env) in
      let w1 := set_locked_locations (delete deviceId) w in
      let w2 := set_location_lock_history (cons unlockData) w1 in
      ({| status := 200; success := true |}, w2)
    end
  else ({| status := 400; success := false |}, w).

(** ** Token registration (lines 551-627) *)

Module TokenRequest.
Record t := {
  deviceId : option string;
  fcmToken : option string;
  userId : option string;
  platform : option string;
  tokenType : option string
}.
End TokenRequest.

(** The document id of a registration: [`${deviceId}_${fcmToken.substring(0, 20)}`].
    Strings are byte strings here; tokens are ASCII. *)
Definition tokenId (deviceId fcmToken : string) : string :=
  (deviceId ++ "_" ++ substring 0 20 fcmToken)%string.

Definition isExpoToken (tokenType : option string) (fcmToken : string) : bool :=
  bool_decide (tokenType = Some "expo"%string)
  || String.prefix "ExponentPushToken[" fcmToken.

(** The [try] block of the handler, lines 555-614.  Its [catch] branch
    (lines 617-625, status 500) is reached when
    [doc(tokenId)] or the write throws; it is outside the model, and the
    definition is the handler for token document ids that Firestore
    accepts. *)
Definition registerFCMToken (env : Env) (body : TokenRequest.t) (w : World)
    : Reply * World :=
  match TokenRequest.deviceId body, TokenRequest.fcmToken body with
  | Some deviceId, Some fcmToken =>
    if truthyS deviceId && truthyS fcmToken then
      let isExpo := isExpoToken (TokenRequest.tokenType body) fcmToken in
      let doc :=
        {| TokenData.deviceId := deviceId;
           TokenData.pushToken := fcmToken;
           TokenData.tokenType := if isExpo then expo else fcm;
           TokenData.userId := orS (TokenRequest.userId body) "anonymous";
           TokenData.platform := orS (TokenRequest.platform body) "unknown";
           TokenData.registeredAt := serverTimestamp env;
           TokenData.lastUsed := serverTimestamp env;
           TokenData.active := true |} in
      let w1 := set_user_push_tokens (insert (tokenId deviceId fcmToken) doc) w in
      let w2 :=
        if isExpo then w1
        else emit (FcmSubscribe fcmToken (FCM_ALERT_TOPIC env)
                                (fcm_subscribe_ok env (length (effects w1)))) w1 in
      ({| status := 200; success := true |}, w2)
    else ({| status := 400; success := false |}, w)
  | _, _ => ({| status := 400; success := false |}, w)
  end.

(** ** On-demand alert listing (lines 630-731) *)

Module AlertsQuery.
Record t := {
  deviceId : option string;
  limit : option Z;
  severity : option string
}.
End AlertsQuery.

Definition parseSeverity (s : string) : option Severity :=
  if decide (s = "low"%string) then Some low
  else if decide (s = "medium"%string) then Some medium
  else if decide (s = "high"%string) then Some high
  else None.

(** The severity filter of the query: [None] when the parameter is absent or
    not one of the three names. *)
Definition severityFilter (q : AlertsQuery.t) : option Severity :=
  match AlertsQuery.severity q with
  | Some s => parseSeverity s
  | None => None
  end.

Definition queryDeviceId (env : Env) (q : AlertsQuery.t) : string :=
  orS (AlertsQuery.deviceId q) (DEVICE_ID env).

(** [parseInt(limit) || 10]: [None] stands for a parameter that does not
    parse. *)
Definition queryLimit (q : AlertsQuery.t) : Z :=
  match AlertsQuery.limit q with
  | Some n => if (n =? 0)%Z then 10%Z else n
  | None => 10%Z
  end.

Definition matchesQuery (deviceId : string) (sev : option Severity)
    (doc : nat * MovementAlert.t) : bool :=
  bool_decide (MovementAlert.deviceId (snd doc) = deviceId)
  && match sev with
     | Some s => bool_decide (MovementAlert.severity (snd doc) = s)
     | None => true
     end.

(** The documents the query returns, mapped to [{id: doc.id, ...doc.data()}]. *)
Definition listAlerts (env : Env) (q : AlertsQuery.t) (w : World) : list MovementAlert.t :=
  map (fun doc => MovementAlert.with_id (fst doc) (snd doc))
      (take (Z.to_nat (queryLimit q))
            (List.filter (matchesQuery (queryDeviceId env q) (severityFilter q))
                         (movement_alerts w))).

Definition Rgtb (x y : R) : bool := if Rlt_dec y x then true else false.

(** The filter of lines 666-670. *)
Definition needsNotification (alert : MovementAlert.t) : bool :=
  truthyR (MovementAlert.distance alert)
  && Rgtb (MovementAlert.distance alert) 10
  && negb (MovementAlert.notificationSent alert)
  && negb (bool_decide (MovementAlert.severity alert = low)).

Definition highDistanceAlertsOf (alerts : list MovementAlert.t) : list MovementAlert.t :=
  List.filter needsNotification alerts.

(** [doc(id).update(...)] on [movement_alerts]. *)
Definition update_alert (i : nat) (f : MovementAlert.t -> MovementAlert.t) (w : World) : World :=
  set_movement_alerts
    (map (fun doc => if decide (fst doc = i) then (fst doc, f (snd doc)) else doc)) w.

(** The body of the loop of lines 674-703. *)
Definition notifyAlert (env : Env) (deviceId : string) (alert : MovementAlert.t)
    (w : World) : World :=
  let w1 := turnOnMovementAlertLED env deviceId w in
  let '(notificationSent, w2) := sendMovementAlertNotification env alert w1 in
  match notificationSent, MovementAlert.id alert with
  | true, Some i => update_alert i (MovementAlert.mark_sent (serverTimestamp env)) w2
  | _, _ => w2
  end.

Module AlertsReply.
Record t := {
  deviceId : string;
  isLocked : bool;
  alertCount : nat;
  highDistanceAlertsCount : nat;
  currentDistance : R;
  lastAlertAt : option nat;
  alerts : list MovementAlert.t;
  notificationsSent : nat;
  ledActivated : bool
}.
End AlertsReply.

(** The handler.  A negative limit is rejected by the store (the limit of
    a Firestore query must be greater than or equal to zero), which the
    handler answers with status 500; the statements about the answer of a
    listing take a limit that is not negative.  The read of the lock
    document at line 660 is taken to succeed, as the id of the queried
    device is taken to be one that Firestore accepts. *)
Definition getMovementAlerts (env : Env) (q : AlertsQuery.t) (w : World)
    : (Reply + AlertsReply.t) * World :=
  if (queryLimit q <? 0)%Z then (inl {| status := 500; success := false |}, w)
  else
    let deviceId := queryDeviceId env q in
    let alerts := listAlerts env q w in
    let lockData := locked_locations w !! deviceId in
    let highDistanceAlerts := highDistanceAlertsOf alerts in
    let w' := fold_left (fun w alert => notifyAlert env deviceId alert w)
                        highDistanceAlerts w in
    (inr {| AlertsReply.deviceId := deviceId;
            AlertsReply.isLocked := bool_decide (is_Some lockData);
            AlertsReply.alertCount := length alerts;
            AlertsReply.highDistanceAlertsCount := length highDistanceAlerts;
            AlertsReply.currentDistance :=
              match lockData with
              | Some d => default 0 (orNullR (LockedLocation.currentDistance d))
              | None => 0
              end;
            AlertsReply.lastAlertAt :=
              match lockData with
              | Some d => LockedLocation.lastAlertAt d
              | None => None
              end;
            AlertsReply.alerts := alerts;
            AlertsReply.notificationsSent := length highDistanceAlerts;
            AlertsReply.ledActivated := (0 <? length highDistanceAlerts)%nat |},
     w').

(** ** The scheduled location check (lines 735-879) *)

(** The severity expression of line 810. *)
Definition severityOf (distance : R) : Severity :=
  if Rgtb distance 50 then high
  else if Rgtb distance 25 then medium
  else low.

(** [doc(id).update(...)] on [locked_locations]. *)
Definition update_lock (deviceId : string) (f : LockedLocation.t -> LockedLocation.t)
    (w : World) : World :=
  set_locked_locations (alter f deviceId) w.

(** The update of lines 842-847. *)
Definition lock_after_alert (now : nat) (movementAlert : MovementAlert.t) (distance : R)
    (d : LockedLocation.t) : LockedLocation.t :=
  {| LockedLocation.deviceId := LockedLocation.deviceId d;
     LockedLocation.lockedAt := LockedLocation.lockedAt d;
     LockedLocation.location := LockedLocation.location d;
     LockedLocation.originalLocationData := LockedLocation.originalLocationData d;
     LockedLocation.status := LockedLocation.status d;
     LockedLocation.timestamp := LockedLocation.timestamp d;
     LockedLocation.createdAt := LockedLocation.createdAt d;
     LockedLocation.updatedAt := LockedLocation.updatedAt d;
     LockedLocation.lastMovementAlert := Some movementAlert;
     LockedLocation.lastAlertAt := Some now;
     LockedLocation.lastCheckedAt := LockedLocation.lastCheckedAt d;
     LockedLocation.currentDistance := Some distance;
     LockedLocation.alertCount := Some (S (default O (LockedLocation.alertCount d))) |}.

(** The update of lines 858-862. *)
Definition lock_after_safe (now : nat) (distance : R)
    (d : LockedLocation.t) : LockedLocation.t :=
  {| LockedLocation.deviceId := LockedLocation.deviceId d;
     LockedLocation.lockedAt := LockedLocation.lockedAt d;
     LockedLocation.location := LockedLocation.location d;
     LockedLocation.originalLocationData := LockedLocation.originalLocationData d;
     LockedLocation.status := "locked_safe";
     LockedLocation.timestamp := LockedLocation.timestamp d;
     LockedLocation.createdAt := LockedLocation.createdAt d;
     LockedLocation.updatedAt := LockedLocation.updatedAt d;
     LockedLocation.lastMovementAlert := LockedLocation.lastMovementAlert d;
     LockedLocation.lastAlertAt := LockedLocation.lastAlertAt d;
     LockedLocation.lastCheckedAt := Some now;
     LockedLocation.currentDistance := Some distance;
     LockedLocation.alertCount := LockedLocation.alertCount d |}.

(** The alert object of lines 795-815. *)
Definition newMovementAlert (env : Env) (lockedData : LockedLocation.t)
    (currentLocation : LocationItem) (distance : R) : MovementAlert.t :=
  {| MovementAlert.id := None;
     MovementAlert.deviceId := DEVICE_ID env;
     MovementAlert.alertType := "movement_detected";
     MovementAlert.distance := distance;
     MovementAlert.threshold := 10;
     MovementAlert.lockedLocation :=
       {| lat := LockedLocation.lat (LockedLocation.location lockedData);
          lon := LockedLocation.lon (LockedLocation.location lockedData) |};
     MovementAlert.currentLocation :=
       {| lat := parseFloat (item_lat currentLocation);
          lon := parseFloat (item_lon currentLocation) |};
     MovementAlert.lockedAt := LockedLocation.lockedAt lockedData;
     MovementAlert.detectedAt := nowISO env;
     MovementAlert.severity := severityOf distance;
     MovementAlert.message :=
       ("Device moved " ++ toFixed env distance 1 ++ "m away from locked position")%string;
     MovementAlert.timestamp := serverTimestamp env;
     MovementAlert.source := "scheduled_check";
     MovementAlert.notificationSent := false;
     MovementAlert.notificationSentAt := None;
     MovementAlert.ledActivated := false;
     MovementAlert.ledActivatedAt := None |}.

(** The movement branch, lines 793-854, for a computed distance above 10. *)
Definition raiseMovementAlert (env : Env) (lockedData : LockedLocation.t)
    (currentLocation : LocationItem) (distance : R) (w1 : World) : World :=
  let deviceId := DEVICE_ID env in
  let movementAlert := newMovementAlert env lockedData currentLocation distance in
  let alertRef := length (movement_alerts w1) in
  let w2 := set_movement_alerts (cons (alertRef, movementAlert)) w1 in
  let w3 := turnOnMovementAlertLED env deviceId w2 in
  let '(notificationSent, w4) := sendMovementAlertNotification env movementAlert w3 in
  let w5 :=
    if notificationSent
    then update_alert alertRef (MovementAlert.mark_sent (serverTimestamp env)) w4
    else w4 in
  update_lock deviceId (lock_after_alert (serverTimestamp env) movementAlert distance) w5.

(** The distance check, lines 778-869, against an existing lock document. *)
Definition checkMovement (env : Env) (lockedData : LockedLocation.t)
    (currentLocation : LocationItem) (w1 : World) : World :=
  if truthy (item_lat currentLocation) && truthy (item_lon currentLocation) then
    let distance :=
      Geo.calculateDistance
        (LockedLocation.lat (LockedLocation.location lockedData))
        (LockedLocation.lon (LockedLocation.location lockedData))
        (parseFloat (item_lat currentLocation))
        (parseFloat (item_lon currentLocation)) in
    if Rgtb distance 10 then
      raiseMovementAlert env lockedData currentLocation distance w1
    else
      update_lock (DEVICE_ID env) (lock_after_safe (serverTimestamp env) distance) w1
  else w1.

(** The write of lines 762-768. *)
Definition storeLocationHistory (env : Env) (data : LocationData) (w0 : World) : World :=
  set_location_history
    (cons {| LocationHistory.deviceId := DEVICE_ID env;
             LocationHistory.latest := true;
             LocationHistory.data := data;
             LocationHistory.timestamp := serverTimestamp env;
             LocationHistory.source := "scheduled" |}) w0.

Definition scheduledLocationHistory (env : Env) (w : World) : World :=
  let deviceId := DEVICE_ID env in
  let answer := nrf_history env (length (effects w)) in
  let w0 := emit (NrfLocationHistory deviceId answer) w in
  match answer with
  | None => w0
  | Some data =>
    let w1 := storeLocationHistory env data w0 in
    match locked_locations w1 !! deviceId, items data with
    | Some lockedData, Some (currentLocation :: _) =>
      checkMovement env lockedData currentLocation w1
    | _, _ => w1
    end
  end.

(** ** Concurrent handlers

    Handlers of separate requests interleave at their [await]s.  An alert
    listing is cut at two of them: after the query snapshot, and after each
    round of its notification loop. *)

Inductive Handler :=
| Listing (env : Env) (q : AlertsQuery.t)
| Notifying (env : Env) (deviceId : string) (pending : list MovementAlert.t)
| Finished.

Definition handler_step (h : Handler) (w : World) : option (Handler * World) :=
  match h with
  | Listing env q =>
    if (queryLimit q <? 0)%Z then Some (Finished, w)
    else Some (Notifying env (queryDeviceId env q)
                         (highDistanceAlertsOf (listAlerts env q w)), w)
  | Notifying env deviceId [] => Some (Finished, w)
  | Notifying env deviceId (alert :: rest) =>
    Some (Notifying env deviceId rest, notifyAlert env deviceId alert w)
  | Finished => None
  end.

(** One handler of the pool takes a step. *)
Inductive step : list Handler * World -> list Handler * World -> Prop :=
| step_handler (hs : list Handler) (w : World) (i : nat) (h h' : Handler) (w' : World) :
    hs !! i = Some h ->
    handler_step h w = Some (h', w') ->
    step (hs, w) (<[i := h']> hs, w').

Inductive steps : list Handler * World -> list Handler * World -> Prop :=
| steps_refl c : steps c c
| steps_cons c1 c2 c3 : step c1 c2 -> steps c2 c3 -> steps c1 c3.

(** A handler run on its own, to completion. *)
Fixpoint run_handler (fuel : nat) (h : Handler) (w : World) : World :=
  match fuel with
  | O => w
  | S fuel' =>
    match handler_step h w with
    | Some (h', w') => run_handler fuel' h' w'
    | None => w
    end
  end.

(** ** Observations on the trace of remote calls *)

Definition is_activation (e : Effect) : bool :=
  match e with
  | NrfPatchState _ led _ => bool_decide (led = alertLedConfig)
  | _ => false
  end.

Definition activations (w : World) : nat := length (List.filter is_activation (effects w)).

(** Topic broadcasts and multicasts sent for the alert document [i]. *)
Definition is_dispatch_of (i : nat) (e : Effect) : bool :=
  match e with
  | FcmSend _ alert _ => bool_decide (MovementAlert.id alert = Some i)
  | _ => false
  end.

Definition dispatches_of (i : nat) (w : World) : nat :=
  length (List.filter (is_dispatch_of i) (effects w)).



(** The collections neither the dispatcher nor the indicator writes. *)
Definition untouched_by_dispatch (w w' : World) : Prop :=
  locked_locations w' = locked_locations w
  /\ location_lock_history w' = location_lock_history w
  /\ user_push_tokens w' = user_push_tokens w
  /\ movement_alerts w' = movement_alerts w
  /\ location_history w' = location_history w.

(** The summary document the dispatcher stores. *)
Definition summary_of (env : Env) (a : MovementAlert.t) (docs : list TokenData.t)
    (ok : bool) : NotificationSummary.t :=
  {| NotificationSummary.deviceId := MovementAlert.deviceId a;
     NotificationSummary.alertType := "movement_detected";
     NotificationSummary.fcmTokenCount := length (fcmTokensOf docs);
     NotificationSummary.expoTokenCount := length (expoTokensOf docs);
     NotificationSummary.fcmSuccess := ok;
     NotificationSummary.expoSuccess := false;
     NotificationSummary.overallSuccess := ok || false;
     NotificationSummary.sentAt := serverTimestamp env;
     NotificationSummary.alertData := a |}.

(** ** Auxiliary definitions of the statements *)

(** A sufficient condition for Firestore to accept [id] as the id of a
    document of a collection, [collection(c).doc(id)]: the id is not empty,
    has at most 1500 bytes, no forward slash, is neither [.] nor [..]
    and does not start with two underscores.  (An id with a slash is
    refused, or names a document of a sub-collection; the empty id is
    refused.) *)
Definition plainDocId (id : string) : bool :=
  negb (String.eqb id "")
  && (String.length id <=? 1500)%nat
  && match String.index 0 "/" id with Some _ => false | None => true end
  && negb (String.eqb id ".") && negb (String.eqb id "..")
  && negb (String.prefix "__" id).

(** [n] alert listings, one after the other. *)
Fixpoint repeatListing (n : nat) (env : Env) (q : AlertsQuery.t) (w : World) : World :=
  match n with
  | O => w
  | S n' => repeatListing n' env q (snd (getMovementAlerts env q w))
  end.

(** The update of one stored alert document by [update_alert]. *)
Definition mark_doc (now i : nat) (doc : nat * MovementAlert.t) : nat * MovementAlert.t :=
  if decide (fst doc = i) then (fst doc, MovementAlert.mark_sent now (snd doc)) else doc.

(** The updates a whole notification loop applies to one stored document
    when every dispatch returns [true]. *)
Definition mark_all (now : nat) (alerts : list MovementAlert.t)
    (doc : nat * MovementAlert.t) : nat * MovementAlert.t :=
  fold_left (fun d a => match MovementAlert.id a with
                        | Some i => mark_doc now i d
                        | None => d
                        end) alerts doc.

(** ** Scenarios *)

Module Scenario.

(** Lock request for device lar91 at (10, 20). *)
Definition lockRequest : LockRequest.t :=
  {| LockRequest.deviceId := Some "lar91"%string;
     LockRequest.lockedAt := Some "2024-05-01T10:00:00.000Z"%string;
     LockRequest.location :=
       Some {| LockRequest.lat := Some (JString "10" 10);
               LockRequest.lon := Some (JString "20" 20);
               LockRequest.uncertainty := None;
               LockRequest.serviceType := None |};
     LockRequest.originalLocationData := None;
     LockRequest.status := None;
     LockRequest.timestamp := None |}.

(** The nRF Cloud answer with the device at latitude [lat], longitude 20. *)
Definition answerAt (text : string) (lat : R) : LocationData :=
  {| items := Some [ {| item_lat := JString text lat; item_lon := JString "20" 20 |} ] |}.

(** An environment in which every remote call succeeds; [fixed] is the text
    [toFixed(1)] gives for the distance of the scenario. *)
Definition envAt (now : nat) (iso : string) (text : string) (lat : R) (fixed : string) : Env :=
  {| DEVICE_ID := "lar91";
     serverTimestamp := now;
     nowISO := iso;
     toFixed := fun _ _ => fixed;
     nrf_patch_ok := fun _ => true;
     nrf_history := fun _ => Some (answerAt text lat);
     fcm_send_ok := fun _ => true;
     fcm_multicast := fun _ => Some (fun _ => true);
     fcm_subscribe_ok := fun _ => true |}.

Definition envLock : Env := envAt 1 "2024-05-01T10:00:00.000Z" "10" 10 "0.0".
(** Two minutes later the device is 0.001 degrees (about 111.2 m) north. *)
Definition envMoved : Env := envAt 2 "2024-05-01T10:02:00.000Z" "10.001" 10.001 "111.2".
(** ... or 0.0004 degrees (about 44.5 m) north. *)
Definition envFar : Env := envAt 2 "2024-05-01T10:02:00.000Z" "10.0004" 10.0004 "44.5".
(** ... or 0.00015 degrees (about 16.7 m) north. *)
Definition envNear : Env := envAt 2 "2024-05-01T10:02:00.000Z" "10.00015" 10.00015 "16.7".
(** ... or where it was locked. *)
Definition envSame : Env := envAt 2 "2024-05-01T10:02:00.000Z" "10" 10 "0.0".

Definition locked : World := snd (postLockedLocation envLock lockRequest empty_world).

Definition lockedDoc : LockedLocation.t :=
  {| LockedLocation.deviceId := "lar91";
     LockedLocation.lockedAt := "2024-05-01T10:00:00.000Z";
     LockedLocation.location :=
       {| LockedLocation.lat := 10; LockedLocation.lon := 20;
          LockedLocation.uncertainty := None; LockedLocation.serviceType := None |};
     LockedLocation.originalLocationData := None;
     LockedLocation.status := "locked";
     LockedLocation.timestamp := "2024-05-01T10:00:00.000Z";
     LockedLocation.createdAt := 1;
     LockedLocation.updatedAt := 1;
     LockedLocation.lastMovementAlert := None;
     LockedLocation.lastAlertAt := None;
     LockedLocation.lastCheckedAt := None;
     LockedLocation.currentDistance := None;
     LockedLocation.alertCount := None |}.

Definition movedItem : LocationItem :=
  {| item_lat := JString "10.001" 10.001; item_lon := JString "20" 20 |}.

(** The alert the scheduled check raises for [envMoved]. *)
Definition movedAlert : MovementAlert.t :=
  newMovementAlert envMoved lockedDoc movedItem (Geo.calculateDistance 10 20 10.001 20).

(** The world after a scheduled check that found the device where it was
    locked. *)
Definition checkedSafe : World := scheduledLocationHistory envSame locked.


Definition envRelock : Env := envAt 3 "2024-05-01T10:03:00.000Z" "30" 30 "0.0".

(** Two registrations for the same device whose tokens agree on their first
    20 characters. *)
Definition tokenRequest (token : string) : TokenRequest.t :=
  {| TokenRequest.deviceId := Some "lar91"%string;
     TokenRequest.fcmToken := Some token;
     TokenRequest.userId := Some "owner"%string;
     TokenRequest.platform := Some "android"%string;
     TokenRequest.tokenType := None |}.

Definition tokenA : string := "fcm-token-0123456789-AAAA".
Definition tokenB : string := "fcm-token-0123456789-BBBB".

(** The lock document after that check, and the document the second lock
    request writes. *)
Definition checkedDoc : LockedLocation.t :=
  lock_after_safe 2 (Geo.calculateDistance 10 20 10 20) lockedDoc.


Definition farItem : LocationItem :=
  {| item_lat := JString "10.0004" 10.0004; item_lon := JString "20" 20 |}.

Definition nearItem : LocationItem :=
  {| item_lat := JString "10.00015" 10.00015; item_lon := JString "20" 20 |}.

(** The alert the scheduled check raises for [envNear]. *)
Definition nearAlert : MovementAlert.t :=
  newMovementAlert envNear lockedDoc nearItem (Geo.calculateDistance 10 20 10.00015 20).

(** The listing request without parameters. *)
Definition defaultQuery : AlertsQuery.t :=
  {| AlertsQuery.deviceId := None; AlertsQuery.limit := None; AlertsQuery.severity := None |}.

(** Later requests: a token registration, then alert listings. *)
Definition envRegister : Env := envAt 3 "2024-05-01T10:03:00.000Z" "10.001" 10.001 "111.2".
Definition envListing : Env := envAt 4 "2024-05-01T10:04:00.000Z" "10.001" 10.001 "111.2".

(** The device was checked while it had no token, then a token was
    registered: the stored alert is unmarked and a dispatch now succeeds. *)
Definition raceWorld : World :=
  snd (registerFCMToken envRegister (tokenRequest tokenA)
         (scheduledLocationHistory envMoved locked)).

(** The token document of that registration. *)
Definition tokenDocA : TokenData.t :=
  {| TokenData.deviceId := "lar91";
     TokenData.pushToken := tokenA;
     TokenData.tokenType := fcm;
     TokenData.userId := "owner";
     TokenData.platform := "android";
     TokenData.registeredAt := 3;
     TokenData.lastUsed := 3;
     TokenData.active := true |}.

End Scenario.

(** ** Further definitions *)

(** *** Lock status (lines 882-942) *)

Module LockedReply.
Record t := {
  deviceId : string;
  lockedLocation : LockedLocation.t;
  lockedAt : string;
  currentDistance : R;
  lastAlertAt : option nat;
  alertCount : nat;
  status : string
}.
End LockedReply.

(** The three answers of [getLockedLocation]: status 400, [isLocked: false],
    and [isLocked: true] with the stored document. *)
Inductive LockStatus :=
| MissingDeviceId
| NotLocked (deviceId : string)
| IsLocked (body : LockedReply.t).

Definition getLockedLocation (env : Env) (deviceId : option string) (w : World)
    : LockStatus :=
  let deviceId := orS deviceId (DEVICE_ID env) in
  if truthyS deviceId then
    match locked_locations w !! deviceId with
    | None => NotLocked deviceId
    | Some lockedData =>
      IsLocked
        {| LockedReply.deviceId := deviceId;
           LockedReply.lockedLocation := lockedData;
           LockedReply.lockedAt :=
             if truthyS (LockedLocation.lockedAt lockedData)
             then LockedLocation.lockedAt lockedData
             else LockedLocation.timestamp lockedData;
           LockedReply.currentDistance :=
             default 0 (orNullR (LockedLocation.currentDistance lockedData));
           LockedReply.lastAlertAt := LockedLocation.lastAlertAt lockedData;
           LockedReply.alertCount := default O (LockedLocation.alertCount lockedData);
           LockedReply.status :=
             if truthyS (LockedLocation.status lockedData)
             then LockedLocation.status lockedData
             else "locked" |}
    end
  else MissingDeviceId.

(** *** Further scenarios *)

Import Scenario.

(** A lock request on the equator, the latitude sent as the number 0. *)
Definition equatorRequest : LockRequest.t :=
  {| LockRequest.deviceId := Some "lar91"%string;
     LockRequest.lockedAt := None;
     LockRequest.location :=
       Some {| LockRequest.lat := Some (JNumber 0);
               LockRequest.lon := Some (JNumber 20);
               LockRequest.uncertainty := None;
               LockRequest.serviceType := None |};
     LockRequest.originalLocationData := None;
     LockRequest.status := None;
     LockRequest.timestamp := None |}.

Definition unlockRequest : UnlockRequest.t :=
  {| UnlockRequest.deviceId := Some "lar91"%string;
     UnlockRequest.unlockedAt := None;
     UnlockRequest.status := None;
     UnlockRequest.timestamp := None |}.

(** A registration without device id, and one of an Expo token. *)
Definition anonymousTokenRequest : TokenRequest.t :=
  {| TokenRequest.deviceId := None;
     TokenRequest.fcmToken := Some tokenA;
     TokenRequest.userId := None;
     TokenRequest.platform := None;
     TokenRequest.tokenType := None |}.

Definition expoToken : string := "ExponentPushToken[xxxxxxxxxxxxxxxxxxxxxx]".

Definition expoDoc : TokenData.t :=
  {| TokenData.deviceId := "lar91";
     TokenData.pushToken := expoToken;
     TokenData.tokenType := expo;
     TokenData.userId := "owner";
     TokenData.platform := "android";
     TokenData.registeredAt := 3;
     TokenData.lastUsed := 3;
     TokenData.active := true |}.

(** The device was checked while it had no token, then an Expo token was
    registered. *)
Definition expoWorld : World :=
  snd (registerFCMToken envRegister (tokenRequest expoToken)
         (scheduledLocationHistory envMoved locked)).

(** The telemetry request fails. *)
Definition envDown : Env :=
  {| DEVICE_ID := "lar91";
     serverTimestamp := 2;
     nowISO := "2024-05-01T10:02:00.000Z";
     toFixed := fun _ _ => "0.0"%string;
     nrf_patch_ok := fun _ => false;
     nrf_history := fun _ => None;
     fcm_send_ok := fun _ => false;
     fcm_multicast := fun _ => None;
     fcm_subscribe_ok := fun _ => false |}.

(** *** Requests served one after the other *)

Inductive Request :=
| LockRequested (env : Env) (body : LockRequest.t)
| UnlockRequested (env : Env) (body : UnlockRequest.t)
| TokenRegistered (env : Env) (body : TokenRequest.t)
| AlertsListed (env : Env) (q : AlertsQuery.t)
| CheckScheduled (env : Env)
| TimerFired (env : Env) (t : Timer).

Definition serve (r : Request) (w : World) : World :=
  match r with
  | LockRequested env body => snd (postLockedLocation env body w)
  | UnlockRequested env body => snd (clearLockedLocation env body w)
  | TokenRegistered env body => snd (registerFCMToken env body w)
  | AlertsListed env q => snd (getMovementAlerts env q w)
  | CheckScheduled env => scheduledLocationHistory env w
  | TimerFired env t => run_timer env t w
  end.

Definition serveAll (rs : list Request) (w : World) : World :=
  fold_left (fun w r => serve r w) rs w.

(** Nothing was removed from the collections that are filled with [add],
    from the trace of remote calls or from the timers. *)
Definition only_appends (w w' : World) : Prop :=
  location_lock_history w `suffix_of` location_lock_history w'
  /\ notification_summary w `suffix_of` notification_summary w'
  /\ failed_tokens w `suffix_of` failed_tokens w'
  /\ location_history w `suffix_of` location_history w'
  /\ effects w `suffix_of` effects w'
  /\ timers w `suffix_of` timers w'
  /\ (length (movement_alerts w) <= length (movement_alerts w'))%nat.

(** A stored alert document after a request: the same, or marked as sent. *)
Definition same_or_marked (doc doc' : nat * MovementAlert.t) : Prop :=
  doc' = doc \/ exists now, doc' = (fst doc, MovementAlert.mark_sent now (snd doc)).

(** *** Conditions on a store *)

(** A stored alert as the scheduled check writes it. *)
Definition alert_consistent (a : MovementAlert.t) : Prop :=
  10 < MovementAlert.distance a
  /\ MovementAlert.threshold a = 10
  /\ MovementAlert.severity a = severityOf (MovementAlert.distance a)
  /\ MovementAlert.source a = "scheduled_check"%string.

(** The alerts are consistent and their document ids count down from the
    newest to 0. *)
Definition alerts_consistent (w : World) : Prop :=
  Forall (fun doc => alert_consistent (snd doc)) (movement_alerts w)
  /\ map fst (movement_alerts w) = rev (seq 0 (length (movement_alerts w))).

(** Every lock document is stored under its device id, every token document
    under the id built from its device and token, and every token document
    is active. *)
Definition keys_consistent (w : World) : Prop :=
  (forall key doc, locked_locations w !! key = Some doc ->
     LockedLocation.deviceId doc = key /\ truthyS key = true)
  /\ (forall key doc, user_push_tokens w !! key = Some doc ->
        key = tokenId (TokenData.deviceId doc) (TokenData.pushToken doc)
        /\ TokenData.active doc = true).

(** Every timer set so far belongs to one activation command sent so far,
    and runs for 60000 ms. *)
Definition timers_consistent (w : World) : Prop :=
  length (timers w) = activations w
  /\ Forall (fun t => delay t = 60000%Z) (timers w).

(** The order of the severities. *)
Definition severity_rank (s : Severity) : nat :=
  match s with
  | low => 0
  | medium => 1
  | high => 2
  end.

(** * Properties *)

(** ** The distance *)

Module GeoFacts.
Import Geo.

Lemma sin_sq_opp (x y : R) : x = - y -> sin x * sin x = sin y * sin y.
Proof. intros ->. rewrite sin_neg. lra. Qed.

Lemma calculateDistance_sym (lat1 lon1 lat2 lon2 : R) :
  calculateDistance lat1 lon1 lat2 lon2 = calculateDistance lat2 lon2 lat1 lon1.
Proof.
  unfold calculateDistance; cbv zeta.
  set (u := (lat2 - lat1) * PI / 180 / 2). set (u' := (lat1 - lat2) * PI / 180 / 2).
  set (v := (lon2 - lon1) * PI / 180 / 2). set (v' := (lon1 - lon2) * PI / 180 / 2).
  assert (Hu : sin u * sin u = sin u' * sin u') by (apply sin_sq_opp; unfold u, u'; lra).
  assert (Hv : sin v * sin v = sin v' * sin v') by (apply sin_sq_opp; unfold v, v'; lra).
  set (c1 := cos (lat1 * PI / 180)). set (c2 := cos (lat2 * PI / 180)).
  assert (Ha : sin u * sin u + c1 * c2 * sin v * sin v
               = sin u' * sin u' + c2 * c1 * sin v' * sin v').
  { rewrite Hu. rewrite !Rmult_assoc. rewrite Hv. lra. }
  rewrite Ha. reflexivity.
Qed.

Lemma calculateDistance_same (lat lon : R) : calculateDistance lat lon lat lon = 0.
Proof.
  unfold calculateDistance; cbv zeta.
  replace ((lat - lat) * PI / 180 / 2) with 0 by lra.
  replace ((lon - lon) * PI / 180 / 2) with 0 by lra.
  rewrite sin_0.
  replace (0 * 0 + cos (lat * PI / 180) * cos (lat * PI / 180) * 0 * 0) with 0 by lra.
  rewrite Rminus_0_r, sqrt_0, sqrt_1.
  unfold atan2. destruct (Rlt_dec 0 1); [|lra].
  replace (0 / 1) with 0 by lra. rewrite atan_0. lra.
Qed.

(** Along a meridian, northwards, the distance is the arc length. *)
Lemma calculateDistance_meridian (lat1 lat2 lon : R) :
  0 <= lat2 - lat1 < 180 ->
  calculateDistance lat1 lon lat2 lon = 6371000 * ((lat2 - lat1) * PI / 180).
Proof.
  intros Hd. unfold calculateDistance; cbv zeta.
  set (u := (lat2 - lat1) * PI / 180 / 2).
  replace ((lon - lon) * PI / 180 / 2) with 0 by lra.
  rewrite sin_0.
  assert (Hpi := PI_RGT_0).
  assert (Hu : 0 <= u < PI / 2) by (unfold u; split; nra).
  assert (Hs : 0 <= sin u) by (apply sin_ge_0; lra).
  assert (Hc : 0 < cos u) by (apply cos_gt_0; lra).
  replace (sin u * sin u + cos (lat1 * PI / 180) * cos (lat2 * PI / 180) * 0 * 0)
    with (sin u * sin u) by lra.
  assert (H1 : 1 - sin u * sin u = cos u * cos u).
  { generalize (sin2_cos2 u). unfold Rsqr. lra. }
  rewrite H1, !sqrt_square by lra.
  unfold atan2. destruct (Rlt_dec 0 (cos u)); [|lra].
  change (sin u / cos u) with (tan u).
  rewrite atan_tan by lra. unfold u. lra.
Qed.

Lemma PI_bounds : 2 < PI < 7 / 2.
Proof.
  split; [generalize PI2_1; lra|].
  pose proof (PI_ineq 1) as [_ H].
  unfold sum_f_R0, tg_alt, PI_tg in H. simpl in H. lra.
Qed.

End GeoFacts.

(** C8. The distance is symmetric in its two positions, and it is 0 between
    a position and itself. *)
Theorem calculateDistance_symmetric_zero :
  (forall lat1 lon1 lat2 lon2 : R,
      Geo.calculateDistance lat1 lon1 lat2 lon2 = Geo.calculateDistance lat2 lon2 lat1 lon1)
  /\ (forall lat lon : R, Geo.calculateDistance lat lon lat lon = 0).
Proof.
  split.
  - apply GeoFacts.calculateDistance_sym.
  - apply GeoFacts.calculateDistance_same.
Qed.

(** ** The dispatcher and the indicator, path by path *)

Section Dispatch.
Variable env : Env.

Lemma untouched_refl w : untouched_by_dispatch w w.
Proof. repeat split. Qed.

Lemma untouched_trans w1 w2 w3 :
  untouched_by_dispatch w1 w2 -> untouched_by_dispatch w2 w3 -> untouched_by_dispatch w1 w3.
Proof.
  unfold untouched_by_dispatch. intros (?&?&?&?&?) (?&?&?&?&?).
  repeat split; congruence.
Qed.

Lemma activeTokens_untouched d w w' :
  untouched_by_dispatch w w' -> activeTokens d w' = activeTokens d w.
Proof. intros (_&_&H&_). unfold activeTokens. now rewrite H. Qed.

Lemma turnOn_untouched d w : untouched_by_dispatch w (turnOnMovementAlertLED env d w).
Proof. repeat split. Qed.

Lemma turnOn_effects d w :
  effects (turnOnMovementAlertLED env d w)
  = NrfPatchState d alertLedConfig (nrf_patch_ok env (length (effects w))) :: effects w.
Proof. reflexivity. Qed.

Lemma turnOn_timers d w :
  timers (turnOnMovementAlertLED env d w)
  = {| callback := TurnOffLED d; delay := 60000 |} :: timers w.
Proof. reflexivity. Qed.

Lemma toUsers_untouched a toks w :
  untouched_by_dispatch w (sendFCMNotificationsToUsers env a toks w).
Proof.
  unfold sendFCMNotificationsToUsers.
  destruct toks; [apply untouched_refl|].
  destruct (fcm_multicast env _); [|repeat split].
  cbv zeta. destruct (0 <? _)%nat; repeat split.
Qed.

Lemma toUsers_timers a toks w :
  timers (sendFCMNotificationsToUsers env a toks w) = timers w.
Proof.
  unfold sendFCMNotificationsToUsers.
  destruct toks; [reflexivity|].
  destruct (fcm_multicast env _); [|reflexivity].
  cbv zeta. destruct (0 <? _)%nat; reflexivity.
Qed.

Lemma toUsers_summary a toks w :
  notification_summary (sendFCMNotificationsToUsers env a toks w) = notification_summary w.
Proof.
  unfold sendFCMNotificationsToUsers.
  destruct toks; [reflexivity|].
  destruct (fcm_multicast env _); [|reflexivity].
  cbv zeta. destruct (0 <? _)%nat; reflexivity.
Qed.

(** A non-empty multicast records exactly one remote call. *)
Lemma toUsers_effects a tok toks w :
  exists responses,
    effects (sendFCMNotificationsToUsers env a (tok :: toks) w)
    = FcmMulticast (tok :: toks) a responses :: effects w.
Proof.
  unfold sendFCMNotificationsToUsers.
  destruct (fcm_multicast env _); [|eexists; reflexivity].
  cbv zeta. destruct (0 <? _)%nat; eexists; reflexivity.
Qed.

(** The three paths of the dispatcher. *)
Lemma dispatch_no_tokens a w :
  activeTokens (MovementAlert.deviceId a) w = [] ->
  sendMovementAlertNotification env a w
  = (false,
     emit (FcmSend (FCM_ALERT_TOPIC env) a (fcm_send_ok env (S (length (effects w)))))
          (turnOnMovementAlertLED env (MovementAlert.deviceId a) w)).
Proof.
  intros H. unfold sendMovementAlertNotification. cbv zeta.
  rewrite (activeTokens_untouched _ _ _ (turnOn_untouched _ w)), H.
  reflexivity.
Qed.

Lemma dispatch_no_fcm a w :
  activeTokens (MovementAlert.deviceId a) w <> [] ->
  fcmTokensOf (activeTokens (MovementAlert.deviceId a) w) = [] ->
  sendMovementAlertNotification env a w
  = (false,
     set_notification_summary
       (cons (summary_of env a (activeTokens (MovementAlert.deviceId a) w) false))
       (emit (FcmSend (FCM_ALERT_TOPIC env) a (fcm_send_ok env (S (length (effects w)))))
             (turnOnMovementAlertLED env (MovementAlert.deviceId a) w))).
Proof.
  intros Hne H. unfold sendMovementAlertNotification. cbv zeta.
  rewrite (activeTokens_untouched _ _ _ (turnOn_untouched _ w)).
  destruct (activeTokens _ w) as [|t l] eqn:E; [congruence|].
  unfold summary_of. rewrite H. reflexivity.
Qed.

Lemma dispatch_fcm a w :
  fcmTokensOf (activeTokens (MovementAlert.deviceId a) w) <> [] ->
  exists w2,
    w2 = sendFCMNotificationsToUsers env a
           (fcmTokensOf (activeTokens (MovementAlert.deviceId a) w))
           (turnOnMovementAlertLED env (MovementAlert.deviceId a) w)
    /\ sendMovementAlertNotification env a w
       = (true,
          set_notification_summary
            (cons (summary_of env a (activeTokens (MovementAlert.deviceId a) w) true))
            (emit (FcmSend (FCM_ALERT_TOPIC env) a (fcm_send_ok env (length (effects w2)))) w2)).
Proof.
  intros H. eexists; split; [reflexivity|].
  unfold sendMovementAlertNotification. cbv zeta.
  rewrite (activeTokens_untouched _ _ _ (turnOn_untouched _ w)).
  destruct (activeTokens _ w) as [|t l] eqn:E; [now destruct H|].
  unfold summary_of.
  destruct (fcmTokensOf (t :: l)) as [|tok toks] eqn:F; [congruence|].
  reflexivity.
Qed.
End Dispatch.

(** Case analysis on the path a dispatch takes. *)
Ltac dispatch_paths env a w :=
  let E := fresh "Htokens" in
  let F := fresh "Hfcm" in
  let w2 := fresh "w2" in
  let Hw2 := fresh "Hw2" in
  destruct (decide (activeTokens (MovementAlert.deviceId a) w = [])) as [E|E];
  [ rewrite (dispatch_no_tokens env a w E)
  | destruct (decide (fcmTokensOf (activeTokens (MovementAlert.deviceId a) w) = [])) as [F|F];
    [ rewrite (dispatch_no_fcm env a w E F)
    | destruct (dispatch_fcm env a w F) as (w2 & Hw2 & ->) ] ].

Lemma dispatch_untouched env a w :
  untouched_by_dispatch w (snd (sendMovementAlertNotification env a w)).
Proof.
  dispatch_paths env a w; cbn [snd].
  - repeat split.
  - repeat split.
  - apply untouched_trans with w2; [|repeat split].
    subst w2. eapply untouched_trans; [apply (turnOn_untouched env)|apply toUsers_untouched].
Qed.

Lemma dispatch_timers env a w :
  timers (snd (sendMovementAlertNotification env a w))
  = {| callback := TurnOffLED (MovementAlert.deviceId a); delay := 60000 |} :: timers w.
Proof.
  dispatch_paths env a w; cbn [snd]; try reflexivity.
  cbn. subst w2. now rewrite toUsers_timers.
Qed.

Lemma dispatch_result env a w :
  fst (sendMovementAlertNotification env a w) = true
  <-> fcmTokensOf (activeTokens (MovementAlert.deviceId a) w) <> [].
Proof.
  dispatch_paths env a w; cbn [fst].
  - rewrite Htokens. split; [discriminate|intros []; reflexivity].
  - rewrite Hfcm. split; [discriminate|intros []; reflexivity].
  - split; [intros _; exact Hfcm|reflexivity].
Qed.

(** The remote calls of one dispatch: the LED command first, at most one
    multicast, the topic broadcast last. *)
Lemma dispatch_effects env a w :
  exists ok ok' mc,
    effects (snd (sendMovementAlertNotification env a w))
    = FcmSend (FCM_ALERT_TOPIC env) a ok
      :: mc ++ NrfPatchState (MovementAlert.deviceId a) alertLedConfig ok' :: effects w
    /\ (mc = []
        \/ exists toks r, toks <> [] /\ mc = [FcmMulticast toks a r]
             /\ toks = fcmTokensOf (activeTokens (MovementAlert.deviceId a) w)).
Proof.
  dispatch_paths env a w; cbn [snd].
  - do 2 eexists. exists []. split; [reflexivity|now left].
  - do 2 eexists. exists []. split; [reflexivity|now left].
  - destruct (fcmTokensOf _) as [|tok toks] eqn:F; [done|].
    destruct (toUsers_effects env a tok toks
                (turnOnMovementAlertLED env (MovementAlert.deviceId a) w)) as [r Hr].
    rewrite <- Hw2 in Hr.
    do 2 eexists. exists [FcmMulticast (tok :: toks) a r]. split.
    + cbn. rewrite Hr. reflexivity.
    + right. exists (tok :: toks), r. done.
Qed.


Lemma dispatch_summary_no_tokens env a w :
  activeTokens (MovementAlert.deviceId a) w = [] ->
  notification_summary (snd (sendMovementAlertNotification env a w)) = notification_summary w.
Proof. intros H. now rewrite dispatch_no_tokens. Qed.

(** ** The scheduled check, branch by branch *)

Lemma Rgtb_true x y : y < x -> Rgtb x y = true.
Proof. intros H. unfold Rgtb. destruct (Rlt_dec y x); [reflexivity|lra]. Qed.

Lemma Rgtb_false x y : x <= y -> Rgtb x y = false.
Proof. intros H. unfold Rgtb. destruct (Rlt_dec y x); [lra|reflexivity]. Qed.

Lemma truthyR_true x : x <> 0 -> truthyR x = true.
Proof. intros H. unfold truthyR. destruct (Req_dec_T x 0); [contradiction|reflexivity]. Qed.

Lemma severityOf_low d : d <= 25 -> severityOf d = low.
Proof. intros H. unfold severityOf. rewrite !Rgtb_false by lra. reflexivity. Qed.

Lemma severityOf_medium d : 25 < d <= 50 -> severityOf d = medium.
Proof.
  intros H. unfold severityOf. rewrite Rgtb_false by lra. rewrite Rgtb_true by lra. reflexivity.
Qed.

Lemma severityOf_high d : 50 < d -> severityOf d = high.
Proof. intros H. unfold severityOf. rewrite Rgtb_true by lra. reflexivity. Qed.

(** The world in which the distance check runs. *)
Lemma tick_checks env w data item rest lockedData :
  nrf_history env (length (effects w)) = Some data ->
  items data = Some (item :: rest) ->
  locked_locations w !! DEVICE_ID env = Some lockedData ->
  scheduledLocationHistory env w
  = checkMovement env lockedData item
      (storeLocationHistory env data
         (emit (NrfLocationHistory (DEVICE_ID env) (Some data)) w)).
Proof.
  intros Ha Hi Hl. unfold scheduledLocationHistory. cbv zeta.
  rewrite Ha. cbn [locked_locations storeLocationHistory set_location_history emit].
  rewrite Hl, Hi. reflexivity.
Qed.

Lemma checkMovement_moved env lockedData item w1 :
  truthy (item_lat item) = true -> truthy (item_lon item) = true ->
  10 < Geo.calculateDistance
         (LockedLocation.lat (LockedLocation.location lockedData))
         (LockedLocation.lon (LockedLocation.location lockedData))
         (parseFloat (item_lat item)) (parseFloat (item_lon item)) ->
  checkMovement env lockedData item w1
  = raiseMovementAlert env lockedData item
      (Geo.calculateDistance
         (LockedLocation.lat (LockedLocation.location lockedData))
         (LockedLocation.lon (LockedLocation.location lockedData))
         (parseFloat (item_lat item)) (parseFloat (item_lon item))) w1.
Proof.
  intros Hlat Hlon Hd. unfold checkMovement. rewrite Hlat, Hlon. cbn [andb].
  cbv zeta. now rewrite Rgtb_true.
Qed.

Lemma checkMovement_safe env lockedData item w1 :
  truthy (item_lat item) = true -> truthy (item_lon item) = true ->
  Geo.calculateDistance
    (LockedLocation.lat (LockedLocation.location lockedData))
    (LockedLocation.lon (LockedLocation.location lockedData))
    (parseFloat (item_lat item)) (parseFloat (item_lon item)) <= 10 ->
  checkMovement env lockedData item w1
  = update_lock (DEVICE_ID env)
      (lock_after_safe (serverTimestamp env)
         (Geo.calculateDistance
            (LockedLocation.lat (LockedLocation.location lockedData))
            (LockedLocation.lon (LockedLocation.location lockedData))
            (parseFloat (item_lat item)) (parseFloat (item_lon item)))) w1.
Proof.
  intros Hlat Hlon Hd. unfold checkMovement. rewrite Hlat, Hlon. cbn [andb].
  cbv zeta. now rewrite Rgtb_false.
Qed.

(** The alert a movement branch stores: a new head document whose id is the
    former size of the collection. *)
Lemma raise_movement_alerts env lockedData item d w1 :
  exists a rest,
    movement_alerts (raiseMovementAlert env lockedData item d w1)
    = (length (movement_alerts w1), a) :: rest
    /\ length rest = length (movement_alerts w1)
    /\ MovementAlert.severity a = severityOf d
    /\ MovementAlert.distance a = d
    /\ MovementAlert.deviceId a = DEVICE_ID env.
Proof.
  unfold raiseMovementAlert. cbv zeta.
  set (a := newMovementAlert env lockedData item d).
  set (w2 := set_movement_alerts _ w1).
  set (w3 := turnOnMovementAlertLED env (DEVICE_ID env) w2).
  destruct (sendMovementAlertNotification env a w3) as [sent w4] eqn:E.
  assert (Hu : movement_alerts w4 = movement_alerts w2).
  { pose proof (dispatch_untouched env a w3) as (_&_&_&H&_). rewrite E in H. exact H. }
  destruct sent; cbn; rewrite Hu; cbn.
  - rewrite decide_True by reflexivity.
    eexists _, _. split; [reflexivity|]. rewrite length_map. repeat split.
  - eexists _, _. split; [reflexivity|]. repeat split.
Qed.

Lemma activations_eq w w' : effects w = effects w' -> activations w = activations w'.
Proof. unfold activations. now intros ->. Qed.

(** One dispatch activates the indicator once. *)
Lemma dispatch_activations env a w :
  activations (snd (sendMovementAlertNotification env a w)) = S (activations w).
Proof.
  destruct (dispatch_effects env a w) as (ok & ok' & mc & He & Hmc).
  unfold activations. rewrite He. cbn [List.filter is_activation].
  rewrite List.filter_app. cbn [List.filter is_activation].
  rewrite bool_decide_eq_true_2 by reflexivity.
  rewrite length_app. cbn [length].
  destruct Hmc as [->|(toks & r & _ & -> & _)]; cbn; lia.
Qed.

(** A movement branch activates the indicator twice: line 821, then line 303. *)
Lemma raise_activations env lockedData item d w1 :
  activations (raiseMovementAlert env lockedData item d w1) = S (S (activations w1)).
Proof.
  unfold raiseMovementAlert. cbv zeta.
  set (a := newMovementAlert env lockedData item d).
  set (w2 := set_movement_alerts _ w1).
  set (w3 := turnOnMovementAlertLED env (DEVICE_ID env) w2).
  pose proof (dispatch_activations env a w3) as H.
  destruct (sendMovementAlertNotification env a w3) as [sent w4] eqn:E.
  cbn [snd] in H.
  assert (H3 : activations w3 = S (activations w1)).
  { unfold activations, w3, w2. cbn. rewrite bool_decide_eq_true_2 by reflexivity. reflexivity. }
  transitivity (activations w4).
  - apply activations_eq. destruct sent; reflexivity.
  - now rewrite H, H3.
Qed.

Lemma raise_timers env lockedData item d w1 :
  timers (raiseMovementAlert env lockedData item d w1)
  = {| callback := TurnOffLED (DEVICE_ID env); delay := 60000 |}
    :: {| callback := TurnOffLED (DEVICE_ID env); delay := 60000 |}
    :: timers w1.
Proof.
  unfold raiseMovementAlert. cbv zeta.
  set (a := newMovementAlert env lockedData item d).
  set (w2 := set_movement_alerts _ w1).
  set (w3 := turnOnMovementAlertLED env (DEVICE_ID env) w2).
  pose proof (dispatch_timers env a w3) as H.
  destruct (sendMovementAlertNotification env a w3) as [sent w4] eqn:E.
  cbn [snd] in H.
  transitivity (timers w4); [destruct sent; reflexivity|].
  rewrite H. reflexivity.
Qed.

(** ** Facts about the scenarios *)

Import Scenario.

Lemma locked_world :
  locked = set_location_lock_history (cons (LockEntry lockedDoc))
             (set_locked_locations (insert "lar91"%string lockedDoc) empty_world).
Proof. reflexivity. Qed.

Lemma locked_lookup : locked_locations locked !! "lar91"%string = Some lockedDoc.
Proof. rewrite locked_world. cbn. apply lookup_insert_eq. Qed.

Lemma d_moved : Geo.calculateDistance 10 20 10.001 20 = 6371000 * ((10.001 - 10) * PI / 180).
Proof. apply GeoFacts.calculateDistance_meridian. lra. Qed.
Lemma d_moved_gt : 50 < Geo.calculateDistance 10 20 10.001 20.
Proof. rewrite d_moved. pose proof GeoFacts.PI_bounds. lra. Qed.
Lemma d_near : 10 < Geo.calculateDistance 10 20 10.00015 20 <= 25.
Proof. rewrite GeoFacts.calculateDistance_meridian by lra. pose proof GeoFacts.PI_bounds. lra. Qed.

Lemma d_far : 25 < Geo.calculateDistance 10 20 10.0004 20 <= 50.
Proof. rewrite GeoFacts.calculateDistance_meridian by lra. pose proof GeoFacts.PI_bounds. lra. Qed.

(** ** Severity tiers *)

(** C2. On a scheduled check that reaches the distance test, with [d] the
    computed distance: [d <= 10] stores no alert; [10 < d <= 25] stores
    one alert of severity low; [25 < d <= 50] one of severity medium;
    [50 < d] one of severity high. *)
Theorem severity_tiers (env : Env) (w : World) (data : LocationData)
    (item : LocationItem) (rest : list LocationItem) (lockedData : LockedLocation.t) :
  nrf_history env (length (effects w)) = Some data ->
  items data = Some (item :: rest) ->
  locked_locations w !! DEVICE_ID env = Some lockedData ->
  truthy (item_lat item) = true ->
  truthy (item_lon item) = true ->
  let d := Geo.calculateDistance
             (LockedLocation.lat (LockedLocation.location lockedData))
             (LockedLocation.lon (LockedLocation.location lockedData))
             (parseFloat (item_lat item)) (parseFloat (item_lon item)) in
  let w' := scheduledLocationHistory env w in
  let stored (s : Severity) :=
    exists a older,
      movement_alerts w' = (length (movement_alerts w), a) :: older
      /\ length older = length (movement_alerts w)
      /\ MovementAlert.severity a = s
      /\ MovementAlert.distance a = d in
  (d <= 10 -> movement_alerts w' = movement_alerts w)
  /\ (10 < d <= 25 -> stored low)
  /\ (25 < d <= 50 -> stored medium)
  /\ (50 < d -> stored high).
Proof.
  intros Ha Hi Hl Hlat Hlon d w' stored.
  assert (Hw' : w' = checkMovement env lockedData item
                       (storeLocationHistory env data
                          (emit (NrfLocationHistory (DEVICE_ID env) (Some data)) w)))
    by (apply (tick_checks env w data item rest lockedData Ha Hi Hl)).
  assert (Hmoved : forall s, 10 < d -> severityOf d = s -> stored s).
  { intros s Hd Hs. unfold stored. rewrite Hw'.
    rewrite checkMovement_moved by assumption. fold d.
    destruct (raise_movement_alerts env lockedData item d
                (storeLocationHistory env data
                   (emit (NrfLocationHistory (DEVICE_ID env) (Some data)) w)))
      as (a & older & Hm & Hlen & Hsev & Hdist & _).
    exists a, older. cbn in Hm, Hlen. repeat split; try assumption. congruence. }
  repeat split.
  - intros Hd. rewrite Hw'. rewrite checkMovement_safe by assumption. reflexivity.
  - intros [H1 H2]. apply Hmoved; [assumption|]. now apply severityOf_low.
  - intros [H1 H2]. apply Hmoved; [lra|]. now apply severityOf_medium.
  - intros H1. apply Hmoved; [lra|]. now apply severityOf_high.
Qed.

(** The scheduled check of [envMoved]: 0.001 degrees north, severity high. *)
Lemma severity_tiers_witness :
  exists a older,
    movement_alerts (scheduledLocationHistory envMoved locked) = (0%nat, a) :: older
    /\ length older = 0%nat
    /\ MovementAlert.severity a = high
    /\ MovementAlert.distance a = Geo.calculateDistance 10 20 10.001 20.
Proof.
  destruct (severity_tiers envMoved locked (answerAt "10.001" 10.001)
              {| item_lat := JString "10.001" 10.001; item_lon := JString "20" 20 |}
              [] lockedDoc eq_refl eq_refl locked_lookup eq_refl eq_refl)
    as (_ & _ & _ & Hhigh).
  exact (Hhigh d_moved_gt).
Defined.

(** The device 0.0004 degrees north of its lock position: one alert of
    severity medium. *)
Example far_check_is_medium :
  exists a older,
    movement_alerts (scheduledLocationHistory envFar locked) = (0%nat, a) :: older
    /\ MovementAlert.severity a = medium.
Proof.
  rewrite (tick_checks envFar locked (answerAt "10.0004" 10.0004) farItem []
             lockedDoc eq_refl eq_refl locked_lookup).
  rewrite checkMovement_moved
    by (first [reflexivity | pose proof d_far as H; apply Rlt_trans with 25; [lra|exact (proj1 H)]]).
  destruct (raise_movement_alerts envFar lockedDoc farItem
              (Geo.calculateDistance 10 20 10.0004 20)
              (storeLocationHistory envFar (answerAt "10.0004" 10.0004)
                 (emit (NrfLocationHistory (DEVICE_ID envFar)
                          (Some (answerAt "10.0004" 10.0004))) locked)))
    as (a & older & Hm & _ & Hs & _).
  exists a, older. split; [exact Hm|].
  rewrite Hs. apply severityOf_medium. exact d_far.
Qed.

(** ** Dispatch for a device without tokens *)

Lemma activeTokens_no_docs deviceId w :
  user_push_tokens w = ∅ -> activeTokens deviceId w = [].
Proof. intros H. unfold activeTokens. rewrite H, map_to_list_empty. reflexivity. Qed.

Lemma locked_no_tokens : activeTokens (MovementAlert.deviceId movedAlert) locked = [].
Proof. apply activeTokens_no_docs. reflexivity. Qed.

Lemma d_moved_gt10 : 10 < Geo.calculateDistance 10 20 10.001 20.
Proof. pose proof d_moved_gt. lra. Qed.

(** C3, as stated, fails: the alert of the scenario is dispatched for a
    device without tokens, and no summary document is stored. *)
Lemma dispatch_without_tokens_stores_no_summary :
  activeTokens (MovementAlert.deviceId movedAlert) locked = []
  /\ notification_summary (snd (sendMovementAlertNotification envMoved movedAlert locked)) = [].
Proof.
  split; [exact locked_no_tokens|].
  rewrite dispatch_summary_no_tokens by exact locked_no_tokens. reflexivity.
Qed.

(** C3, amended. A dispatch for a device with no active token sends the
    indicator command and then the topic broadcast as its only notification
    call, returns [false], and stores neither a summary nor a failed-token
    document. *)
Theorem dispatch_without_tokens (env : Env) (a : MovementAlert.t) (w : World) :
  activeTokens (MovementAlert.deviceId a) w = [] ->
  let r := sendMovementAlertNotification env a w in
  fst r = false
  /\ (exists ok ok',
        effects (snd r)
        = FcmSend (FCM_ALERT_TOPIC env) a ok
          :: NrfPatchState (MovementAlert.deviceId a) alertLedConfig ok'
          :: effects w)
  /\ notification_summary (snd r) = notification_summary w
  /\ failed_tokens (snd r) = failed_tokens w.
Proof.
  intros H r. unfold r. rewrite (dispatch_no_tokens env a w H). cbn [fst snd].
  repeat split. do 2 eexists. reflexivity.
Qed.

(** The alert of [envMoved], dispatched while no token is registered. *)
Lemma dispatch_without_tokens_witness :
  fst (sendMovementAlertNotification envMoved movedAlert locked) = false
  /\ notification_summary (snd (sendMovementAlertNotification envMoved movedAlert locked))
     = notification_summary locked.
Proof.
  destruct (dispatch_without_tokens envMoved movedAlert locked locked_no_tokens)
    as (H1 & _ & H2 & _).
  split; [exact H1|exact H2].
Defined.

(** ** The result of a dispatch *)




(** ** The indicator *)

(** C7, as stated, fails: one scheduled check that detects one movement
    sends the activation pattern twice and leaves two deactivation timers. *)
Lemma one_movement_two_activations :
  length (movement_alerts (scheduledLocationHistory envMoved locked)) = 1%nat
  /\ activations (scheduledLocationHistory envMoved locked) = 2%nat
  /\ length (timers (scheduledLocationHistory envMoved locked)) = 2%nat.
Proof.
  rewrite (tick_checks envMoved locked (answerAt "10.001" 10.001) movedItem []
             lockedDoc eq_refl eq_refl locked_lookup).
  rewrite checkMovement_moved by (first [reflexivity | exact d_moved_gt10]).
  split; [|split].
  - destruct (raise_movement_alerts envMoved lockedDoc movedItem
                (Geo.calculateDistance 10 20 10.001 20)
                (storeLocationHistory envMoved (answerAt "10.001" 10.001)
                   (emit (NrfLocationHistory (DEVICE_ID envMoved)
                            (Some (answerAt "10.001" 10.001))) locked)))
      as (a & older & Hm & Hlen & _).
    cbn [LockedLocation.lat LockedLocation.lon LockedLocation.location lockedDoc
         parseFloat item_lat item_lon movedItem].
    rewrite Hm. cbn [length]. rewrite Hlen. reflexivity.
  - rewrite raise_activations. reflexivity.
  - rewrite raise_timers. reflexivity.
Qed.

(** C7, amended. Every activation sends the 5-repetition pattern once and
    then schedules one deactivation timer of 60000 ms, whatever the outcome
    of the command; the timer sends the all-zero pattern; and a scheduled
    check that detects a movement performs two activations. *)
Theorem indicator_activation :
  (forall (env : Env) (deviceId : string) (w : World),
      effects (turnOnMovementAlertLED env deviceId w)
      = NrfPatchState deviceId alertLedConfig (nrf_patch_ok env (length (effects w)))
        :: effects w
      /\ repetitions alertLedConfig = 5%Z
      /\ timers (turnOnMovementAlertLED env deviceId w)
         = {| callback := TurnOffLED deviceId; delay := 60000 |} :: timers w)
  /\ (forall (env : Env) (deviceId : string) (w : World),
        effects (run_timer env {| callback := TurnOffLED deviceId; delay := 60000 |} w)
        = NrfPatchState deviceId ledOffConfig (nrf_patch_ok env (length (effects w)))
          :: effects w)
  /\ (forall (env : Env) (w : World) (data : LocationData) (item : LocationItem)
             (rest : list LocationItem) (lockedData : LockedLocation.t),
        nrf_history env (length (effects w)) = Some data ->
        items data = Some (item :: rest) ->
        locked_locations w !! DEVICE_ID env = Some lockedData ->
        truthy (item_lat item) = true ->
        truthy (item_lon item) = true ->
        10 < Geo.calculateDistance
               (LockedLocation.lat (LockedLocation.location lockedData))
               (LockedLocation.lon (LockedLocation.location lockedData))
               (parseFloat (item_lat item)) (parseFloat (item_lon item)) ->
        activations (scheduledLocationHistory env w) = S (S (activations w))
        /\ timers (scheduledLocationHistory env w)
           = {| callback := TurnOffLED (DEVICE_ID env); delay := 60000 |}
             :: {| callback := TurnOffLED (DEVICE_ID env); delay := 60000 |}
             :: timers w).
Proof.
  split; [|split].
  - intros env deviceId w. repeat split.
  - intros env deviceId w. reflexivity.
  - intros env w data item rest lockedData Ha Hi Hl Hlat Hlon Hd.
    rewrite (tick_checks env w data item rest lockedData Ha Hi Hl).
    rewrite checkMovement_moved by assumption.
    rewrite raise_activations, raise_timers. split; reflexivity.
Qed.

(** The scheduled check of [envMoved] activates the indicator twice. *)
Lemma indicator_activation_witness :
  activations (scheduledLocationHistory envMoved locked) = 2%nat.
Proof.
  destruct indicator_activation as (_ & _ & H).
  destruct (H envMoved locked (answerAt "10.001" 10.001) movedItem [] lockedDoc
              eq_refl eq_refl locked_lookup eq_refl eq_refl d_moved_gt10) as [Hact _].
  exact Hact.
Defined.

(** ** A scheduled check without a lock document *)

Lemma tick_no_lock env w :
  locked_locations w !! DEVICE_ID env = None ->
  scheduledLocationHistory env w
  = match nrf_history env (length (effects w)) with
    | None => emit (NrfLocationHistory (DEVICE_ID env) None) w
    | Some data =>
      storeLocationHistory env data
        (emit (NrfLocationHistory (DEVICE_ID env) (Some data)) w)
    end.
Proof.
  intros H. unfold scheduledLocationHistory. cbv zeta.
  destruct (nrf_history env (length (effects w))) as [data|]; [|reflexivity].
  cbn [locked_locations storeLocationHistory set_location_history emit].
  rewrite H. reflexivity.
Qed.

(** C4, as stated, fails: no device is locked, and the scheduled check
    writes a document to [location_history]. *)
Lemma tick_without_lock_writes_history :
  locked_locations empty_world !! DEVICE_ID envMoved = None
  /\ location_history (scheduledLocationHistory envMoved empty_world)
     = [ {| LocationHistory.deviceId := "lar91";
            LocationHistory.latest := true;
            LocationHistory.data := answerAt "10.001" 10.001;
            LocationHistory.timestamp := 2;
            LocationHistory.source := "scheduled" |} ]
  /\ location_history empty_world = [].
Proof.
  assert (H : locked_locations empty_world !! DEVICE_ID envMoved = None)
    by apply lookup_empty.
  split; [exact H|]. rewrite (tick_no_lock envMoved empty_world H).
  split; reflexivity.
Qed.

(** C4, amended. A scheduled check on a device without a lock document
    writes one document to [location_history] when the telemetry request
    succeeded and none when it failed; it writes to no other collection,
    sends no notification or indicator command and sets no timer. *)
Theorem tick_without_lock (env : Env) (w : World) :
  locked_locations w !! DEVICE_ID env = None ->
  let w' := scheduledLocationHistory env w in
  locked_locations w' = locked_locations w
  /\ location_lock_history w' = location_lock_history w
  /\ user_push_tokens w' = user_push_tokens w
  /\ movement_alerts w' = movement_alerts w
  /\ notification_summary w' = notification_summary w
  /\ failed_tokens w' = failed_tokens w
  /\ timers w' = timers w
  /\ effects w'
     = NrfLocationHistory (DEVICE_ID env) (nrf_history env (length (effects w))) :: effects w
  /\ location_history w'
     = match nrf_history env (length (effects w)) with
       | Some data =>
         {| LocationHistory.deviceId := DEVICE_ID env;
            LocationHistory.latest := true;
            LocationHistory.data := data;
            LocationHistory.timestamp := serverTimestamp env;
            LocationHistory.source := "scheduled" |} :: location_history w
       | None => location_history w
       end.
Proof.
  intros H w'. unfold w'. rewrite (tick_no_lock env w H).
  destruct (nrf_history env (length (effects w))); repeat split.
Qed.

(** A scheduled check on the empty store. *)
Lemma tick_without_lock_witness :
  movement_alerts (scheduledLocationHistory envMoved empty_world) = []
  /\ locked_locations (scheduledLocationHistory envMoved empty_world) = ∅.
Proof.
  destruct (tick_without_lock envMoved empty_world (lookup_empty _))
    as (H1 & _ & _ & H2 & _).
  split; [exact H2|exact H1].
Defined.

(** ** Locking a device that is already locked *)

(** What a lock request that passes validation does. *)
Lemma postLockedLocation_valid env body w deviceId location lat lon :
  LockRequest.deviceId body = Some deviceId ->
  LockRequest.location body = Some location ->
  LockRequest.lat location = Some lat ->
  LockRequest.lon location = Some lon ->
  truthyS deviceId = true -> truthy lat = true -> truthy lon = true ->
  exists doc,
    postLockedLocation env body w
    = ({| status := 200; success := true |},
       set_location_lock_history (cons (LockEntry doc))
         (set_locked_locations (insert deviceId doc) w))
    /\ LockedLocation.deviceId doc = deviceId
    /\ LockedLocation.lat (LockedLocation.location doc) = parseFloat lat
    /\ LockedLocation.lon (LockedLocation.location doc) = parseFloat lon
    /\ LockedLocation.lockedAt doc = orS (LockRequest.lockedAt body) (nowISO env)
    /\ LockedLocation.currentDistance doc = None
    /\ LockedLocation.lastMovementAlert doc = None
    /\ LockedLocation.lastAlertAt doc = None
    /\ LockedLocation.lastCheckedAt doc = None
    /\ LockedLocation.alertCount doc = None.
Proof.
  intros Hd Hl Hlat Hlon Td Tlat Tlon. unfold postLockedLocation.
  rewrite Hd, Hl, Hlat, Hlon, Td, Tlat, Tlon. cbn [andb].
  eexists. split; [reflexivity|]. repeat split.
Qed.

Lemma checkedSafe_world :
  checkedSafe
  = update_lock "lar91"
      (lock_after_safe 2 (Geo.calculateDistance 10 20 10 20))
      (storeLocationHistory envSame (answerAt "10" 10)
         (emit (NrfLocationHistory "lar91" (Some (answerAt "10" 10))) locked)).
Proof.
  unfold checkedSafe.
  rewrite (tick_checks envSame locked (answerAt "10" 10)
             {| item_lat := JString "10" 10; item_lon := JString "20" 20 |} []
             lockedDoc eq_refl eq_refl locked_lookup).
  rewrite checkMovement_safe; [reflexivity..|].
  cbn. rewrite GeoFacts.calculateDistance_same. lra.
Qed.

Lemma checkedSafe_lookup :
  locked_locations checkedSafe !! "lar91"%string
  = Some checkedDoc.
Proof.
  rewrite checkedSafe_world. unfold update_lock.
  cbn [locked_locations set_locked_locations storeLocationHistory set_location_history emit].
  rewrite lookup_alter_eq, locked_lookup. reflexivity.
Qed.

Lemma checkedSafe_history : location_lock_history checkedSafe = [LockEntry lockedDoc].
Proof. rewrite checkedSafe_world. reflexivity. Qed.




(** ** Token registration *)

Lemma string_app_inv_head (p x y : string) : (p ++ x = p ++ y)%string -> x = y.
Proof.
  induction p as [|c p IH]; cbn; intros H; [exact H|].
  injection H as H. exact (IH H).
Qed.

Lemma tokenId_prefix deviceId tok1 tok2 :
  tokenId deviceId tok1 = tokenId deviceId tok2 ->
  substring 0 20 tok1 = substring 0 20 tok2.
Proof.
  unfold tokenId. intros H.
  apply string_app_inv_head in H. now apply (string_app_inv_head "_") in H.
Qed.

(** What a registration that passes validation does to the collection. *)
Lemma registerFCMToken_valid env body w deviceId token :
  TokenRequest.deviceId body = Some deviceId ->
  TokenRequest.fcmToken body = Some token ->
  truthyS deviceId = true -> truthyS token = true ->
  exists doc,
    user_push_tokens (snd (registerFCMToken env body w))
    = <[tokenId deviceId token := doc]> (user_push_tokens w)
    /\ TokenData.deviceId doc = deviceId
    /\ TokenData.pushToken doc = token
    /\ TokenData.active doc = true.
Proof.
  intros Hd Ht Td Tt. unfold registerFCMToken. rewrite Hd, Ht, Td, Tt. cbn [andb].
  cbv zeta. destruct (isExpoToken _ _); eexists; (split; [reflexivity|repeat split]).
Qed.

(** C9, as stated, fails: two distinct tokens registered for one device,
    the second registration overwrites the first. *)
Lemma second_token_overwrites_first :
  tokenA <> tokenB
  /\ size (user_push_tokens
             (snd (registerFCMToken envLock (tokenRequest tokenB)
                     (snd (registerFCMToken envLock (tokenRequest tokenA) empty_world)))))
     = 1%nat
  /\ TokenData.pushToken
       <$> user_push_tokens
             (snd (registerFCMToken envLock (tokenRequest tokenB)
                     (snd (registerFCMToken envLock (tokenRequest tokenA) empty_world))))
           !! "lar91_fcm-token-0123456789"%string
     = Some tokenB.
Proof.
  split; [discriminate|].
  destruct (registerFCMToken_valid envLock (tokenRequest tokenA) empty_world
              "lar91" tokenA eq_refl eq_refl eq_refl eq_refl) as (docA & HA & _).
  destruct (registerFCMToken_valid envLock (tokenRequest tokenB)
              (snd (registerFCMToken envLock (tokenRequest tokenA) empty_world))
              "lar91" tokenB eq_refl eq_refl eq_refl eq_refl) as (docB & HB & _ & HpB & _).
  rewrite HB, HA.
  change (tokenId "lar91" tokenB) with "lar91_fcm-token-0123456789"%string.
  change (tokenId "lar91" tokenA) with "lar91_fcm-token-0123456789"%string.
  change (user_push_tokens empty_world) with (∅ : gmap string TokenData.t).
  rewrite insert_insert_eq. split.
  - rewrite insert_empty. apply map_size_singleton.
  - rewrite lookup_insert_eq. cbn. now rewrite HpB.
Qed.

(** C9, amended. Token documents are keyed by the device id and the first
    20 characters of the token.  For two registrations of one device, under
    ids that Firestore accepts: registering the same pair twice leaves one
    document under its key; two tokens whose first 20 characters differ are
    stored in two documents; two tokens that agree on their first 20
    characters share one key, and the later registration replaces the
    earlier, so that the store has the same keys after the second
    registration as after the first and the shared key holds the second
    token. *)
Theorem token_documents_keyed_by_prefix (env1 env2 : Env) (body1 body2 : TokenRequest.t)
    (w : World) (deviceId tok1 tok2 : string) :
  TokenRequest.deviceId body1 = Some deviceId ->
  TokenRequest.fcmToken body1 = Some tok1 ->
  TokenRequest.deviceId body2 = Some deviceId ->
  TokenRequest.fcmToken body2 = Some tok2 ->
  truthyS deviceId = true -> truthyS tok1 = true -> truthyS tok2 = true ->
  plainDocId (tokenId deviceId tok1) = true ->
  plainDocId (tokenId deviceId tok2) = true ->
  let w1 := snd (registerFCMToken env1 body1 w) in
  let w2 := snd (registerFCMToken env2 body2 w1) in
  (tok1 = tok2 ->
     dom (user_push_tokens w2) = dom (user_push_tokens w1)
     /\ TokenData.pushToken <$> user_push_tokens w2 !! tokenId deviceId tok1 = Some tok1)
  /\ (substring 0 20 tok1 <> substring 0 20 tok2 ->
        tokenId deviceId tok1 <> tokenId deviceId tok2
        /\ TokenData.pushToken <$> user_push_tokens w2 !! tokenId deviceId tok1 = Some tok1
        /\ TokenData.pushToken <$> user_push_tokens w2 !! tokenId deviceId tok2 = Some tok2)
  /\ (substring 0 20 tok1 = substring 0 20 tok2 ->
        tokenId deviceId tok1 = tokenId deviceId tok2
        /\ dom (user_push_tokens w2) = dom (user_push_tokens w1)
        /\ TokenData.pushToken <$> user_push_tokens w1 !! tokenId deviceId tok1 = Some tok1
        /\ TokenData.pushToken <$> user_push_tokens w2 !! tokenId deviceId tok1 = Some tok2
        /\ (forall k, k <> tokenId deviceId tok1 ->
              user_push_tokens w2 !! k = user_push_tokens w !! k)).
Proof.
  intros Hd1 Ht1 Hd2 Ht2 Td T1 T2 _ _ w1 w2.
  destruct (registerFCMToken_valid env1 body1 w deviceId tok1 Hd1 Ht1 Td T1)
    as (doc1 & H1 & _ & Hp1 & _).
  destruct (registerFCMToken_valid env2 body2 w1 deviceId tok2 Hd2 Ht2 Td T2)
    as (doc2 & H2 & _ & Hp2 & _).
  fold w1 in H1. fold w2 in H2. split; [|split].
  - intros <-. rewrite H2, H1. split.
    + rewrite insert_insert_eq, !dom_insert_L. reflexivity.
    + rewrite lookup_insert_eq. cbn. now rewrite Hp2.
  - intros Hne.
    assert (Hk : tokenId deviceId tok1 <> tokenId deviceId tok2)
      by (intros E; apply Hne; exact (tokenId_prefix deviceId tok1 tok2 E)).
    split; [exact Hk|]. rewrite H2, H1. split.
    + rewrite lookup_insert_ne by congruence. rewrite lookup_insert_eq. cbn. now rewrite Hp1.
    + rewrite lookup_insert_eq. cbn. now rewrite Hp2.
  - intros He.
    assert (Hk : tokenId deviceId tok1 = tokenId deviceId tok2)
      by (unfold tokenId; now rewrite He).
    split; [exact Hk|]. rewrite H2, H1, <- Hk. repeat split.
    + rewrite insert_insert_eq, !dom_insert_L. reflexivity.
    + rewrite lookup_insert_eq. cbn. now rewrite Hp1.
    + rewrite lookup_insert_eq. cbn. now rewrite Hp2.
    + intros k Hk'. rewrite !lookup_insert_ne by congruence. reflexivity.
Qed.

(** Two tokens that differ within their first 20 characters. *)
Lemma token_documents_keyed_by_prefix_witness :
  TokenData.pushToken
    <$> user_push_tokens
          (snd (registerFCMToken envLock (tokenRequest "fcm-token-B")
                  (snd (registerFCMToken envLock (tokenRequest "fcm-token-A") empty_world))))
        !! tokenId "lar91" "fcm-token-A"
  = Some "fcm-token-A"%string.
Proof.
  destruct (token_documents_keyed_by_prefix envLock envLock
              (tokenRequest "fcm-token-A") (tokenRequest "fcm-token-B") empty_world
              "lar91" "fcm-token-A" "fcm-token-B"
              eq_refl eq_refl eq_refl eq_refl eq_refl eq_refl eq_refl eq_refl eq_refl)
    as (_ & H & _).
  destruct H as (_ & H & _); [discriminate|exact H].
Defined.

(** ** One round of the notification loop *)

Lemma dispatches_of_eq i w w' : effects w = effects w' -> dispatches_of i w = dispatches_of i w'.
Proof. unfold dispatches_of. now intros ->. Qed.

(** A dispatch sends one topic broadcast for its alert. *)
Lemma dispatch_dispatches env a w i :
  dispatches_of i (snd (sendMovementAlertNotification env a w))
  = ((if decide (MovementAlert.id a = Some i) then 1 else 0) + dispatches_of i w)%nat.
Proof.
  destruct (dispatch_effects env a w) as (ok & ok' & mc & He & Hmc).
  unfold dispatches_of. rewrite He. cbn [List.filter is_dispatch_of].
  rewrite List.filter_app. cbn [List.filter is_dispatch_of].
  assert (Hm : List.filter (is_dispatch_of i) mc = []).
  { destruct Hmc as [->|(toks & r & _ & -> & _)]; reflexivity. }
  rewrite Hm. cbn [app].
  unfold bool_decide. destruct (decide_rel eq (MovementAlert.id a) (Some i));
    destruct (decide (MovementAlert.id a = Some i)); try contradiction; reflexivity.
Qed.

Lemma notifyAlert_effects env deviceId a w :
  (forall i,
      dispatches_of i (notifyAlert env deviceId a w)
      = ((if decide (MovementAlert.id a = Some i) then 1 else 0) + dispatches_of i w)%nat)
  /\ activations (notifyAlert env deviceId a w) = S (S (activations w)).
Proof.
  unfold notifyAlert. cbv zeta.
  set (w1 := turnOnMovementAlertLED env deviceId w).
  pose proof (dispatch_dispatches env a w1) as Hd.
  pose proof (dispatch_activations env a w1) as Ha.
  destruct (sendMovementAlertNotification env a w1) as [sent w2].
  cbn [snd] in Hd, Ha.
  assert (He : effects (match sent, MovementAlert.id a with
                        | true, Some i =>
                          update_alert i (MovementAlert.mark_sent (serverTimestamp env)) w2
                        | _, _ => w2
                        end) = effects w2)
    by (destruct sent, (MovementAlert.id a); reflexivity).
  split.
  - intros i. rewrite (dispatches_of_eq i _ w2 He), Hd. reflexivity.
  - rewrite (activations_eq _ w2 He), Ha. reflexivity.
Qed.

(** When the dispatch returns [true], the round marks the documents with
    the alert's id and touches no other collection field. *)
Lemma notifyAlert_sent env deviceId a w i :
  fcmTokensOf (activeTokens (MovementAlert.deviceId a) w) <> [] ->
  MovementAlert.id a = Some i ->
  movement_alerts (notifyAlert env deviceId a w)
  = map (mark_doc (serverTimestamp env) i) (movement_alerts w)
  /\ user_push_tokens (notifyAlert env deviceId a w) = user_push_tokens w.
Proof.
  intros Hf Hi. unfold notifyAlert. cbv zeta.
  set (w1 := turnOnMovementAlertLED env deviceId w).
  assert (Hf1 : fcmTokensOf (activeTokens (MovementAlert.deviceId a) w1) <> [])
    by (rewrite (activeTokens_untouched _ _ _ (turnOn_untouched env deviceId w)); exact Hf).
  pose proof (proj2 (dispatch_result env a w1) Hf1) as Hs.
  pose proof (dispatch_untouched env a w1) as (_ & _ & Ht & Hm & _).
  destruct (sendMovementAlertNotification env a w1) as [sent w2].
  cbn [fst snd] in Hs, Ht, Hm. subst sent. rewrite Hi.
  cbn. rewrite Hm, Ht. split; reflexivity.
Qed.

(** ** The alert listing *)

Lemma getMovementAlerts_world env q w :
  (0 <= queryLimit q)%Z ->
  snd (getMovementAlerts env q w)
  = fold_left (fun w alert => notifyAlert env (queryDeviceId env q) alert w)
              (highDistanceAlertsOf (listAlerts env q w)) w.
Proof.
  intros H. unfold getMovementAlerts.
  destruct (queryLimit q <? 0)%Z eqn:E; [lia|reflexivity].
Qed.

Lemma getMovementAlerts_rejected env q w :
  (queryLimit q < 0)%Z -> snd (getMovementAlerts env q w) = w.
Proof.
  intros H. unfold getMovementAlerts.
  destruct (queryLimit q <? 0)%Z eqn:E; [reflexivity|lia].
Qed.

(** Every listed alert belongs to the queried device and carries the id of
    its document. *)
Lemma listAlerts_In env q w a :
  In a (listAlerts env q w) ->
  exists doc,
    In doc (movement_alerts w)
    /\ a = MovementAlert.with_id (fst doc) (snd doc)
    /\ MovementAlert.deviceId a = queryDeviceId env q.
Proof.
  unfold listAlerts. intros H. apply in_map_iff in H as (doc & <- & H).
  apply list_elem_of_In, elem_of_take in H as (k & H & _).
  apply list_elem_of_lookup_2, list_elem_of_In, filter_In in H as [Hin Hq].
  exists doc. split; [exact Hin|]. split; [reflexivity|].
  unfold matchesQuery in Hq. apply andb_prop in Hq as [Hd _].
  cbn. now apply bool_decide_eq_true_1 in Hd.
Qed.

Lemma highDistance_In alerts a :
  In a (highDistanceAlertsOf alerts) <-> In a alerts /\ needsNotification a = true.
Proof. unfold highDistanceAlertsOf. apply filter_In. Qed.

Lemma needsNotification_low a : MovementAlert.severity a = low -> needsNotification a = false.
Proof.
  intros H. unfold needsNotification. rewrite H.
  rewrite bool_decide_eq_true_2 by reflexivity. apply andb_false_r.
Qed.

Lemma needsNotification_true a :
  10 < MovementAlert.distance a ->
  MovementAlert.notificationSent a = false ->
  MovementAlert.severity a <> low ->
  needsNotification a = true.
Proof.
  intros Hd Hn Hs. unfold needsNotification.
  rewrite truthyR_true by lra. rewrite Rgtb_true by lra. rewrite Hn.
  rewrite bool_decide_eq_false_2 by exact Hs. reflexivity.
Qed.

Lemma needsNotification_spec a :
  needsNotification a = true
  <-> 10 < MovementAlert.distance a
      /\ MovementAlert.notificationSent a = false
      /\ MovementAlert.severity a <> low.
Proof.
  split.
  - unfold needsNotification. intros H.
    apply andb_prop in H as [H Hs]. apply andb_prop in H as [H Hn].
    apply andb_prop in H as [_ Hd].
    split; [|split].
    + unfold Rgtb in Hd. destruct (Rlt_dec 10 (MovementAlert.distance a)); [assumption|discriminate].
    + now destruct (MovementAlert.notificationSent a).
    + intros E. rewrite E in Hs. rewrite bool_decide_eq_true_2 in Hs by reflexivity.
      discriminate.
  - intros (Hd & Hn & Hs). now apply needsNotification_true.
Qed.

(** A listing of a store that holds only low-severity alerts does nothing. *)
Lemma getMovementAlerts_low_only env q w :
  (forall doc, In doc (movement_alerts w) -> MovementAlert.severity (snd doc) = low) ->
  snd (getMovementAlerts env q w) = w.
Proof.
  intros Hlow. destruct (Z_lt_le_dec (queryLimit q) 0) as [Hq|Hq].
  - now apply getMovementAlerts_rejected.
  - rewrite getMovementAlerts_world by exact Hq.
    assert (Hh : highDistanceAlertsOf (listAlerts env q w) = []).
    { destruct (highDistanceAlertsOf (listAlerts env q w)) as [|a l] eqn:E; [reflexivity|].
      assert (Ha : In a (highDistanceAlertsOf (listAlerts env q w)))
        by (rewrite E; now left).
      apply highDistance_In in Ha as [Hin Hn].
      apply listAlerts_In in Hin as (doc & Hdoc & -> & _).
      rewrite needsNotification_low in Hn; [discriminate|].
      cbn. now apply Hlow. }
    rewrite Hh. reflexivity.
Qed.

(** ** The notification loop of a listing *)

(** When the device has no active non-Expo token the dispatch returns
    [false], and the round writes to none of the collections below. *)
Lemma notifyAlert_failed env deviceId a w :
  fcmTokensOf (activeTokens (MovementAlert.deviceId a) w) = [] ->
  untouched_by_dispatch w (notifyAlert env deviceId a w).
Proof.
  intros Hz. unfold notifyAlert. cbv zeta.
  set (w1 := turnOnMovementAlertLED env deviceId w).
  assert (Hu1 : untouched_by_dispatch w w1) by apply turnOn_untouched.
  assert (Hs : fst (sendMovementAlertNotification env a w1) = false).
  { destruct (fst (sendMovementAlertNotification env a w1)) eqn:E; [|reflexivity].
    apply dispatch_result in E.
    rewrite (activeTokens_untouched _ _ _ Hu1) in E. contradiction. }
  pose proof (dispatch_untouched env a w1) as Hu2.
  destruct (sendMovementAlertNotification env a w1) as [sent w2].
  cbn [fst snd] in Hs, Hu2. subst sent.
  change (untouched_by_dispatch w w2).
  exact (untouched_trans _ _ _ Hu1 Hu2).
Qed.

Section Loop.
Variables (env : Env) (deviceId : string).

(** Every round of the loop dispatches its alert and activates the
    indicator twice, whatever the dispatch returns. *)
Lemma notify_all_effects (alerts : list MovementAlert.t) (w : World) :
  let w' := fold_left (fun w alert => notifyAlert env deviceId alert w) alerts w in
  (forall i,
      dispatches_of i w'
      = (length (List.filter
                   (fun a => bool_decide (MovementAlert.id a = Some i)) alerts)
         + dispatches_of i w)%nat)
  /\ activations w' = (2 * length alerts + activations w)%nat.
Proof.
  revert w. induction alerts as [|a alerts IH]; intros w; cbn [fold_left].
  - split; reflexivity.
  - destruct (notifyAlert_effects env deviceId a w) as [Hd Hact].
    destruct (IH (notifyAlert env deviceId a w)) as (IH2 & IH3).
    split.
    + intros i. rewrite IH2, Hd. cbn [List.filter].
      unfold bool_decide at 2.
      destruct (decide_rel eq (MovementAlert.id a) (Some i));
        destruct (decide (MovementAlert.id a = Some i)); try contradiction; cbn; lia.
    + rewrite IH3, Hact. cbn [length]. lia.
Qed.

(** A loop whose dispatches all return [false] marks nothing. *)
Lemma notify_all_failed (alerts : list MovementAlert.t) (w : World) :
  (forall a, In a alerts -> MovementAlert.deviceId a = deviceId) ->
  fcmTokensOf (activeTokens deviceId w) = [] ->
  untouched_by_dispatch w
    (fold_left (fun w alert => notifyAlert env deviceId alert w) alerts w).
Proof.
  revert w. induction alerts as [|a alerts IH]; intros w Hdev Hz; cbn [fold_left].
  - repeat split.
  - assert (Ha : MovementAlert.deviceId a = deviceId) by (apply Hdev; now left).
    assert (Hu : untouched_by_dispatch w (notifyAlert env deviceId a w))
      by (apply notifyAlert_failed; now rewrite Ha).
    eapply untouched_trans; [exact Hu|]. apply IH.
    + intros b Hb. apply Hdev. now right.
    + now rewrite (activeTokens_untouched _ _ _ Hu).
Qed.

End Loop.

(** The remote calls and the activations of a whole listing. *)
Lemma getMovementAlerts_effects env q w :
  let w1 := snd (getMovementAlerts env q w) in
  let todo := highDistanceAlertsOf (listAlerts env q w) in
  (forall i,
      dispatches_of i w1
      = (length (List.filter
                   (fun a => bool_decide (MovementAlert.id a = Some i)) todo)
         + dispatches_of i w)%nat)
  /\ activations w1 = (2 * length todo + activations w)%nat.
Proof.
  cbv zeta. destruct (Z_lt_le_dec (queryLimit q) 0) as [Hq|Hq].
  - rewrite getMovementAlerts_rejected by exact Hq.
    unfold listAlerts. replace (Z.to_nat (queryLimit q)) with 0%nat by lia.
    split; reflexivity.
  - rewrite getMovementAlerts_world by exact Hq. apply notify_all_effects.
Qed.

Lemma todo_deviceId env q w a :
  In a (highDistanceAlertsOf (listAlerts env q w)) ->
  MovementAlert.deviceId a = queryDeviceId env q.
Proof.
  intros Hb. apply highDistance_In in Hb as [Hb _].
  apply listAlerts_In in Hb as (_ & _ & _ & Hb). exact Hb.
Qed.

(** A listing for a device without an active non-Expo token marks nothing. *)
Lemma getMovementAlerts_failed env q w :
  fcmTokensOf (activeTokens (queryDeviceId env q) w) = [] ->
  untouched_by_dispatch w (snd (getMovementAlerts env q w)).
Proof.
  intros Hz. destruct (Z_lt_le_dec (queryLimit q) 0) as [Hq|Hq].
  - rewrite getMovementAlerts_rejected by exact Hq. repeat split.
  - rewrite getMovementAlerts_world by exact Hq.
    apply notify_all_failed; [|exact Hz]. intros a. apply todo_deviceId.
Qed.

Lemma listAlerts_untouched env q w w' :
  untouched_by_dispatch w w' -> listAlerts env q w' = listAlerts env q w.
Proof. intros (_ & _ & _ & H & _). unfold listAlerts. now rewrite H. Qed.

Lemma filter_In_length {A} (f : A -> bool) (l : list A) (x : A) :
  In x l -> f x = true -> (1 <= length (List.filter f l))%nat.
Proof.
  intros Hin Hf. assert (H : In x (List.filter f l)) by (apply filter_In; now split).
  destruct (List.filter f l); [destruct H|cbn; lia].
Qed.

(** One listing, then [n] more. *)
Lemma repeatListing_failed env q w a i n :
  fcmTokensOf (activeTokens (queryDeviceId env q) w) = [] ->
  In a (listAlerts env q w) ->
  MovementAlert.id a = Some i ->
  needsNotification a = true ->
  untouched_by_dispatch w (repeatListing n env q w)
  /\ (n + dispatches_of i w <= dispatches_of i (repeatListing n env q w))%nat
  /\ (2 * n + activations w <= activations (repeatListing n env q w))%nat.
Proof.
  revert w. induction n as [|n IH]; intros w Hz Hin Hi Hn; cbn [repeatListing].
  - repeat split; lia.
  - set (w1 := snd (getMovementAlerts env q w)).
    assert (Hh : In a (highDistanceAlertsOf (listAlerts env q w)))
      by (apply highDistance_In; now split).
    pose proof (getMovementAlerts_failed env q w Hz) as Hu.
    destruct (getMovementAlerts_effects env q w) as (Hd & Hact).
    fold w1 in Hu, Hd, Hact.
    destruct (IH w1) as (IH1 & IH2 & IH3).
    { now rewrite (activeTokens_untouched _ _ _ Hu). }
    { now rewrite (listAlerts_untouched env q w w1 Hu). }
    { exact Hi. } { exact Hn. }
    split; [eapply untouched_trans; eassumption|].
    assert (H1 : (1 <= length (List.filter
                     (fun a => bool_decide (MovementAlert.id a = Some i))
                     (highDistanceAlertsOf (listAlerts env q w))))%nat).
    { apply (filter_In_length _ _ a Hh). now apply bool_decide_eq_true_2. }
    assert (H2 : (1 <= length (highDistanceAlertsOf (listAlerts env q w)))%nat).
    { destruct (highDistanceAlertsOf (listAlerts env q w)); [destruct Hh|cbn; lia]. }
    specialize (Hd i). split; lia.
Qed.

(** ** Alerts that stay unnotified *)

(** With no active non-Expo token the movement branch dispatches its alert
    and leaves it unmarked. *)
Lemma raise_failed env lockedData item d w1 :
  fcmTokensOf (activeTokens (DEVICE_ID env) w1) = [] ->
  movement_alerts (raiseMovementAlert env lockedData item d w1)
  = (length (movement_alerts w1), newMovementAlert env lockedData item d)
    :: movement_alerts w1
  /\ user_push_tokens (raiseMovementAlert env lockedData item d w1) = user_push_tokens w1
  /\ exists ok, In (FcmSend (FCM_ALERT_TOPIC env) (newMovementAlert env lockedData item d) ok)
                   (effects (raiseMovementAlert env lockedData item d w1)).
Proof.
  intros Hz. unfold raiseMovementAlert. cbv zeta.
  set (a := newMovementAlert env lockedData item d).
  set (w2 := set_movement_alerts _ w1).
  set (w3 := turnOnMovementAlertLED env (DEVICE_ID env) w2).
  assert (Hz3 : fcmTokensOf (activeTokens (MovementAlert.deviceId a) w3) = []) by exact Hz.
  assert (Hs : fst (sendMovementAlertNotification env a w3) = false).
  { destruct (fst (sendMovementAlertNotification env a w3)) eqn:E; [|reflexivity].
    apply dispatch_result in E. contradiction. }
  pose proof (dispatch_untouched env a w3) as (_ & _ & Ht & Hm & _).
  destruct (dispatch_effects env a w3) as (ok & ok' & mc & He & _).
  destruct (sendMovementAlertNotification env a w3) as [sent w4].
  cbn [fst snd] in Hs, Ht, Hm, He. subst sent.
  cbn. rewrite Hm, Ht, He. repeat split. exists ok. now left.
Qed.

(** With no active token the movement branch leaves its alert unmarked. *)
Lemma raise_no_tokens env lockedData item d w1 :
  activeTokens (DEVICE_ID env) w1 = [] ->
  movement_alerts (raiseMovementAlert env lockedData item d w1)
  = (length (movement_alerts w1), newMovementAlert env lockedData item d)
    :: movement_alerts w1
  /\ user_push_tokens (raiseMovementAlert env lockedData item d w1) = user_push_tokens w1.
Proof.
  intros Hz. unfold raiseMovementAlert. cbv zeta.
  set (a := newMovementAlert env lockedData item d).
  set (w2 := set_movement_alerts _ w1).
  set (w3 := turnOnMovementAlertLED env (DEVICE_ID env) w2).
  assert (Hz3 : activeTokens (MovementAlert.deviceId a) w3 = []) by exact Hz.
  rewrite (dispatch_no_tokens env a w3 Hz3). split; reflexivity.
Qed.

Lemma near_checked :
  movement_alerts (scheduledLocationHistory envNear locked) = [(0%nat, nearAlert)]
  /\ user_push_tokens (scheduledLocationHistory envNear locked) = ∅.
Proof.
  rewrite (tick_checks envNear locked (answerAt "10.00015" 10.00015) nearItem []
             lockedDoc eq_refl eq_refl locked_lookup).
  rewrite checkMovement_moved
    by (first [reflexivity | exact (proj1 d_near)]).
  apply raise_no_tokens. apply activeTokens_no_docs. reflexivity.
Qed.

Lemma moved_checked :
  movement_alerts (scheduledLocationHistory envMoved locked) = [(0%nat, movedAlert)]
  /\ user_push_tokens (scheduledLocationHistory envMoved locked) = ∅.
Proof.
  rewrite (tick_checks envMoved locked (answerAt "10.001" 10.001) movedItem []
             lockedDoc eq_refl eq_refl locked_lookup).
  rewrite checkMovement_moved
    by (first [reflexivity | exact d_moved_gt10]).
  apply raise_no_tokens. apply activeTokens_no_docs. reflexivity.
Qed.

Lemma listAlerts_single env w a :
  movement_alerts w = [(0%nat, a)] ->
  MovementAlert.deviceId a = DEVICE_ID env ->
  listAlerts env defaultQuery w = [MovementAlert.with_id 0 a].
Proof.
  intros Hm Hd. unfold listAlerts. rewrite Hm. cbn [List.filter].
  unfold matchesQuery. cbn [snd severityFilter AlertsQuery.severity defaultQuery].
  rewrite bool_decide_eq_true_2 by exact Hd. reflexivity.
Qed.

(** C10, as stated, fails: the alert of this scheduled check is dispatched
    for a device without tokens and stays unnotified; the next listing returns
    it and neither dispatches it nor activates the indicator. *)
Lemma low_alert_is_not_redispatched :
  movement_alerts (scheduledLocationHistory envNear locked) = [(0%nat, nearAlert)]
  /\ MovementAlert.notificationSent nearAlert = false
  /\ activeTokens "lar91" (scheduledLocationHistory envNear locked) = []
  /\ listAlerts envListing defaultQuery (scheduledLocationHistory envNear locked)
     = [MovementAlert.with_id 0 nearAlert]
  /\ snd (getMovementAlerts envListing defaultQuery (scheduledLocationHistory envNear locked))
     = scheduledLocationHistory envNear locked.
Proof.
  destruct near_checked as [Hm Ht].
  split; [exact Hm|]. split; [reflexivity|].
  split; [now apply activeTokens_no_docs|].
  split; [now apply listAlerts_single|].
  apply getMovementAlerts_low_only. rewrite Hm.
  intros doc [<-|[]]. cbn. apply severityOf_low. exact (proj2 d_near).
Qed.

(** C10, amended. While a device has no active non-Expo token, so that
    every dispatch for it reports failure (in particular while it has no
    active token at all):
    - a scheduled check that detects a movement stores the alert, dispatches
      it on the topic and leaves it unmarked;
    - an alert that a listing returns, with distance above 10, not yet marked
      and of a severity other than low, is never marked by the listings:
      after [n] of them the stored alerts are as before, the alert has been
      dispatched at least [n] more times and the indicator activated at
      least [2 n] more times.
    Whatever the tokens, a listing dispatches exactly the returned alerts
    that are unmarked, above 10 and not of severity low, and activates the
    indicator twice for each: an alert of severity low is never dispatched
    by a listing.  The listings are those of a device id that Firestore
    accepts, with a limit that is not negative. *)
Theorem unnotified_alert_redispatched :
  (forall (env : Env) (w : World) (data : LocationData) (item : LocationItem)
          (rest : list LocationItem) (lockedData : LockedLocation.t),
      nrf_history env (length (effects w)) = Some data ->
      items data = Some (item :: rest) ->
      locked_locations w !! DEVICE_ID env = Some lockedData ->
      truthy (item_lat item) = true -> truthy (item_lon item) = true ->
      let d := Geo.calculateDistance
                 (LockedLocation.lat (LockedLocation.location lockedData))
                 (LockedLocation.lon (LockedLocation.location lockedData))
                 (parseFloat (item_lat item)) (parseFloat (item_lon item)) in
      10 < d ->
      fcmTokensOf (activeTokens (DEVICE_ID env) w) = [] ->
      let w' := scheduledLocationHistory env w in
      (exists alertRef,
          movement_alerts w'
          = (alertRef, newMovementAlert env lockedData item d) :: movement_alerts w)
      /\ MovementAlert.notificationSent (newMovementAlert env lockedData item d) = false
      /\ (exists ok, In (FcmSend (FCM_ALERT_TOPIC env)
                           (newMovementAlert env lockedData item d) ok) (effects w'))
      /\ fcmTokensOf (activeTokens (DEVICE_ID env) w') = [])
  /\ (forall (env : Env) (q : AlertsQuery.t) (w : World)
             (a : MovementAlert.t) (i n : nat),
        plainDocId (queryDeviceId env q) = true ->
        fcmTokensOf (activeTokens (queryDeviceId env q) w) = [] ->
        In a (listAlerts env q w) ->
        MovementAlert.id a = Some i ->
        10 < MovementAlert.distance a ->
        MovementAlert.notificationSent a = false ->
        MovementAlert.severity a <> low ->
        let w' := repeatListing n env q w in
        movement_alerts w' = movement_alerts w
        /\ (n + dispatches_of i w <= dispatches_of i w')%nat
        /\ (2 * n + activations w <= activations w')%nat)
  /\ (forall (env : Env) (q : AlertsQuery.t) (w : World),
        plainDocId (queryDeviceId env q) = true ->
        (0 <= queryLimit q)%Z ->
        let w1 := snd (getMovementAlerts env q w) in
        let todo := highDistanceAlertsOf (listAlerts env q w) in
        (forall a, In a todo <->
                   In a (listAlerts env q w)
                   /\ 10 < MovementAlert.distance a
                   /\ MovementAlert.notificationSent a = false
                   /\ MovementAlert.severity a <> low)
        /\ (forall i,
              dispatches_of i w1
              = (length (List.filter
                           (fun a => bool_decide (MovementAlert.id a = Some i)) todo)
                 + dispatches_of i w)%nat)
        /\ activations w1 = (2 * length todo + activations w)%nat).
Proof.
  split; [|split].
  - intros env w data item rest lockedData Ha Hi Hl Hlat Hlon d Hd Hz w'.
    unfold w'. rewrite (tick_checks env w data item rest lockedData Ha Hi Hl).
    rewrite checkMovement_moved by assumption. fold d.
    set (w1 := storeLocationHistory env data _).
    destruct (raise_failed env lockedData item d w1 Hz) as (Hm & Ht & He).
    split; [eexists; exact Hm|]. split; [reflexivity|]. split; [exact He|].
    unfold activeTokens in Hz |- *. rewrite Ht. exact Hz.
  - intros env q w a i n _ Hz Hin Hi Hd Hn Hs w'.
    destruct (repeatListing_failed env q w a i n Hz Hin Hi
                (needsNotification_true a Hd Hn Hs)) as ((_ & _ & _ & Hm & _) & H2 & H3).
    repeat split; assumption.
  - intros env q w _ _ w1 todo. split.
    + intros a. unfold todo. rewrite highDistance_In. apply and_iff_compat_l.
      apply needsNotification_spec.
    + apply getMovementAlerts_effects.
Qed.

(** Three listings after the scheduled check of [envMoved], no token registered. *)
Lemma unnotified_alert_redispatched_witness :
  movement_alerts (repeatListing 3 envListing defaultQuery (scheduledLocationHistory envMoved locked))
  = movement_alerts (scheduledLocationHistory envMoved locked)
  /\ (3 + dispatches_of 0 (scheduledLocationHistory envMoved locked)
      <= dispatches_of 0 (repeatListing 3 envListing defaultQuery
                            (scheduledLocationHistory envMoved locked)))%nat.
Proof.
  destruct moved_checked as [Hm Ht].
  destruct unnotified_alert_redispatched as (_ & H & _).
  destruct (H envListing defaultQuery
              (scheduledLocationHistory envMoved locked)
              (MovementAlert.with_id 0 movedAlert) 0%nat 3%nat) as (H1 & H2 & _).
  - reflexivity.
  - rewrite activeTokens_no_docs by exact Ht. reflexivity.
  - rewrite (listAlerts_single envListing _ movedAlert Hm eq_refl). now left.
  - reflexivity.
  - pose proof d_moved_gt10 as Hgt. exact Hgt.
  - reflexivity.
  - change (MovementAlert.severity (MovementAlert.with_id 0 movedAlert))
      with (severityOf (Geo.calculateDistance 10 20 10.001 20)).
    rewrite severityOf_high by exact d_moved_gt. discriminate.
  - split; [exact H1|exact H2].
Defined.

(** ** Listings for a device with a direct token *)

Lemma mark_doc_fst now i doc : fst (mark_doc now i doc) = fst doc.
Proof. unfold mark_doc. now destruct (decide (fst doc = i)). Qed.

Lemma mark_doc_matches now i deviceId sev doc :
  matchesQuery deviceId sev (mark_doc now i doc) = matchesQuery deviceId sev doc.
Proof. unfold mark_doc. now destruct (decide (fst doc = i)). Qed.

(** Marking never makes a document need a notification. *)
Lemma mark_doc_needs now i doc k :
  needsNotification (MovementAlert.with_id k (snd (mark_doc now i doc))) = true ->
  needsNotification (MovementAlert.with_id k (snd doc)) = true
  /\ fst doc <> i.
Proof.
  unfold mark_doc. destruct (decide (fst doc = i)) as [E|E]; [|now split].
  unfold needsNotification. cbn. rewrite andb_false_r. discriminate.
Qed.

Lemma mark_all_fst now alerts doc : fst (mark_all now alerts doc) = fst doc.
Proof.
  revert doc. induction alerts as [|a alerts IH]; intros doc; [reflexivity|].
  unfold mark_all in *. cbn [fold_left]. rewrite IH.
  destruct (MovementAlert.id a); [apply mark_doc_fst|reflexivity].
Qed.

Lemma mark_all_matches now alerts deviceId sev doc :
  matchesQuery deviceId sev (mark_all now alerts doc) = matchesQuery deviceId sev doc.
Proof.
  revert doc. induction alerts as [|a alerts IH]; intros doc; [reflexivity|].
  unfold mark_all in *. cbn [fold_left]. rewrite IH.
  destruct (MovementAlert.id a); [apply mark_doc_matches|reflexivity].
Qed.

Lemma mark_all_needs now alerts doc k :
  needsNotification (MovementAlert.with_id k (snd (mark_all now alerts doc))) = true ->
  needsNotification (MovementAlert.with_id k (snd doc)) = true
  /\ (forall a, In a alerts -> MovementAlert.id a <> Some (fst doc)).
Proof.
  revert doc. induction alerts as [|a alerts IH]; intros doc H.
  - split; [exact H|]. intros a [].
  - unfold mark_all in H. cbn [fold_left] in H. apply IH in H as [H1 H2].
    destruct (MovementAlert.id a) as [i|] eqn:Ei.
    + apply mark_doc_needs in H1 as [H1 Hne]. split; [exact H1|].
      intros b [<-|Hb].
      * rewrite Ei. congruence.
      * specialize (H2 b Hb). now rewrite mark_doc_fst in H2.
    + split; [exact H1|]. intros b [<-|Hb]; [congruence|now apply H2].
Qed.

Lemma activeTokens_same deviceId w w' :
  user_push_tokens w' = user_push_tokens w -> activeTokens deviceId w' = activeTokens deviceId w.
Proof. intros H. unfold activeTokens. now rewrite H. Qed.

(** The loop, when every dispatch returns [true]. *)
Lemma notify_all_sent env deviceId (alerts : list MovementAlert.t) (w : World) :
  (forall a, In a alerts -> MovementAlert.deviceId a = deviceId) ->
  (forall a, In a alerts -> is_Some (MovementAlert.id a)) ->
  fcmTokensOf (activeTokens deviceId w) <> [] ->
  let w' := fold_left (fun w alert => notifyAlert env deviceId alert w) alerts w in
  movement_alerts w' = map (mark_all (serverTimestamp env) alerts) (movement_alerts w)
  /\ user_push_tokens w' = user_push_tokens w.
Proof.
  revert w. induction alerts as [|a alerts IH]; intros w Hdev Hid Hf; cbn [fold_left].
  - split; [|reflexivity]. unfold mark_all. cbn. now rewrite map_id.
  - destruct (Hid a (or_introl eq_refl)) as [i Hi].
    assert (Ha : MovementAlert.deviceId a = deviceId) by (apply Hdev; now left).
    destruct (notifyAlert_sent env deviceId a w i) as [Hm Ht];
      [now rewrite Ha|exact Hi|].
    destruct (IH (notifyAlert env deviceId a w)) as [IH1 IH2].
    { intros b Hb. apply Hdev. now right. }
    { intros b Hb. apply Hid. now right. }
    { now rewrite (activeTokens_same _ _ _ Ht). }
    split; [|congruence].
    rewrite IH1, Hm, map_map. apply map_ext. intros doc.
    unfold mark_all. cbn [fold_left]. now rewrite Hi.
Qed.

Lemma filter_map_invariant {A} (p : A -> bool) (g : A -> A) (l : list A) :
  (forall x, p (g x) = p x) -> List.filter p (map g l) = map g (List.filter p l).
Proof.
  intros H. induction l as [|x l IH]; [reflexivity|].
  cbn. rewrite H. destruct (p x); cbn; now rewrite IH.
Qed.

(** After a listing whose dispatches all returned [true], no listed alert
    needs a notification. *)
Lemma listed_after_sent env q w :
  (0 <= queryLimit q)%Z ->
  fcmTokensOf (activeTokens (queryDeviceId env q) w) <> [] ->
  highDistanceAlertsOf (listAlerts env q (snd (getMovementAlerts env q w))) = [].
Proof.
  intros Hq Hf. rewrite getMovementAlerts_world by exact Hq.
  set (H := highDistanceAlertsOf (listAlerts env q w)).
  destruct (notify_all_sent env (queryDeviceId env q) H w) as [Hm _].
  { intros a Ha. apply highDistance_In in Ha as [Ha _].
    apply listAlerts_In in Ha as (_ & _ & _ & Ha). exact Ha. }
  { intros a Ha. apply highDistance_In in Ha as [Ha _].
    apply listAlerts_In in Ha as (doc & _ & -> & _). now eexists. }
  { exact Hf. }
  set (g := mark_all (serverTimestamp env) H) in Hm.
  set (w1 := fold_left (fun w alert => notifyAlert env (queryDeviceId env q) alert w) H w)
    in Hm |- *.
  destruct (highDistanceAlertsOf (listAlerts env q w1)) as [|b l] eqn:E; [reflexivity|].
  exfalso.
  assert (Hb : In b (highDistanceAlertsOf (listAlerts env q w1)))
    by (rewrite E; now left).
  apply highDistance_In in Hb as [Hb Hn].
  unfold listAlerts in Hb. rewrite Hm in Hb.
  rewrite filter_map_invariant in Hb by (intros doc; apply mark_all_matches).
  rewrite <- fmap_take in Hb.
  apply in_map_iff in Hb as (doc' & <- & Hb).
  apply in_map_iff in Hb as (doc & <- & Hb).
  unfold g in Hn. rewrite mark_all_fst in Hn.
  apply mark_all_needs in Hn as [Hn Hnot].
  apply (Hnot (MovementAlert.with_id (fst doc) (snd doc))); [|reflexivity].
  apply highDistance_In. split; [|exact Hn].
  unfold listAlerts. apply in_map_iff. exists doc. split; [reflexivity|exact Hb].
Qed.

(** A handler run on its own is the handler function. *)
Lemma run_notifying env deviceId (pending : list MovementAlert.t) (w : World) :
  run_handler (S (length pending)) (Notifying env deviceId pending) w
  = fold_left (fun w alert => notifyAlert env deviceId alert w) pending w.
Proof.
  revert w. induction pending as [|a pending IH]; intros w; [reflexivity|].
  cbn [length]. change (run_handler (S (S (length pending))) (Notifying env deviceId (a :: pending)) w)
    with (run_handler (S (length pending)) (Notifying env deviceId pending)
            (notifyAlert env deviceId a w)).
  apply IH.
Qed.

Lemma run_listing env q w :
  run_handler (S (S (length (highDistanceAlertsOf (listAlerts env q w))))) (Listing env q) w
  = snd (getMovementAlerts env q w).
Proof.
  destruct (Z_lt_le_dec (queryLimit q) 0) as [Hq|Hq].
  - rewrite getMovementAlerts_rejected by exact Hq.
    cbn [run_handler handler_step].
    destruct (queryLimit q <? 0)%Z eqn:E; [reflexivity|lia].
  - rewrite getMovementAlerts_world by exact Hq.
    rewrite <- run_notifying.
    cbn [run_handler handler_step].
    destruct (queryLimit q <? 0)%Z eqn:E; [lia|reflexivity].
Qed.

(** ** Two listings *)

Lemma race_alerts : movement_alerts raceWorld = [(0%nat, movedAlert)].
Proof.
  change (movement_alerts raceWorld)
    with (movement_alerts (scheduledLocationHistory envMoved locked)).
  exact (proj1 moved_checked).
Qed.

Lemma race_tokens : fcmTokensOf (activeTokens "lar91" raceWorld) = [tokenA].
Proof.
  unfold activeTokens.
  change (user_push_tokens raceWorld)
    with (<[tokenId "lar91" tokenA := tokenDocA]>
            (user_push_tokens (scheduledLocationHistory envMoved locked))).
  rewrite (proj2 moved_checked), insert_empty, map_to_list_singleton.
  reflexivity.
Qed.

Lemma moved_needs_notification :
  needsNotification (MovementAlert.with_id 0 movedAlert) = true.
Proof.
  apply needsNotification_true.
  - exact d_moved_gt10.
  - reflexivity.
  - change (MovementAlert.severity (MovementAlert.with_id 0 movedAlert))
      with (severityOf (Geo.calculateDistance 10 20 10.001 20)).
    rewrite severityOf_high by exact d_moved_gt. discriminate.
Qed.

Lemma race_snapshot :
  handler_step (Listing envListing defaultQuery) raceWorld
  = Some (Notifying envListing "lar91" [MovementAlert.with_id 0 movedAlert], raceWorld).
Proof.
  cbn [handler_step].
  rewrite (listAlerts_single envListing raceWorld movedAlert race_alerts eq_refl).
  unfold highDistanceAlertsOf. cbn [List.filter].
  rewrite moved_needs_notification. reflexivity.
Qed.

(** C1, as stated, fails: two listings of the same stored alert, each taking
    its snapshot before the other has written; both dispatch the alert and
    both activate the indicator. *)
Lemma concurrent_listings_dispatch_twice :
  exists w',
    steps ([Listing envListing defaultQuery; Listing envListing defaultQuery], raceWorld)
          ([Finished; Finished], w')
    /\ dispatches_of 0 w' = (2 + dispatches_of 0 raceWorld)%nat
    /\ activations w' = (4 + activations raceWorld)%nat.
Proof.
  set (a := MovementAlert.with_id 0 movedAlert).
  set (w1 := notifyAlert envListing "lar91" a raceWorld).
  set (w2 := notifyAlert envListing "lar91" a w1).
  exists w2. split.
  - eapply steps_cons.
    { eapply (step_handler _ _ 0); [reflexivity|exact race_snapshot]. }
    eapply steps_cons.
    { eapply (step_handler _ _ 1); [reflexivity|exact race_snapshot]. }
    eapply steps_cons.
    { eapply (step_handler _ _ 0); reflexivity. }
    eapply steps_cons.
    { eapply (step_handler _ _ 1); reflexivity. }
    eapply steps_cons.
    { eapply (step_handler _ _ 0); reflexivity. }
    eapply steps_cons.
    { eapply (step_handler _ _ 1); reflexivity. }
    apply steps_refl.
  - destruct (notifyAlert_effects envListing "lar91" a raceWorld) as [Hd1 Ha1].
    destruct (notifyAlert_effects envListing "lar91" a w1) as [Hd2 Ha2].
    fold w1 in Hd1, Ha1, Hd2, Ha2. fold w2 in Hd2, Ha2.
    split.
    + rewrite Hd2, Hd1. reflexivity.
    + rewrite Ha2, Ha1. reflexivity.
Qed.

(** What a whole loop of successful dispatches does to one document: nothing,
    or the update of lines 684-689, and the latter only for the id of an
    alert of the loop. *)
Lemma mark_all_cases now alerts doc :
  mark_all now alerts doc = doc
  \/ (mark_all now alerts doc = (fst doc, MovementAlert.mark_sent now (snd doc))
      /\ exists a, In a alerts /\ MovementAlert.id a = Some (fst doc)).
Proof.
  revert doc. induction alerts as [|a alerts IH]; intros doc; [now left|].
  change (mark_all now (a :: alerts) doc)
    with (mark_all now alerts
            (match MovementAlert.id a with
             | Some i => mark_doc now i doc
             | None => doc
             end)).
  destruct (MovementAlert.id a) as [i|] eqn:Ei.
  - unfold mark_doc. destruct (decide (fst doc = i)) as [E|E].
    + right. split.
      * destruct (IH (fst doc, MovementAlert.mark_sent now (snd doc))) as [->|[-> _]];
          reflexivity.
      * exists a. split; [now left|]. now rewrite Ei, E.
    + destruct (IH doc) as [H|[H (b & Hb & Hi)]]; [now left|right].
      split; [exact H|]. exists b. split; [now right|exact Hi].
  - destruct (IH doc) as [H|[H (b & Hb & Hi)]]; [now left|right].
    split; [exact H|]. exists b. split; [now right|exact Hi].
Qed.

(** A document whose id is the id of an alert of the loop is marked. *)
Lemma mark_all_marked now alerts doc :
  (exists a, In a alerts /\ MovementAlert.id a = Some (fst doc)) ->
  MovementAlert.notificationSent (snd (mark_all now alerts doc)) = true.
Proof.
  revert doc. induction alerts as [|a alerts IH]; intros doc (b & Hb & Hi); [destruct Hb|].
  change (mark_all now (a :: alerts) doc)
    with (mark_all now alerts
            (match MovementAlert.id a with
             | Some i => mark_doc now i doc
             | None => doc
             end)).
  destruct Hb as [<-|Hb].
  - rewrite Hi. unfold mark_doc. rewrite decide_True by reflexivity.
    destruct (mark_all_cases now alerts (fst doc, MovementAlert.mark_sent now (snd doc)))
      as [->|[-> _]]; reflexivity.
  - apply IH. exists b. split; [exact Hb|].
    destruct (MovementAlert.id a); [now rewrite mark_doc_fst|exact Hi].
Qed.

Lemma Forall2_diag_map {A} (P : A -> A -> Prop) (g : A -> A) (l : list A) :
  (forall x, P x (g x)) -> Forall2 P l (map g l).
Proof. intros H. induction l; cbn; constructor; auto. Qed.

(** The stored alerts after a listing for a device with an active non-Expo
    token. *)
Lemma getMovementAlerts_sent env q w :
  (0 <= queryLimit q)%Z ->
  fcmTokensOf (activeTokens (queryDeviceId env q) w) <> [] ->
  movement_alerts (snd (getMovementAlerts env q w))
  = map (mark_all (serverTimestamp env) (highDistanceAlertsOf (listAlerts env q w)))
        (movement_alerts w).
Proof.
  intros Hq Hf. rewrite getMovementAlerts_world by exact Hq.
  apply notify_all_sent.
  - intros a. apply todo_deviceId.
  - intros a Ha. apply highDistance_In in Ha as [Ha _].
    apply listAlerts_In in Ha as (doc & _ & -> & _). now eexists.
  - exact Hf.
Qed.

(** C1, amended. There is no atomic claim.  A listing reads
    [notificationSent] in its query snapshot, dispatches every returned
    alert that is unmarked, above 10 and not of severity low, activating the
    indicator twice for each, and only then writes the flag: a stored alert
    is either left as it was or marked, and it is marked only if the listing
    dispatched an alert with its id and the device has an active non-Expo
    token, which is when the dispatch returns [true].  In that case every
    alert the listing dispatched is marked when the listing ends, and a
    listing of the same query that starts afterwards finds no alert to
    dispatch and changes nothing.  The listings are those of a device id
    that Firestore accepts, with a limit that is not negative. *)
Theorem sequential_listings_dispatch_once (env env2 : Env) (q : AlertsQuery.t) (w : World) :
  plainDocId (queryDeviceId env q) = true ->
  (0 <= queryLimit q)%Z ->
  DEVICE_ID env2 = DEVICE_ID env ->
  let todo := highDistanceAlertsOf (listAlerts env q w) in
  let w1 := snd (getMovementAlerts env q w) in
  let dispatched (doc : nat * MovementAlert.t) :=
    exists a, In a todo /\ MovementAlert.id a = Some (fst doc) in
  (forall i,
      dispatches_of i w1
      = (length (List.filter (fun a => bool_decide (MovementAlert.id a = Some i)) todo)
         + dispatches_of i w)%nat)
  /\ activations w1 = (2 * length todo + activations w)%nat
  /\ Forall2 (fun doc doc' =>
                doc' = doc
                \/ (doc' = (fst doc, MovementAlert.mark_sent (serverTimestamp env) (snd doc))
                    /\ dispatched doc
                    /\ fcmTokensOf (activeTokens (queryDeviceId env q) w) <> []))
             (movement_alerts w) (movement_alerts w1)
  /\ (fcmTokensOf (activeTokens (queryDeviceId env q) w) <> [] ->
        (forall doc', In doc' (movement_alerts w1) -> dispatched doc' ->
                      MovementAlert.notificationSent (snd doc') = true)
        /\ highDistanceAlertsOf (listAlerts env2 q w1) = []
        /\ (forall i, dispatches_of i (snd (getMovementAlerts env2 q w1)) = dispatches_of i w1)
        /\ snd (getMovementAlerts env2 q w1) = w1).
Proof.
  intros _ Hq Hdev todo w1 dispatched.
  destruct (getMovementAlerts_effects env q w) as [Hd Ha].
  split; [exact Hd|]. split; [exact Ha|].
  assert (Hl : listAlerts env2 q w1 = listAlerts env q w1)
    by (unfold listAlerts, queryDeviceId; now rewrite Hdev).
  destruct (decide (fcmTokensOf (activeTokens (queryDeviceId env q) w) = [])) as [Hz|Hf].
  - split; [|intros Hf; contradiction].
    destruct (getMovementAlerts_failed env q w Hz) as (_ & _ & _ & Hm & _).
    fold w1 in Hm. rewrite Hm.
    apply Forall_Forall2_diag, Forall_forall. intros doc _. now left.
  - pose proof (getMovementAlerts_sent env q w Hq Hf) as Hm. fold w1 todo in Hm.
    split.
    + rewrite Hm. apply Forall2_diag_map. intros doc.
      destruct (mark_all_cases (serverTimestamp env) todo doc) as [->|[-> Hex]];
        [now left|right].
      split; [reflexivity|]. split; [exact Hex|exact Hf].
    + intros _.
      assert (Hh : highDistanceAlertsOf (listAlerts env2 q w1) = [])
        by (rewrite Hl; now apply listed_after_sent).
      assert (Hw : snd (getMovementAlerts env2 q w1) = w1).
      { rewrite getMovementAlerts_world by exact Hq. rewrite Hh. reflexivity. }
      split; [|split; [exact Hh|split; [intros i; now rewrite Hw|exact Hw]]].
      intros doc' Hin Hdis. rewrite Hm in Hin.
      apply in_map_iff in Hin as (doc & <- & _).
      apply mark_all_marked. destruct Hdis as (a & Hin & Hi).
      exists a. split; [exact Hin|]. now rewrite mark_all_fst in Hi.
Qed.

(** Two listings of [raceWorld], one after the other: the first dispatches
    the stored alert once, the second changes nothing. *)
Lemma sequential_listings_dispatch_once_witness :
  dispatches_of 0 (snd (getMovementAlerts envListing defaultQuery raceWorld))
  = (1 + dispatches_of 0 raceWorld)%nat
  /\ snd (getMovementAlerts envListing defaultQuery
            (snd (getMovementAlerts envListing defaultQuery raceWorld)))
     = snd (getMovementAlerts envListing defaultQuery raceWorld).
Proof.
  destruct (sequential_listings_dispatch_once envListing envListing defaultQuery raceWorld
              eq_refl ltac:(vm_compute; discriminate) eq_refl) as (Hd & _ & _ & H).
  split.
  - rewrite (Hd 0%nat).
    rewrite (listAlerts_single envListing raceWorld movedAlert race_alerts eq_refl).
    unfold highDistanceAlertsOf. cbn [List.filter].
    rewrite moved_needs_notification. reflexivity.
  - apply H.
    change (queryDeviceId envListing defaultQuery) with "lar91"%string.
    rewrite race_tokens. discriminate.
Defined.


(** * Further properties of the handlers *)

(** ** The distance along a meridian *)

(** X2. Two positions on one meridian, less than 180 degrees of latitude
    apart: the distance is the length of the arc between them. *)
Theorem distance_along_meridian (lat1 lat2 lon : R) :
  Rabs (lat2 - lat1) < 180 ->
  Geo.calculateDistance lat1 lon lat2 lon = 6371000 * (Rabs (lat2 - lat1) * PI / 180).
Proof.
  intros H. destruct (Rle_dec 0 (lat2 - lat1)) as [Hd|Hd].
  - rewrite Rabs_right in H |- * by lra.
    apply GeoFacts.calculateDistance_meridian. lra.
  - rewrite Rabs_left in H |- * by lra.
    rewrite GeoFacts.calculateDistance_sym.
    rewrite GeoFacts.calculateDistance_meridian by lra. lra.
Qed.

(** One degree of latitude southwards. *)
Lemma distance_along_meridian_witness :
  Geo.calculateDistance 10 20 9 20 = 6371000 * (Rabs (9 - 10) * PI / 180).
Proof.
  apply (distance_along_meridian 10 9 20).
  rewrite Rabs_left by lra. lra.
Defined.


(** ** Lock requests *)

Lemma truthyR_zero : truthyR 0 = false.
Proof. unfold truthyR. destruct (Req_dec_T 0 0); [reflexivity|contradiction]. Qed.

(** X3. A lock request without device id or with an empty one, without
    location, or whose latitude or longitude is missing or falsy, is answered
    with status 400 and changes nothing; a latitude or a longitude that is
    the number 0 is falsy, so a position on the equator or on the prime
    meridian cannot be locked. *)
Theorem lock_rejected_changes_nothing (env : Env) (body : LockRequest.t) (w : World) :
  (truthyO truthyS (LockRequest.deviceId body) = false
   \/ LockRequest.location body = None
   \/ (exists location,
         LockRequest.location body = Some location
         /\ (truthyO truthy (LockRequest.lat location) = false
             \/ truthyO truthy (LockRequest.lon location) = false)) ->
   postLockedLocation env body w = ({| status := 400; success := false |}, w))
  /\ (forall location,
        LockRequest.location body = Some location ->
        LockRequest.lat location = Some (JNumber 0)
        \/ LockRequest.lon location = Some (JNumber 0) ->
        postLockedLocation env body w = ({| status := 400; success := false |}, w)).
Proof.
  assert (Hgen : truthyO truthyS (LockRequest.deviceId body) = false
     \/ LockRequest.location body = None
     \/ (exists location,
           LockRequest.location body = Some location
           /\ (truthyO truthy (LockRequest.lat location) = false
               \/ truthyO truthy (LockRequest.lon location) = false)) ->
     postLockedLocation env body w = ({| status := 400; success := false |}, w)).
  { unfold postLockedLocation.
    destruct (LockRequest.deviceId body) as [d|]; [|reflexivity].
    destruct (LockRequest.location body) as [l|]; [|reflexivity].
    destruct (LockRequest.lat l) as [la|] eqn:Ela; [|reflexivity].
    destruct (LockRequest.lon l) as [lo|] eqn:Elo; [|reflexivity].
    cbn [truthyO]. intros [Hd|[Hl|(l' & Hl & Hz)]].
    - now rewrite Hd.
    - discriminate.
    - injection Hl as <-. rewrite Ela, Elo in Hz. cbn [truthyO] in Hz.
      destruct Hz as [Hz|Hz]; rewrite Hz; [now rewrite andb_false_r|].
      now rewrite andb_false_r. }
  split; [exact Hgen|].
  intros location Hl Hz. apply Hgen. right. right. exists location.
  split; [exact Hl|].
  destruct Hz as [Hz|Hz]; rewrite Hz; cbn [truthyO truthy]; rewrite truthyR_zero; auto.
Qed.

(** The request of a device on the equator leaves the store empty. *)
Lemma lock_rejected_changes_nothing_witness :
  postLockedLocation envLock equatorRequest empty_world
  = ({| status := 400; success := false |}, empty_world).
Proof.
  destruct (lock_rejected_changes_nothing envLock equatorRequest empty_world) as [_ H2].
  apply (H2 _ eq_refl). now left.
Defined.

(** X4. After a lock request that passes validation, for a device id that
    Firestore accepts, the status request for that device answers locked, with the coordinates of the request, distance
    0, alert count 0 and no last alert, whatever the replaced document held;
    the lock documents of other devices are as before. *)
Theorem lock_then_status (env env' : Env) (body : LockRequest.t) (w : World)
    (deviceId : string) (location : LockRequest.location_t) (lat lon : JsScalar) :
  LockRequest.deviceId body = Some deviceId ->
  LockRequest.location body = Some location ->
  LockRequest.lat location = Some lat ->
  LockRequest.lon location = Some lon ->
  truthyS deviceId = true -> truthy lat = true -> truthy lon = true ->
  plainDocId deviceId = true ->
  let w' := snd (postLockedLocation env body w) in
  (exists reply,
      getLockedLocation env' (Some deviceId) w' = IsLocked reply
      /\ LockedReply.deviceId reply = deviceId
      /\ LockedLocation.lat (LockedLocation.location (LockedReply.lockedLocation reply))
         = parseFloat lat
      /\ LockedLocation.lon (LockedLocation.location (LockedReply.lockedLocation reply))
         = parseFloat lon
      /\ LockedReply.currentDistance reply = 0
      /\ LockedReply.alertCount reply = O
      /\ LockedReply.lastAlertAt reply = None
      /\ LockedReply.status reply = orS (LockRequest.status body) "locked")
  /\ (forall other, other <> deviceId ->
        locked_locations w' !! other = locked_locations w !! other).
Proof.
  intros Hd Hl Hlat Hlon Td Tlat Tlon _ w'. unfold w', postLockedLocation.
  rewrite Hd, Hl, Hlat, Hlon, Td, Tlat, Tlon.
  cbn [andb snd locked_locations set_location_lock_history set_locked_locations].
  split.
  - assert (Hq : orS (Some deviceId) (DEVICE_ID env') = deviceId)
      by (unfold orS; now rewrite Td).
    unfold getLockedLocation. cbv zeta. rewrite Hq, Td.
    cbn [locked_locations set_location_lock_history set_locked_locations].
    rewrite lookup_insert_eq.
    eexists. split; [reflexivity|]. cbn. repeat split.
    unfold orS. destruct (LockRequest.status body) as [s|]; [|reflexivity].
    destruct (truthyS s) eqn:E; [now rewrite E|reflexivity].
  - intros other Hne. now apply lookup_insert_ne.
Qed.

(** The lock request of the scenario, then the status request. *)
Lemma lock_then_status_witness :
  exists reply,
    getLockedLocation envMoved (Some "lar91"%string) locked = IsLocked reply
    /\ LockedReply.currentDistance reply = 0.
Proof.
  destruct (lock_then_status envLock envMoved lockRequest empty_world "lar91"
              {| LockRequest.lat := Some (JString "10" 10);
                 LockRequest.lon := Some (JString "20" 20);
                 LockRequest.uncertainty := None;
                 LockRequest.serviceType := None |}
              (JString "10" 10) (JString "20" 20)
              eq_refl eq_refl eq_refl eq_refl eq_refl eq_refl eq_refl eq_refl)
    as [(reply & H & _ & _ & _ & Hd & _) _].
  exists reply. split; [exact H|exact Hd].
Defined.


(** ** Unlock requests *)

Lemma clearLockedLocation_found env body w deviceId prior :
  UnlockRequest.deviceId body = Some deviceId ->
  truthyS deviceId = true ->
  locked_locations w !! deviceId = Some prior ->
  clearLockedLocation env body w
  = ({| status := 200; success := true |},
     set_location_lock_history
       (cons (UnlockEntry deviceId
                (orS (UnlockRequest.unlockedAt body) (nowISO env))
                (orS (UnlockRequest.status body) "unlocked")
                (orS (UnlockRequest.timestamp body) (nowISO env))
                prior (serverTimestamp env)))
       (set_locked_locations (delete deviceId) w)).
Proof.
  intros Hd Td Hl. unfold clearLockedLocation. rewrite Hd. cbv zeta; cbn [truthyO default from_option]; cbv [Datatypes.id].
  rewrite Td, Hl. reflexivity.
Qed.

(** X5. An unlock request for a locked device is answered with success,
    removes the lock document of that device only, and adds one history
    entry that holds the removed document; alerts, tokens, remote calls and
    pending timers are as before. *)
Theorem unlock_removes_and_archives (env : Env) (body : UnlockRequest.t) (w : World)
    (deviceId : string) (prior : LockedLocation.t) :
  UnlockRequest.deviceId body = Some deviceId ->
  truthyS deviceId = true ->
  locked_locations w !! deviceId = Some prior ->
  let r := clearLockedLocation env body w in
  fst r = {| status := 200; success := true |}
  /\ locked_locations (snd r) !! deviceId = None
  /\ (forall other, other <> deviceId ->
        locked_locations (snd r) !! other = locked_locations w !! other)
  /\ location_lock_history (snd r)
     = UnlockEntry deviceId
         (orS (UnlockRequest.unlockedAt body) (nowISO env))
         (orS (UnlockRequest.status body) "unlocked")
         (orS (UnlockRequest.timestamp body) (nowISO env))
         prior (serverTimestamp env)
       :: location_lock_history w
  /\ movement_alerts (snd r) = movement_alerts w
  /\ user_push_tokens (snd r) = user_push_tokens w
  /\ effects (snd r) = effects w
  /\ timers (snd r) = timers w.
Proof.
  intros Hd Td Hl r. unfold r.
  rewrite (clearLockedLocation_found env body w deviceId prior Hd Td Hl).
  cbn [fst snd locked_locations set_location_lock_history set_locked_locations].
  split; [reflexivity|]. split; [apply lookup_delete_eq|].
  split; [intros other Hne; now apply lookup_delete_ne|].
  repeat split.
Qed.

(** The device of the scenario, unlocked after it was checked. *)
Lemma unlock_removes_and_archives_witness :
  locked_locations (snd (clearLockedLocation envRelock unlockRequest checkedSafe))
    !! "lar91"%string = None
  /\ location_lock_history (snd (clearLockedLocation envRelock unlockRequest checkedSafe))
     = [UnlockEntry "lar91" "2024-05-01T10:03:00.000Z" "unlocked"
          "2024-05-01T10:03:00.000Z" checkedDoc 3;
        LockEntry lockedDoc].
Proof.
  destruct (unlock_removes_and_archives envRelock unlockRequest checkedSafe "lar91"
              checkedDoc eq_refl eq_refl checkedSafe_lookup)
    as (_ & H1 & _ & H2 & _).
  split; [exact H1|]. rewrite H2, checkedSafe_history. reflexivity.
Defined.

(** X6. An unlock request without device id, or with an empty one, is
    answered with status 400; an unlock request for a device id that
    Firestore accepts and that has no lock document is answered with
    status 404.  Neither changes anything. *)
Theorem unlock_rejected_changes_nothing (env : Env) (body : UnlockRequest.t) (w : World) :
  (truthyO truthyS (UnlockRequest.deviceId body) = false ->
   clearLockedLocation env body w = ({| status := 400; success := false |}, w))
  /\ (forall deviceId,
        UnlockRequest.deviceId body = Some deviceId ->
        truthyS deviceId = true ->
        plainDocId deviceId = true ->
        locked_locations w !! deviceId = None ->
        clearLockedLocation env body w = ({| status := 404; success := false |}, w)).
Proof.
  split.
  - unfold clearLockedLocation.
    destruct (UnlockRequest.deviceId body) as [d|] eqn:Hd; cbv zeta;
      cbn [truthyO default from_option]; cbv [Datatypes.id]; [|reflexivity].
    now intros ->.
  - intros d Hd Td _ Hl. unfold clearLockedLocation. rewrite Hd. cbv zeta;
      cbn [truthyO default from_option]; cbv [Datatypes.id].
    now rewrite Td, Hl.
Qed.

(** An unlock request on the empty store. *)
Lemma unlock_rejected_changes_nothing_witness :
  clearLockedLocation envRelock unlockRequest empty_world
  = ({| status := 404; success := false |}, empty_world).
Proof.
  destruct (unlock_rejected_changes_nothing envRelock unlockRequest empty_world)
    as [_ H2].
  apply (H2 "lar91"%string eq_refl eq_refl eq_refl). apply lookup_empty.
Defined.

(** X7. After a successful unlock the status request answers not locked, a
    second unlock request is answered with status 404, and a scheduled check
    for that device stores no alert, writes no summary and sets no timer. *)
Theorem unlock_then_requests (env env' : Env) (body : UnlockRequest.t) (w : World)
    (deviceId : string) (prior : LockedLocation.t) :
  UnlockRequest.deviceId body = Some deviceId ->
  truthyS deviceId = true ->
  locked_locations w !! deviceId = Some prior ->
  let w' := snd (clearLockedLocation env body w) in
  getLockedLocation env' (Some deviceId) w' = NotLocked deviceId
  /\ clearLockedLocation env' body w' = ({| status := 404; success := false |}, w')
  /\ (DEVICE_ID env' = deviceId ->
      movement_alerts (scheduledLocationHistory env' w') = movement_alerts w
      /\ notification_summary (scheduledLocationHistory env' w') = notification_summary w
      /\ timers (scheduledLocationHistory env' w') = timers w
      /\ locked_locations (scheduledLocationHistory env' w') !! deviceId = None).
Proof.
  intros Hd Td Hl w'.
  assert (Hn : locked_locations w' !! deviceId = None).
  { unfold w'. rewrite (clearLockedLocation_found env body w deviceId prior Hd Td Hl).
    apply lookup_delete_eq. }
  assert (Hf : movement_alerts w' = movement_alerts w
               /\ notification_summary w' = notification_summary w
               /\ timers w' = timers w).
  { unfold w'. rewrite (clearLockedLocation_found env body w deviceId prior Hd Td Hl).
    repeat split. }
  split; [|split].
  - unfold getLockedLocation. cbv zeta.
    assert (Hq : orS (Some deviceId) (DEVICE_ID env') = deviceId)
      by (unfold orS; now rewrite Td).
    rewrite Hq, Td, Hn. reflexivity.
  - unfold clearLockedLocation. rewrite Hd. cbv zeta; cbn [truthyO default from_option]; cbv [Datatypes.id]. now rewrite Td, Hn.
  - intros Hdev. rewrite <- Hdev in Hn. rewrite (tick_no_lock env' w' Hn).
    destruct Hf as (F1 & F2 & F3). rewrite <- F1, <- F2, <- F3, <- Hdev.
    destruct (nrf_history env' (length (effects w'))); repeat split; exact Hn.
Qed.

(** The device of the scenario, unlocked, then asked for its status. *)
Lemma unlock_then_requests_witness :
  getLockedLocation envListing (Some "lar91"%string)
    (snd (clearLockedLocation envRelock unlockRequest checkedSafe))
  = NotLocked "lar91".
Proof.
  exact (proj1 (unlock_then_requests envRelock envListing unlockRequest checkedSafe
                  "lar91" checkedDoc eq_refl eq_refl checkedSafe_lookup)).
Defined.


(** ** Registration requests *)

(** X8. A registration without device id or without token, or with an
    empty one, is answered with status 400 and changes nothing: no document
    is stored and no topic subscription is requested. *)
Theorem register_rejected_changes_nothing (env : Env) (body : TokenRequest.t) (w : World) :
  truthyO truthyS (TokenRequest.deviceId body) = false
  \/ truthyO truthyS (TokenRequest.fcmToken body) = false ->
  registerFCMToken env body w = ({| status := 400; success := false |}, w).
Proof.
  unfold registerFCMToken.
  destruct (TokenRequest.deviceId body) as [d|]; [|reflexivity].
  destruct (TokenRequest.fcmToken body) as [t|]; [|reflexivity].
  cbn [truthyO]. intros [->| ->]; [reflexivity|].
  now rewrite andb_false_r.
Qed.

(** A registration without device id. *)
Lemma register_rejected_changes_nothing_witness :
  registerFCMToken envRegister anonymousTokenRequest empty_world
  = ({| status := 400; success := false |}, empty_world).
Proof.
  apply (register_rejected_changes_nothing envRegister anonymousTokenRequest empty_world).
  now left.
Defined.

(** X9. A registration that passes validation, under a document id that
    Firestore accepts, is answered with success and stores an active document
    for the device and token, whatever the topic subscription reports.  A token that is declared as Expo, or that starts
    with ExponentPushToken[, is stored as an Expo token and subscribed to
    nothing; any other token is stored as an FCM token and subscribed to the
    alert topic in one remote call.  No other collection changes. *)
Theorem register_stores_and_subscribes (env : Env) (body : TokenRequest.t) (w : World)
    (deviceId token : string) :
  TokenRequest.deviceId body = Some deviceId ->
  TokenRequest.fcmToken body = Some token ->
  truthyS deviceId = true -> truthyS token = true ->
  plainDocId (tokenId deviceId token) = true ->
  let r := registerFCMToken env body w in
  fst r = {| status := 200; success := true |}
  /\ (exists doc,
        user_push_tokens (snd r) = <[tokenId deviceId token := doc]> (user_push_tokens w)
        /\ TokenData.deviceId doc = deviceId
        /\ TokenData.pushToken doc = token
        /\ TokenData.active doc = true
        /\ (TokenRequest.tokenType body = Some "expo"%string
            \/ String.prefix "ExponentPushToken[" token = true ->
            TokenData.tokenType doc = expo /\ effects (snd r) = effects w)
        /\ (TokenRequest.tokenType body <> Some "expo"%string ->
            String.prefix "ExponentPushToken[" token = false ->
            TokenData.tokenType doc = fcm
            /\ effects (snd r)
               = FcmSubscribe token (FCM_ALERT_TOPIC env)
                   (fcm_subscribe_ok env (length (effects w)))
                 :: effects w))
  /\ locked_locations (snd r) = locked_locations w
  /\ location_lock_history (snd r) = location_lock_history w
  /\ movement_alerts (snd r) = movement_alerts w
  /\ timers (snd r) = timers w.
Proof.
  intros Hd Ht Td Tt _ r. unfold r, registerFCMToken.
  rewrite Hd, Ht, Td, Tt. cbn [andb]. cbv zeta.
  split; [now destruct (isExpoToken _ _)|].
  split; [|destruct (isExpoToken _ _); repeat split].
  unfold isExpoToken.
  destruct (bool_decide (TokenRequest.tokenType body = Some "expo"%string)) eqn:Eb;
    [apply bool_decide_eq_true_1 in Eb|apply bool_decide_eq_false_1 in Eb];
    destruct (String.prefix "ExponentPushToken[" token) eqn:Ep; cbn [orb snd];
    eexists; (split; [reflexivity|]); cbn [TokenData.deviceId TokenData.pushToken
      TokenData.active TokenData.tokenType]; repeat split;
    try reflexivity; try congruence;
    try (match goal with H : _ \/ _ |- _ => destruct H; congruence end).
Qed.

(** An FCM token for the device of the scenario. *)
Lemma register_stores_and_subscribes_witness :
  fst (registerFCMToken envRegister (tokenRequest tokenA) empty_world)
  = {| status := 200; success := true |}.
Proof.
  exact (proj1 (register_stores_and_subscribes envRegister (tokenRequest tokenA)
                  empty_world "lar91" tokenA eq_refl eq_refl eq_refl eq_refl eq_refl)).
Defined.


(** ** The multicast and its failed tokens *)

Lemma failed_of_combine (outcome : string -> bool) (toks : list string) :
  map fst (List.filter (fun p => negb (snd p)) (combine toks (map outcome toks)))
  = List.filter (fun t => negb (outcome t)) toks.
Proof.
  induction toks as [|t toks IH]; [reflexivity|].
  cbn. destruct (outcome t); cbn; now rewrite IH.
Qed.

Lemma failures_of_responses (outcome : string -> bool) (toks : list string) :
  length (List.filter negb (map outcome toks))
  = length (List.filter (fun t => negb (outcome t)) toks).
Proof.
  induction toks as [|t toks IH]; [reflexivity|].
  cbn. destruct (outcome t); cbn; now rewrite IH.
Qed.

(** X13. A multicast to no token does nothing.  A multicast that is
    rejected as a whole records the call and stores nothing.  A multicast
    that is answered stores one failed-token document exactly when some token
    failed, and that document lists the failing tokens, in the order of the
    call; no other collection changes. *)
Theorem failed_tokens_document (env : Env) (a : MovementAlert.t) (w : World) :
  sendFCMNotificationsToUsers env a [] w = w
  /\ (forall tok toks,
        let sent := tok :: toks in
        let w' := sendFCMNotificationsToUsers env a sent w in
        untouched_by_dispatch w w'
        /\ notification_summary w' = notification_summary w
        /\ match fcm_multicast env (length (effects w)) with
           | None =>
             effects w' = FcmMulticast sent a None :: effects w
             /\ failed_tokens w' = failed_tokens w
           | Some outcome =>
             effects w' = FcmMulticast sent a (Some (map outcome sent)) :: effects w
             /\ failed_tokens w'
                = match List.filter (fun t => negb (outcome t)) sent with
                  | [] => failed_tokens w
                  | failed =>
                    {| FailedTokens.deviceId := MovementAlert.deviceId a;
                       FailedTokens.failedTokens := failed;
                       FailedTokens.timestamp := serverTimestamp env |}
                    :: failed_tokens w
                  end
           end).
Proof.
  split; [reflexivity|]. intros tok toks sent w'.
  split; [apply toUsers_untouched|]. split; [apply toUsers_summary|].
  unfold w', sendFCMNotificationsToUsers, sent.
  destruct (fcm_multicast env (length (effects w))) as [outcome|]; [|now split].
  cbv zeta. rewrite failures_of_responses, failed_of_combine.
  destruct (List.filter (fun t => negb (outcome t)) (tok :: toks)) as [|f fs] eqn:E;
    cbn [length Nat.ltb Nat.leb]; split; reflexivity.
Qed.

(** ** The dispatcher, by kind of token *)

Lemma token_partition (docs : list TokenData.t) :
  (length (fcmTokensOf docs) + length (expoTokensOf docs))%nat = length docs.
Proof.
  unfold fcmTokensOf, expoTokensOf. rewrite !length_map.
  induction docs as [|d docs IH]; [reflexivity|].
  cbn. destruct (bool_decide (TokenData.tokenType d = expo)); cbn; lia.
Qed.

Lemma toUsers_effects_answer env a tok toks w :
  effects (sendFCMNotificationsToUsers env a (tok :: toks) w)
  = FcmMulticast (tok :: toks) a
      (match fcm_multicast env (length (effects w)) with
       | Some outcome => Some (map outcome (tok :: toks))
       | None => None
       end)
    :: effects w.
Proof.
  unfold sendFCMNotificationsToUsers.
  destruct (fcm_multicast env _); [|reflexivity].
  cbv zeta. destruct (0 <? _)%nat; reflexivity.
Qed.

(** The dispatch for a device with a non-Expo token. *)
Lemma dispatch_fcm_world env a w :
  fcmTokensOf (activeTokens (MovementAlert.deviceId a) w) <> [] ->
  fst (sendMovementAlertNotification env a w) = true
  /\ effects (snd (sendMovementAlertNotification env a w))
     = FcmSend (FCM_ALERT_TOPIC env) a (fcm_send_ok env (S (S (length (effects w)))))
       :: FcmMulticast (fcmTokensOf (activeTokens (MovementAlert.deviceId a) w)) a
            (match fcm_multicast env (S (length (effects w))) with
             | Some outcome =>
               Some (map outcome (fcmTokensOf (activeTokens (MovementAlert.deviceId a) w)))
             | None => None
             end)
       :: NrfPatchState (MovementAlert.deviceId a) alertLedConfig
            (nrf_patch_ok env (length (effects w)))
       :: effects w
  /\ notification_summary (snd (sendMovementAlertNotification env a w))
     = summary_of env a (activeTokens (MovementAlert.deviceId a) w) true
       :: notification_summary w.
Proof.
  intros Hf. destruct (dispatch_fcm env a w Hf) as (w2 & Hw2 & ->). cbn [fst snd].
  destruct (fcmTokensOf (activeTokens (MovementAlert.deviceId a) w)) as [|tok toks] eqn:E;
    [contradiction|].
  pose proof (toUsers_effects_answer env a tok toks
                (turnOnMovementAlertLED env (MovementAlert.deviceId a) w)) as He.
  rewrite <- Hw2 in He.
  split; [reflexivity|]. split.
  - cbn [effects set_notification_summary emit]. rewrite He. reflexivity.
  - cbn [notification_summary set_notification_summary emit]. rewrite Hw2.
    now rewrite toUsers_summary.
Qed.

(** X12. When the device has at least one active non-Expo token, the
    dispatch answers [true] whatever the remote calls report, also when the
    multicast is rejected or every recipient fails.  It sends the indicator
    command, one multicast to all those tokens and the topic broadcast, in
    that order, and stores one summary that reports success and whose two
    token counts add up to the number of active tokens of the device. *)
Theorem fcm_dispatch_reports_success (env : Env) (a : MovementAlert.t) (w : World) :
  fcmTokensOf (activeTokens (MovementAlert.deviceId a) w) <> [] ->
  let r := sendMovementAlertNotification env a w in
  let toks := fcmTokensOf (activeTokens (MovementAlert.deviceId a) w) in
  fst r = true
  /\ effects (snd r)
     = FcmSend (FCM_ALERT_TOPIC env) a (fcm_send_ok env (S (S (length (effects w)))))
       :: FcmMulticast toks a
            (match fcm_multicast env (S (length (effects w))) with
             | Some outcome => Some (map outcome toks)
             | None => None
             end)
       :: NrfPatchState (MovementAlert.deviceId a) alertLedConfig
            (nrf_patch_ok env (length (effects w)))
       :: effects w
  /\ exists s,
       notification_summary (snd r) = s :: notification_summary w
       /\ NotificationSummary.overallSuccess s = true
       /\ NotificationSummary.alertData s = a
       /\ NotificationSummary.fcmTokenCount s = length toks
       /\ (NotificationSummary.fcmTokenCount s + NotificationSummary.expoTokenCount s)%nat
          = length (activeTokens (MovementAlert.deviceId a) w).
Proof.
  intros Hf r toks. destruct (dispatch_fcm_world env a w Hf) as (H1 & H2 & H3).
  split; [exact H1|]. split; [exact H2|].
  eexists. split; [exact H3|]. cbn. repeat split. apply token_partition.
Qed.

(** The alert of the scenario, dispatched after the FCM token was
    registered. *)
Lemma fcm_dispatch_reports_success_witness :
  fst (sendMovementAlertNotification envListing movedAlert raceWorld) = true.
Proof.
  apply (fcm_dispatch_reports_success envListing movedAlert raceWorld).
  change (MovementAlert.deviceId movedAlert) with "lar91"%string.
  rewrite race_tokens. discriminate.
Defined.

(** X11. When every active token of the device is an Expo token, the
    dispatch sends the indicator command and the topic broadcast, no
    multicast, answers [false], and stores one summary with no FCM token,
    all active tokens counted as Expo tokens, and no success. *)
Theorem expo_only_dispatch (env : Env) (a : MovementAlert.t) (w : World) :
  activeTokens (MovementAlert.deviceId a) w <> [] ->
  fcmTokensOf (activeTokens (MovementAlert.deviceId a) w) = [] ->
  let r := sendMovementAlertNotification env a w in
  fst r = false
  /\ effects (snd r)
     = FcmSend (FCM_ALERT_TOPIC env) a (fcm_send_ok env (S (length (effects w))))
       :: NrfPatchState (MovementAlert.deviceId a) alertLedConfig
            (nrf_patch_ok env (length (effects w)))
       :: effects w
  /\ failed_tokens (snd r) = failed_tokens w
  /\ exists s,
       notification_summary (snd r) = s :: notification_summary w
       /\ NotificationSummary.overallSuccess s = false
       /\ NotificationSummary.fcmTokenCount s = O
       /\ NotificationSummary.expoTokenCount s
          = length (activeTokens (MovementAlert.deviceId a) w).
Proof.
  intros Hne Hf r. unfold r. rewrite (dispatch_no_fcm env a w Hne Hf). cbn [fst snd].
  repeat split. eexists. split; [reflexivity|]. cbn.
  pose proof (token_partition (activeTokens (MovementAlert.deviceId a) w)) as Hp.
  rewrite Hf in Hp |- *. repeat split. exact Hp.
Qed.

Lemma expo_tokens : activeTokens "lar91" expoWorld = [expoDoc].
Proof.
  unfold activeTokens.
  change (user_push_tokens expoWorld)
    with (<[tokenId "lar91" expoToken := expoDoc]>
            (user_push_tokens (scheduledLocationHistory envMoved locked))).
  rewrite (proj2 moved_checked), insert_empty, map_to_list_singleton.
  reflexivity.
Qed.

(** The alert of the scenario, dispatched after the Expo token was
    registered. *)
Lemma expo_only_dispatch_witness :
  fst (sendMovementAlertNotification envListing movedAlert expoWorld) = false.
Proof.
  apply (expo_only_dispatch envListing movedAlert expoWorld);
    change (MovementAlert.deviceId movedAlert) with "lar91"%string;
    rewrite expo_tokens; [discriminate|reflexivity].
Defined.

(** X14. A dispatch, on whichever path, leaves the token documents, the
    alerts, the lock documents and both histories as they are, so the tokens
    it found failing are still active for the next dispatch; it sends the
    activation pattern once and sets one timer of 60000 ms. *)
Theorem dispatch_frame (env : Env) (a : MovementAlert.t) (w : World) :
  let w' := snd (sendMovementAlertNotification env a w) in
  untouched_by_dispatch w w'
  /\ (forall deviceId, activeTokens deviceId w' = activeTokens deviceId w)
  /\ activations w' = S (activations w)
  /\ timers w'
     = {| callback := TurnOffLED (MovementAlert.deviceId a); delay := 60000 |} :: timers w.
Proof.
  intros w'. pose proof (dispatch_untouched env a w) as Hu.
  split; [exact Hu|]. split; [intros d; now apply activeTokens_untouched|].
  split; [apply dispatch_activations|apply dispatch_timers].
Qed.

(** ** Registration, then dispatch *)

Lemma activeTokens_In deviceId w key doc :
  user_push_tokens w !! key = Some doc ->
  TokenData.deviceId doc = deviceId ->
  TokenData.active doc = true ->
  In doc (activeTokens deviceId w).
Proof.
  intros Hl Hd Ha. unfold activeTokens. apply filter_In. split.
  - apply in_map_iff. exists (key, doc). split; [reflexivity|].
    apply list_elem_of_In, elem_of_map_to_list. exact Hl.
  - rewrite bool_decide_eq_true_2 by exact Hd. now rewrite Ha.
Qed.

Lemma fcmTokensOf_In docs doc :
  In doc docs -> TokenData.tokenType doc = fcm -> In (TokenData.pushToken doc) (fcmTokensOf docs).
Proof.
  intros Hin Ht. unfold fcmTokensOf. apply in_map. apply filter_In. split; [exact Hin|].
  rewrite Ht. reflexivity.
Qed.

Lemma register_stores_and_subscribes_doc env body w deviceId token :
  TokenRequest.deviceId body = Some deviceId ->
  TokenRequest.fcmToken body = Some token ->
  truthyS deviceId = true -> truthyS token = true ->
  TokenRequest.tokenType body <> Some "expo"%string ->
  String.prefix "ExponentPushToken[" token = false ->
  exists doc,
    user_push_tokens (snd (registerFCMToken env body w))
    = <[tokenId deviceId token := doc]> (user_push_tokens w)
    /\ TokenData.deviceId doc = deviceId
    /\ TokenData.pushToken doc = token
    /\ TokenData.active doc = true
    /\ TokenData.tokenType doc = fcm.
Proof.
  intros Hd Ht Td Tt Hty Hp. unfold registerFCMToken.
  rewrite Hd, Ht, Td, Tt. cbn [andb]. cbv zeta. unfold isExpoToken.
  rewrite bool_decide_eq_false_2 by exact Hty. rewrite Hp. cbn [orb snd].
  eexists. split; [reflexivity|]. repeat split.
Qed.

(** X10. After a registration that stored an FCM token for a device, under
    a document id that Firestore accepts, a dispatch of an alert of that
    device answers [true], and its multicast
    goes to a list of tokens that contains the registered one. *)
Theorem registered_token_is_reached (env env' : Env) (body : TokenRequest.t) (w : World)
    (deviceId token : string) (a : MovementAlert.t) :
  TokenRequest.deviceId body = Some deviceId ->
  TokenRequest.fcmToken body = Some token ->
  truthyS deviceId = true -> truthyS token = true ->
  TokenRequest.tokenType body <> Some "expo"%string ->
  String.prefix "ExponentPushToken[" token = false ->
  plainDocId (tokenId deviceId token) = true ->
  MovementAlert.deviceId a = deviceId ->
  let w1 := snd (registerFCMToken env body w) in
  let r := sendMovementAlertNotification env' a w1 in
  fst r = true
  /\ exists toks responses,
       In token toks /\ In (FcmMulticast toks a responses) (effects (snd r)).
Proof.
  intros Hd Ht Td Tt Hty Hp _ Ha w1 r.
  destruct (register_stores_and_subscribes_doc env body w deviceId token Hd Ht Td Tt Hty Hp)
    as (doc & Hm & D1 & D2 & D3 & D4).
  fold w1 in Hm.
  assert (Hin : In token (fcmTokensOf (activeTokens (MovementAlert.deviceId a) w1))).
  { rewrite <- D2. apply fcmTokensOf_In; [|exact D4].
    apply (activeTokens_In _ w1 (tokenId deviceId token)); [|congruence|exact D3].
    rewrite Hm. apply lookup_insert_eq. }
  assert (Hne : fcmTokensOf (activeTokens (MovementAlert.deviceId a) w1) <> [])
    by (intros E; rewrite E in Hin; destruct Hin).
  destruct (dispatch_fcm_world env' a w1 Hne) as (H1 & H2 & _).
  split; [exact H1|]. eexists _, _. split; [exact Hin|].
  unfold r. rewrite H2. right. now left.
Qed.

(** The FCM token of the scenario, then the alert of the scenario. *)
Lemma registered_token_is_reached_witness :
  fst (sendMovementAlertNotification envListing movedAlert
         (snd (registerFCMToken envRegister (tokenRequest tokenA) empty_world)))
  = true.
Proof.
  exact (proj1 (registered_token_is_reached envRegister envListing (tokenRequest tokenA)
                  empty_world "lar91" tokenA movedAlert
                  eq_refl eq_refl eq_refl eq_refl
                  ltac:(discriminate) eq_refl eq_refl eq_refl)).
Defined.


(** ** The scheduled check and the lock document *)

(** What the movement branch leaves untouched, and its update of the lock
    document. *)
Lemma raise_frame env lockedData item d w1 :
  let w' := raiseMovementAlert env lockedData item d w1 in
  user_push_tokens w' = user_push_tokens w1
  /\ location_lock_history w' = location_lock_history w1
  /\ location_history w' = location_history w1
  /\ locked_locations w'
     = alter (lock_after_alert (serverTimestamp env)
                (newMovementAlert env lockedData item d) d)
             (DEVICE_ID env) (locked_locations w1).
Proof.
  unfold raiseMovementAlert. cbv zeta.
  set (a := newMovementAlert env lockedData item d).
  set (w2 := set_movement_alerts _ w1).
  set (w3 := turnOnMovementAlertLED env (DEVICE_ID env) w2).
  pose proof (dispatch_untouched env a w3) as (H1 & H2 & H3 & _ & H5).
  destruct (sendMovementAlertNotification env a w3) as [sent w4].
  cbn [snd] in H1, H2, H3, H5.
  destruct sent; cbn; rewrite H1, H2, H3, H5; repeat split.
Qed.

(** X15. A scheduled check that finds the device within 10 m of its lock
    position stores no alert, sends no notification or indicator command and
    sets no timer; in the lock document it sets the status to locked_safe,
    the current distance and the time of the check, and keeps the position,
    the alert count and the time of the last alert. *)
Theorem check_within_threshold (env : Env) (w : World) (data : LocationData)
    (item : LocationItem) (rest : list LocationItem) (lockedData : LockedLocation.t) :
  nrf_history env (length (effects w)) = Some data ->
  items data = Some (item :: rest) ->
  locked_locations w !! DEVICE_ID env = Some lockedData ->
  truthy (item_lat item) = true ->
  truthy (item_lon item) = true ->
  let d := Geo.calculateDistance
             (LockedLocation.lat (LockedLocation.location lockedData))
             (LockedLocation.lon (LockedLocation.location lockedData))
             (parseFloat (item_lat item)) (parseFloat (item_lon item)) in
  d <= 10 ->
  let w' := scheduledLocationHistory env w in
  movement_alerts w' = movement_alerts w
  /\ notification_summary w' = notification_summary w
  /\ timers w' = timers w
  /\ effects w' = NrfLocationHistory (DEVICE_ID env) (Some data) :: effects w
  /\ exists doc,
       locked_locations w' !! DEVICE_ID env = Some doc
       /\ LockedLocation.status doc = "locked_safe"%string
       /\ LockedLocation.currentDistance doc = Some d
       /\ LockedLocation.lastCheckedAt doc = Some (serverTimestamp env)
       /\ LockedLocation.location doc = LockedLocation.location lockedData
       /\ LockedLocation.lockedAt doc = LockedLocation.lockedAt lockedData
       /\ LockedLocation.alertCount doc = LockedLocation.alertCount lockedData
       /\ LockedLocation.lastAlertAt doc = LockedLocation.lastAlertAt lockedData
       /\ LockedLocation.lastMovementAlert doc = LockedLocation.lastMovementAlert lockedData.
Proof.
  intros Ha Hi Hl Hlat Hlon d Hd w'. unfold w'.
  rewrite (tick_checks env w data item rest lockedData Ha Hi Hl).
  rewrite checkMovement_safe by assumption. fold d.
  repeat split.
  exists (lock_after_safe (serverTimestamp env) d lockedData). split; [|repeat split].
  cbn. rewrite lookup_alter_eq, Hl. reflexivity.
Qed.

(** The check of the scenario that finds the device where it was locked. *)
Lemma check_within_threshold_witness :
  exists doc,
    locked_locations checkedSafe !! "lar91"%string = Some doc
    /\ LockedLocation.status doc = "locked_safe"%string.
Proof.
  destruct (check_within_threshold envSame locked (answerAt "10" 10)
              {| item_lat := JString "10" 10; item_lon := JString "20" 20 |} []
              lockedDoc eq_refl eq_refl locked_lookup eq_refl eq_refl)
    as (_ & _ & _ & _ & doc & H1 & H2 & _).
  - cbn. rewrite GeoFacts.calculateDistance_same. lra.
  - exists doc. split; [exact H1|exact H2].
Defined.

(** X16. A scheduled check that finds the device more than 10 m from its
    lock position adds one to the alert count of the lock document (an
    absent count becomes 1), sets the current distance and the time of the
    last alert, and stores a copy of the alert with [notificationSent] false,
    whatever the dispatch answered; it changes neither the status nor the
    time of the last check nor the position. *)
Theorem check_beyond_threshold (env : Env) (w : World) (data : LocationData)
    (item : LocationItem) (rest : list LocationItem) (lockedData : LockedLocation.t) :
  nrf_history env (length (effects w)) = Some data ->
  items data = Some (item :: rest) ->
  locked_locations w !! DEVICE_ID env = Some lockedData ->
  truthy (item_lat item) = true ->
  truthy (item_lon item) = true ->
  let d := Geo.calculateDistance
             (LockedLocation.lat (LockedLocation.location lockedData))
             (LockedLocation.lon (LockedLocation.location lockedData))
             (parseFloat (item_lat item)) (parseFloat (item_lon item)) in
  10 < d ->
  let w' := scheduledLocationHistory env w in
  length (movement_alerts w') = S (length (movement_alerts w))
  /\ exists doc copy,
       locked_locations w' !! DEVICE_ID env = Some doc
       /\ LockedLocation.alertCount doc
          = Some (S (default O (LockedLocation.alertCount lockedData)))
       /\ LockedLocation.currentDistance doc = Some d
       /\ LockedLocation.lastAlertAt doc = Some (serverTimestamp env)
       /\ LockedLocation.lastMovementAlert doc = Some copy
       /\ MovementAlert.distance copy = d
       /\ MovementAlert.severity copy = severityOf d
       /\ MovementAlert.notificationSent copy = false
       /\ LockedLocation.status doc = LockedLocation.status lockedData
       /\ LockedLocation.lastCheckedAt doc = LockedLocation.lastCheckedAt lockedData
       /\ LockedLocation.location doc = LockedLocation.location lockedData.
Proof.
  intros Ha Hi Hl Hlat Hlon d Hd w'. unfold w'.
  rewrite (tick_checks env w data item rest lockedData Ha Hi Hl).
  rewrite checkMovement_moved by assumption. fold d.
  set (w1 := storeLocationHistory env data _).
  split.
  - destruct (raise_movement_alerts env lockedData item d w1)
      as (a & older & Hm & Hlen & _).
    rewrite Hm. cbn [length]. rewrite Hlen. reflexivity.
  - destruct (raise_frame env lockedData item d w1) as (_ & _ & _ & Hk).
    exists (lock_after_alert (serverTimestamp env)
              (newMovementAlert env lockedData item d) d lockedData),
           (newMovementAlert env lockedData item d).
    split; [|repeat split].
    rewrite Hk, lookup_alter_eq. unfold w1. cbn. rewrite Hl. reflexivity.
Qed.

(** The check of the scenario that finds the device about 111 m away. *)
Lemma check_beyond_threshold_witness :
  exists doc,
    locked_locations (scheduledLocationHistory envMoved locked) !! "lar91"%string = Some doc
    /\ LockedLocation.alertCount doc = Some 1%nat
    /\ LockedLocation.status doc = "locked"%string.
Proof.
  destruct (check_beyond_threshold envMoved locked (answerAt "10.001" 10.001) movedItem []
              lockedDoc eq_refl eq_refl locked_lookup eq_refl eq_refl d_moved_gt10)
    as (_ & doc & copy & H1 & H2 & _ & _ & _ & _ & _ & _ & H3 & _).
  exists doc. split; [exact H1|]. split; [exact H2|exact H3].
Defined.

(** X17. A scheduled check whose telemetry request fails writes to no
    collection.  One whose answer has no item, or whose first item has a
    missing, empty or zero latitude or longitude, writes the answer to the
    location history and nothing else: the lock document keeps its status,
    its distance and the time of its last check. *)
Theorem check_without_position (env : Env) (w : World) :
  let w' := scheduledLocationHistory env w in
  (nrf_history env (length (effects w)) = None ->
   w' = emit (NrfLocationHistory (DEVICE_ID env) None) w)
  /\ (forall data,
        nrf_history env (length (effects w)) = Some data ->
        match items data with
        | Some (item :: _) => truthy (item_lat item) && truthy (item_lon item) = false
        | _ => True
        end ->
        w' = storeLocationHistory env data
               (emit (NrfLocationHistory (DEVICE_ID env) (Some data)) w)).
Proof.
  intros w'. unfold w', scheduledLocationHistory. cbv zeta. split.
  - intros ->. reflexivity.
  - intros data -> Hi.
    destruct (locked_locations _ !! DEVICE_ID env) as [lockedData|]; [|reflexivity].
    destruct (items data) as [[|item rest]|]; try reflexivity.
    unfold checkMovement. now rewrite Hi.
Qed.

(** The check of the locked device while nRF Cloud cannot be reached. *)
Lemma check_without_position_witness :
  scheduledLocationHistory envDown locked
  = emit (NrfLocationHistory "lar91" None) locked.
Proof.
  exact (proj1 (check_without_position envDown locked) eq_refl).
Defined.


(** ** What no request removes *)

Ltac solve_appends :=
  unfold only_appends; cbn; rewrite ?length_map;
  repeat split; try reflexivity; try lia; try (apply suffix_cons_r; reflexivity).

Lemma only_appends_refl w : only_appends w w.
Proof. solve_appends. Qed.

Lemma only_appends_trans w1 w2 w3 :
  only_appends w1 w2 -> only_appends w2 w3 -> only_appends w1 w3.
Proof.
  unfold only_appends.
  intros (A1 & A2 & A3 & A4 & A5 & A6 & A7) (B1 & B2 & B3 & B4 & B5 & B6 & B7).
  repeat split; try (etrans; eassumption); try lia.
Qed.

Lemma only_appends_emit e w : only_appends w (emit e w).
Proof.
  solve_appends.
Qed.

Lemma only_appends_setTimeout c ms w : only_appends w (setTimeout c ms w).
Proof.
  solve_appends.
Qed.

Lemma only_appends_turnOn env d w : only_appends w (turnOnMovementAlertLED env d w).
Proof.
  eapply only_appends_trans; [apply only_appends_emit|apply only_appends_setTimeout].
Qed.

Lemma only_appends_toUsers env a toks w :
  only_appends w (sendFCMNotificationsToUsers env a toks w).
Proof.
  unfold sendFCMNotificationsToUsers. destruct toks; [apply only_appends_refl|].
  destruct (fcm_multicast env _); [|apply only_appends_emit].
  cbv zeta. destruct (0 <? _)%nat; [|apply only_appends_emit].
  eapply only_appends_trans; [apply only_appends_emit|].
  solve_appends.
Qed.

Lemma only_appends_summary s w : only_appends w (set_notification_summary (cons s) w).
Proof.
  solve_appends.
Qed.

Lemma only_appends_dispatch env a w :
  only_appends w (snd (sendMovementAlertNotification env a w)).
Proof.
  dispatch_paths env a w; cbn [snd].
  - eapply only_appends_trans; [apply only_appends_turnOn|apply only_appends_emit].
  - eapply only_appends_trans; [apply only_appends_turnOn|].
    eapply only_appends_trans; [apply only_appends_emit|apply only_appends_summary].
  - eapply only_appends_trans; [apply only_appends_turnOn|].
    eapply only_appends_trans; [apply (only_appends_toUsers env a)|].
    rewrite <- Hw2.
    eapply only_appends_trans; [apply only_appends_emit|apply only_appends_summary].
Qed.

Lemma only_appends_update_alert i f w : only_appends w (update_alert i f w).
Proof.
  solve_appends.
Qed.

Lemma only_appends_locks f w : only_appends w (set_locked_locations f w).
Proof. solve_appends. Qed.

Lemma only_appends_notifyAlert env deviceId a w :
  only_appends w (notifyAlert env deviceId a w).
Proof.
  unfold notifyAlert. cbv zeta.
  eapply only_appends_trans; [apply (only_appends_turnOn env deviceId)|].
  pose proof (only_appends_dispatch env a (turnOnMovementAlertLED env deviceId w)) as H.
  destruct (sendMovementAlertNotification env a _) as [sent w2]. cbn [snd] in H.
  destruct sent, (MovementAlert.id a); try exact H.
  eapply only_appends_trans; [exact H|apply only_appends_update_alert].
Qed.

Lemma only_appends_listing env q w : only_appends w (snd (getMovementAlerts env q w)).
Proof.
  destruct (Z_lt_le_dec (queryLimit q) 0) as [Hq|Hq].
  - rewrite getMovementAlerts_rejected by exact Hq. apply only_appends_refl.
  - rewrite getMovementAlerts_world by exact Hq.
    generalize (highDistanceAlertsOf (listAlerts env q w)). intros alerts.
    revert w. induction alerts as [|a alerts IH]; intros w; cbn [fold_left].
    + apply only_appends_refl.
    + eapply only_appends_trans; [apply only_appends_notifyAlert|apply IH].
Qed.

Lemma only_appends_raise env lockedData item d w1 :
  only_appends w1 (raiseMovementAlert env lockedData item d w1).
Proof.
  unfold raiseMovementAlert. cbv zeta.
  set (a := newMovementAlert env lockedData item d).
  set (w2 := set_movement_alerts _ w1).
  assert (H2 : only_appends w1 w2).
  { unfold w2. solve_appends. }
  set (w3 := turnOnMovementAlertLED env (DEVICE_ID env) w2).
  pose proof (only_appends_dispatch env a w3) as H.
  destruct (sendMovementAlertNotification env a w3) as [sent w4]. cbn [snd] in H.
  eapply only_appends_trans; [exact H2|].
  eapply only_appends_trans; [apply (only_appends_turnOn env (DEVICE_ID env))|].
  fold w3. eapply only_appends_trans; [exact H|].
  unfold update_lock.
  destruct sent; [|apply only_appends_locks].
  eapply only_appends_trans; [apply only_appends_update_alert|apply only_appends_locks].
Qed.

Lemma only_appends_store env data w : only_appends w (storeLocationHistory env data w).
Proof.
  solve_appends.
Qed.

Lemma only_appends_check env w : only_appends w (scheduledLocationHistory env w).
Proof.
  unfold scheduledLocationHistory. cbv zeta.
  destruct (nrf_history env (length (effects w))) as [data|]; [|apply only_appends_emit].
  set (w1 := storeLocationHistory env data _).
  assert (H1 : only_appends w w1).
  { eapply only_appends_trans; [apply only_appends_emit|apply only_appends_store]. }
  destruct (locked_locations w1 !! DEVICE_ID env) as [lockedData|]; [|exact H1].
  destruct (items data) as [[|item rest]|]; try exact H1.
  unfold checkMovement.
  destruct (truthy (item_lat item) && truthy (item_lon item)); [|exact H1].
  cbv zeta. destruct (Rgtb _ 10).
  - eapply only_appends_trans; [exact H1|apply only_appends_raise].
  - eapply only_appends_trans; [exact H1|apply only_appends_locks].
Qed.

Lemma only_appends_history e w : only_appends w (set_location_lock_history (cons e) w).
Proof.
  solve_appends.
Qed.

Lemma only_appends_tokens f w : only_appends w (set_user_push_tokens f w).
Proof. solve_appends. Qed.

Lemma only_appends_serve r w : only_appends w (serve r w).
Proof.
  destruct r as [env body|env body|env body|env q|env|env t]; cbn [serve].
  - unfold postLockedLocation.
    destruct (LockRequest.deviceId body); [|apply only_appends_refl].
    destruct (LockRequest.location body) as [l|]; [|apply only_appends_refl].
    destruct (LockRequest.lat l); [|apply only_appends_refl].
    destruct (LockRequest.lon l); [|apply only_appends_refl].
    destruct (_ && _); [|apply only_appends_refl].
    cbn [snd]. eapply only_appends_trans; [apply only_appends_locks|apply only_appends_history].
  - unfold clearLockedLocation.
    destruct (truthyO truthyS _); [|apply only_appends_refl].
    cbv zeta. destruct (locked_locations w !! _); [|apply only_appends_refl].
    cbn [snd]. eapply only_appends_trans; [apply only_appends_locks|apply only_appends_history].
  - unfold registerFCMToken.
    destruct (TokenRequest.deviceId body); [|apply only_appends_refl].
    destruct (TokenRequest.fcmToken body); [|apply only_appends_refl].
    destruct (_ && _); [|apply only_appends_refl].
    cbv zeta. cbn [snd]. destruct (isExpoToken _ _); [apply only_appends_tokens|].
    eapply only_appends_trans; [apply only_appends_tokens|apply only_appends_emit].
  - apply only_appends_listing.
  - apply only_appends_check.
  - unfold run_timer. destruct (callback t). apply only_appends_emit.
Qed.

(** X18. No request removes anything from the lock history, the summaries,
    the failed-token documents, the location history, the alerts, the trace
    of remote calls or the pending timers: after any sequence of requests
    each of them ends with what it held before, and there are at least as
    many alerts. *)
Theorem requests_only_append (rs : list Request) (w : World) :
  only_appends w (serveAll rs w).
Proof.
  revert w. induction rs as [|r rs IH]; intros w; cbn.
  - apply only_appends_refl.
  - eapply only_appends_trans; [apply only_appends_serve|apply IH].
Qed.


(** ** What a listing changes *)

Lemma same_or_marked_refl doc : same_or_marked doc doc.
Proof. now left. Qed.

Lemma same_or_marked_trans doc1 doc2 doc3 :
  same_or_marked doc1 doc2 -> same_or_marked doc2 doc3 -> same_or_marked doc1 doc3.
Proof.
  intros [->|(n1 & ->)] [->|(n2 & ->)].
  - now left.
  - right. now exists n2.
  - right. now exists n1.
  - right. now exists n2.
Qed.

Lemma same_or_marked_mark_doc now i doc : same_or_marked doc (mark_doc now i doc).
Proof.
  unfold mark_doc. destruct (decide (fst doc = i)); [right; now exists now|now left].
Qed.

Lemma Forall2_same_or_marked_refl l : Forall2 same_or_marked l l.
Proof. induction l; constructor; [apply same_or_marked_refl|assumption]. Qed.

Lemma Forall2_same_or_marked_map (f : nat * MovementAlert.t -> nat * MovementAlert.t) l :
  (forall doc, same_or_marked doc (f doc)) -> Forall2 same_or_marked l (map f l).
Proof. intros H. induction l; constructor; [apply H|assumption]. Qed.

(** The collections a listing round cannot change, and the shape of its
    change to the alerts. *)
Lemma notifyAlert_frame env deviceId a w :
  let w' := notifyAlert env deviceId a w in
  locked_locations w' = locked_locations w
  /\ location_lock_history w' = location_lock_history w
  /\ user_push_tokens w' = user_push_tokens w
  /\ location_history w' = location_history w
  /\ Forall2 same_or_marked (movement_alerts w) (movement_alerts w').
Proof.
  unfold notifyAlert. cbv zeta.
  set (w1 := turnOnMovementAlertLED env deviceId w).
  pose proof (dispatch_untouched env a w1) as (H1 & H2 & H3 & H4 & H5).
  destruct (sendMovementAlertNotification env a w1) as [sent w2].
  cbn [snd] in H1, H2, H3, H4, H5.
  destruct sent, (MovementAlert.id a) as [i|]; cbn; rewrite H1, H2, H3, H5;
    repeat split; try (rewrite H4; apply Forall2_same_or_marked_refl).
  rewrite H4. apply Forall2_same_or_marked_map.
  intros doc. apply (same_or_marked_mark_doc (serverTimestamp env) i doc).
Qed.

Lemma Forall2_same_or_marked_trans l1 l2 l3 :
  Forall2 same_or_marked l1 l2 -> Forall2 same_or_marked l2 l3 ->
  Forall2 same_or_marked l1 l3.
Proof.
  intros H12. revert l3. induction H12 as [|x y l l' Hxy _ IH]; intros l3 H23.
  - inversion H23. constructor.
  - inversion H23 as [|y' z l2' l3' Hyz Hrest]; subst. constructor.
    + eapply same_or_marked_trans; eassumption.
    + now apply IH.
Qed.

(** X19. An alert listing changes no lock document, no token document and
    neither history; it adds and removes no alert document, and every alert
    document is afterwards as before or marked as sent: its id, device,
    distance and severity are unchanged, and a document that was marked as
    sent stays marked. *)
Theorem listing_frame (env : Env) (q : AlertsQuery.t) (w : World) :
  let w' := snd (getMovementAlerts env q w) in
  locked_locations w' = locked_locations w
  /\ location_lock_history w' = location_lock_history w
  /\ user_push_tokens w' = user_push_tokens w
  /\ location_history w' = location_history w
  /\ Forall2 same_or_marked (movement_alerts w) (movement_alerts w')
  /\ Forall2 (fun doc doc' =>
                fst doc' = fst doc
                /\ MovementAlert.deviceId (snd doc') = MovementAlert.deviceId (snd doc)
                /\ MovementAlert.distance (snd doc') = MovementAlert.distance (snd doc)
                /\ MovementAlert.severity (snd doc') = MovementAlert.severity (snd doc)
                /\ (MovementAlert.notificationSent (snd doc) = true ->
                    MovementAlert.notificationSent (snd doc') = true))
             (movement_alerts w) (movement_alerts w').
Proof.
  intros w'.
  assert (H : locked_locations w' = locked_locations w
              /\ location_lock_history w' = location_lock_history w
              /\ user_push_tokens w' = user_push_tokens w
              /\ location_history w' = location_history w
              /\ Forall2 same_or_marked (movement_alerts w) (movement_alerts w')).
  { unfold w'. clear w'. destruct (Z_lt_le_dec (queryLimit q) 0) as [Hq|Hq].
    - rewrite getMovementAlerts_rejected by exact Hq.
      repeat split. apply Forall2_same_or_marked_refl.
    - rewrite getMovementAlerts_world by exact Hq.
      generalize (highDistanceAlertsOf (listAlerts env q w)). intros alerts.
      revert w. induction alerts as [|a alerts IH]; intros w; cbn [fold_left].
      + repeat split. apply Forall2_same_or_marked_refl.
      + destruct (notifyAlert_frame env (queryDeviceId env q) a w)
          as (A1 & A2 & A3 & A4 & A5).
        destruct (IH (notifyAlert env (queryDeviceId env q) a w))
          as (B1 & B2 & B3 & B4 & B5).
        repeat split; try congruence.
        eapply Forall2_same_or_marked_trans; eassumption. }
  destruct H as (H1 & H2 & H3 & H4 & H5). repeat split; try assumption.
  eapply Forall2_impl; [exact H5|].
  intros doc doc' [->|(now & ->)]; cbn; repeat split; auto.
Qed.


(** ** The answer of a listing *)

Lemma listAlerts_In_severity env q w a s :
  In a (listAlerts env q w) -> severityFilter q = Some s -> MovementAlert.severity a = s.
Proof.
  unfold listAlerts. intros H Hs. apply in_map_iff in H as (doc & <- & H).
  apply list_elem_of_In, elem_of_take in H as (k & H & _).
  apply list_elem_of_lookup_2, list_elem_of_In, filter_In in H as [_ Hq].
  unfold matchesQuery in Hq. rewrite Hs in Hq. apply andb_prop in Hq as [_ Hq].
  cbn. now apply bool_decide_eq_true_1 in Hq.
Qed.

Lemma listAlerts_length env q w :
  (0 <= queryLimit q)%Z -> (Z.of_nat (length (listAlerts env q w)) <= queryLimit q)%Z.
Proof.
  intros Hq. unfold listAlerts. rewrite length_map, length_take. lia.
Qed.

Lemma queryLimit_default q :
  AlertsQuery.limit q = None \/ AlertsQuery.limit q = Some 0%Z -> queryLimit q = 10%Z.
Proof. unfold queryLimit. intros [->| ->]; reflexivity. Qed.

(** X20. A listing for a device id that Firestore accepts, with a limit
    that is not negative, answers with at most [limit] alerts (10 when the
    limit is absent, unparsable or 0), all of the queried device and of the
    queried severity, as they were stored before the request: an alert that
    this request dispatches is still reported as not sent.  The number of
    notifications it reports is the number of listed alerts that needed one,
    whatever their dispatch answered. *)
Theorem listing_answer (env : Env) (q : AlertsQuery.t) (w : World) :
  (0 <= queryLimit q)%Z ->
  plainDocId (queryDeviceId env q) = true ->
  exists reply,
    fst (getMovementAlerts env q w) = inr reply
    /\ AlertsReply.alerts reply = listAlerts env q w
    /\ AlertsReply.alertCount reply = length (AlertsReply.alerts reply)
    /\ (Z.of_nat (AlertsReply.alertCount reply) <= queryLimit q)%Z
    /\ (AlertsQuery.limit q = None \/ AlertsQuery.limit q = Some 0%Z ->
        (AlertsReply.alertCount reply <= 10)%nat)
    /\ (forall a, In a (AlertsReply.alerts reply) ->
          MovementAlert.deviceId a = queryDeviceId env q
          /\ (forall s, severityFilter q = Some s -> MovementAlert.severity a = s)
          /\ (exists doc, In doc (movement_alerts w)
                /\ a = MovementAlert.with_id (fst doc) (snd doc))
          /\ (needsNotification a = true -> MovementAlert.notificationSent a = false))
    /\ AlertsReply.notificationsSent reply
       = length (List.filter needsNotification (AlertsReply.alerts reply))
    /\ (AlertsReply.notificationsSent reply <= AlertsReply.alertCount reply)%nat
    /\ AlertsReply.ledActivated reply
       = negb (Nat.eqb (AlertsReply.notificationsSent reply) 0).
Proof.
  intros Hq _. unfold getMovementAlerts.
  destruct (queryLimit q <? 0)%Z eqn:E; [lia|]. cbv zeta. cbn [fst].
  eexists. split; [reflexivity|].
  cbn [AlertsReply.alerts AlertsReply.alertCount AlertsReply.notificationsSent
       AlertsReply.ledActivated].
  split; [reflexivity|]. split; [reflexivity|].
  split; [now apply listAlerts_length|].
  split.
  { intros Hl. pose proof (listAlerts_length env q w Hq) as H.
    rewrite (queryLimit_default q Hl) in H. lia. }
  split.
  { intros a Ha. split; [|split; [|split]].
    - apply listAlerts_In in Ha as (_ & _ & _ & H). exact H.
    - intros s Hs. eapply listAlerts_In_severity; eassumption.
    - apply listAlerts_In in Ha as (doc & H1 & H2 & _). now exists doc.
    - unfold needsNotification. intros H.
      apply andb_prop in H as [H _]. apply andb_prop in H as [_ H].
      now apply negb_true_iff in H. }
  split; [reflexivity|]. split.
  { unfold highDistanceAlertsOf. apply filter_length_le. }
  unfold highDistanceAlertsOf.
  destruct (length (List.filter needsNotification (listAlerts env q w))); reflexivity.
Qed.

(** The listing of [raceWorld]: one alert, reported as not sent, one
    notification. *)
Lemma listing_answer_witness :
  exists reply,
    fst (getMovementAlerts envListing defaultQuery raceWorld) = inr reply
    /\ AlertsReply.alerts reply = [MovementAlert.with_id 0 movedAlert]
    /\ AlertsReply.notificationsSent reply = 1%nat.
Proof.
  destruct (listing_answer envListing defaultQuery raceWorld ltac:(vm_compute; discriminate) eq_refl)
    as (reply & H1 & H2 & _ & _ & _ & _ & H3 & _).
  exists reply. split; [exact H1|].
  rewrite H3, H2, (listAlerts_single envListing raceWorld movedAlert race_alerts eq_refl).
  split; [reflexivity|]. cbn [List.filter].
  rewrite moved_needs_notification. reflexivity.
Defined.


(** ** What holds of every store the requests build *)

Lemma alert_consistent_marked now a :
  alert_consistent a -> alert_consistent (MovementAlert.mark_sent now a).
Proof. intros H. exact H. Qed.

Lemma same_or_marked_consistent doc doc' :
  same_or_marked doc doc' ->
  alert_consistent (snd doc) -> alert_consistent (snd doc') /\ fst doc' = fst doc.
Proof. intros [->|(now & ->)] H; split; try reflexivity; exact H. Qed.

Lemma Forall2_same_or_marked_consistent l l' :
  Forall2 same_or_marked l l' ->
  Forall (fun doc => alert_consistent (snd doc)) l ->
  Forall (fun doc => alert_consistent (snd doc)) l'
  /\ map fst l' = map fst l /\ length l' = length l.
Proof.
  induction 1 as [|x y l l' Hxy _ IH]; intros Hf; [repeat split; constructor|].
  inversion Hf as [|? ? Hx Hl]; subst.
  destruct (IH Hl) as (I1 & I2 & I3).
  destruct (same_or_marked_consistent x y Hxy Hx) as [Hy Hfst].
  split; [constructor; assumption|]. cbn. split; congruence.
Qed.

Lemma alerts_consistent_marked w w' :
  Forall2 same_or_marked (movement_alerts w) (movement_alerts w') ->
  alerts_consistent w -> alerts_consistent w'.
Proof.
  intros H [Hf Hids].
  destruct (Forall2_same_or_marked_consistent _ _ H Hf) as (H1 & H2 & H3).
  split; [exact H1|]. now rewrite H2, H3.
Qed.

Lemma alerts_consistent_same w w' :
  movement_alerts w' = movement_alerts w -> alerts_consistent w -> alerts_consistent w'.
Proof. unfold alerts_consistent. now intros ->. Qed.

(** The alerts after the movement branch. *)
Lemma raise_alerts_shape env lockedData item d w1 :
  exists a' older,
    movement_alerts (raiseMovementAlert env lockedData item d w1)
    = (length (movement_alerts w1), a') :: older
    /\ same_or_marked (length (movement_alerts w1), newMovementAlert env lockedData item d)
                      (length (movement_alerts w1), a')
    /\ Forall2 same_or_marked (movement_alerts w1) older.
Proof.
  unfold raiseMovementAlert. cbv zeta.
  set (a := newMovementAlert env lockedData item d).
  set (w2 := set_movement_alerts _ w1).
  set (w3 := turnOnMovementAlertLED env (DEVICE_ID env) w2).
  destruct (sendMovementAlertNotification env a w3) as [sent w4] eqn:E.
  assert (Hu : movement_alerts w4 = movement_alerts w2).
  { pose proof (dispatch_untouched env a w3) as (_&_&_&H&_). rewrite E in H. exact H. }
  destruct sent; cbn; rewrite Hu; cbn.
  - rewrite decide_True by reflexivity. eexists _, _. split; [reflexivity|]. split.
    + right. now exists (serverTimestamp env).
    + apply Forall2_same_or_marked_map. intros doc.
      apply (same_or_marked_mark_doc (serverTimestamp env) (length (movement_alerts w1)) doc).
  - eexists _, _. split; [reflexivity|]. split; [now left|].
    apply Forall2_same_or_marked_refl.
Qed.

Lemma alerts_consistent_raise env lockedData item d w1 :
  10 < d -> alerts_consistent w1 ->
  alerts_consistent (raiseMovementAlert env lockedData item d w1).
Proof.
  intros Hd [Hf Hids].
  destruct (raise_alerts_shape env lockedData item d w1) as (a' & older & Hm & Ha & Ho).
  destruct (Forall2_same_or_marked_consistent _ _ Ho Hf) as (H1 & H2 & H3).
  assert (Hnew : alert_consistent (newMovementAlert env lockedData item d))
    by (repeat split; exact Hd).
  destruct (same_or_marked_consistent _ _ Ha Hnew) as [Ha' _].
  unfold alerts_consistent. rewrite Hm. split; [constructor; assumption|].
  cbn [map fst length]. rewrite H2, H3, Hids.
  rewrite seq_S, rev_app_distr. reflexivity.
Qed.

Lemma Rgtb_true_inv x y : Rgtb x y = true -> y < x.
Proof. unfold Rgtb. destruct (Rlt_dec y x); [trivial|discriminate]. Qed.

Lemma alerts_consistent_check env w :
  alerts_consistent w -> alerts_consistent (scheduledLocationHistory env w).
Proof.
  intros H. unfold scheduledLocationHistory. cbv zeta.
  destruct (nrf_history env (length (effects w))) as [data|]; [|exact H].
  set (w1 := storeLocationHistory env data _).
  assert (H1 : alerts_consistent w1) by exact H.
  destruct (locked_locations w1 !! DEVICE_ID env) as [lockedData|]; [|exact H1].
  destruct (items data) as [[|item rest]|]; try exact H1.
  unfold checkMovement.
  destruct (truthy (item_lat item) && truthy (item_lon item)); [|exact H1].
  cbv zeta. destruct (Rgtb _ 10) eqn:E; [|exact H1].
  apply alerts_consistent_raise; [|exact H1]. now apply Rgtb_true_inv.
Qed.

Lemma listing_frame_alerts env q w :
  Forall2 same_or_marked (movement_alerts w)
          (movement_alerts (snd (getMovementAlerts env q w)))
  /\ locked_locations (snd (getMovementAlerts env q w)) = locked_locations w
  /\ user_push_tokens (snd (getMovementAlerts env q w)) = user_push_tokens w.
Proof.
  destruct (Z_lt_le_dec (queryLimit q) 0) as [Hq|Hq].
  - rewrite getMovementAlerts_rejected by exact Hq.
    repeat split. apply Forall2_same_or_marked_refl.
  - rewrite getMovementAlerts_world by exact Hq.
    generalize (highDistanceAlertsOf (listAlerts env q w)). intros alerts.
    revert w. induction alerts as [|a alerts IH]; intros w; cbn [fold_left].
    + repeat split. apply Forall2_same_or_marked_refl.
    + destruct (notifyAlert_frame env (queryDeviceId env q) a w)
        as (A1 & _ & A3 & _ & A5).
      destruct (IH (notifyAlert env (queryDeviceId env q) a w)) as (B5 & B1 & B3).
      repeat split; try congruence.
      eapply Forall2_same_or_marked_trans; eassumption.
Qed.

Lemma serve_other_alerts r w :
  match r with
  | AlertsListed _ _ | CheckScheduled _ => True
  | _ => movement_alerts (serve r w) = movement_alerts w
  end.
Proof.
  destruct r as [env body|env body|env body|env q|env|env t]; cbn [serve]; trivial.
  - unfold postLockedLocation.
    destruct (LockRequest.deviceId body); [|reflexivity].
    destruct (LockRequest.location body) as [l|]; [|reflexivity].
    destruct (LockRequest.lat l); [|reflexivity].
    destruct (LockRequest.lon l); [|reflexivity].
    destruct (_ && _); reflexivity.
  - unfold clearLockedLocation.
    destruct (truthyO truthyS _); [|reflexivity].
    cbv zeta. destruct (locked_locations w !! _); reflexivity.
  - unfold registerFCMToken.
    destruct (TokenRequest.deviceId body); [|reflexivity].
    destruct (TokenRequest.fcmToken body); [|reflexivity].
    destruct (_ && _); [|reflexivity].
    cbv zeta. destruct (isExpoToken _ _); reflexivity.
  - unfold run_timer. destruct (callback t). reflexivity.
Qed.

Lemma alerts_consistent_serve r w : alerts_consistent w -> alerts_consistent (serve r w).
Proof.
  intros H. pose proof (serve_other_alerts r w) as Hs.
  destruct r as [env body|env body|env body|env q|env|env t];
    try (now apply (alerts_consistent_same w)).
  - cbn [serve]. eapply alerts_consistent_marked; [|exact H].
    now destruct (listing_frame_alerts env q w).
  - now apply alerts_consistent_check.
Qed.

Lemma alerts_consistent_empty : alerts_consistent empty_world.
Proof. split; [constructor|reflexivity]. Qed.

(** X21. In every store that a sequence of requests builds from the empty
    store, each alert was written by the scheduled check and has a distance
    above its threshold of 10 and the severity of that distance. *)
Theorem stored_alerts_consistent (rs : list Request) :
  let w := serveAll rs empty_world in
  forall i a, In (i, a) (movement_alerts w) ->
    10 < MovementAlert.distance a
    /\ MovementAlert.threshold a = 10
    /\ MovementAlert.severity a = severityOf (MovementAlert.distance a)
    /\ MovementAlert.source a = "scheduled_check"%string.
Proof.
  intros w.
  assert (H : alerts_consistent w).
  { unfold w. generalize empty_world, alerts_consistent_empty.
    induction rs as [|r rs IH]; intros w0 H0; [exact H0|].
    cbn. apply IH. now apply alerts_consistent_serve. }
  destruct H as [Hf _].
  intros i a Hin. rewrite Forall_forall in Hf.
  exact (Hf (i, a) ltac:(now apply list_elem_of_In)).
Qed.

(** The lock request of the scenario, then the scheduled check of [envMoved]. *)
Lemma stored_alerts_consistent_witness :
  MovementAlert.severity movedAlert = severityOf (MovementAlert.distance movedAlert).
Proof.
  apply (stored_alerts_consistent
           [LockRequested envLock lockRequest; CheckScheduled envMoved] 0%nat movedAlert).
  change (In (0%nat, movedAlert) (movement_alerts (scheduledLocationHistory envMoved locked))).
  rewrite (proj1 moved_checked). now left.
Defined.


(** The lock documents, tokens and lock history after a scheduled check. *)
Lemma check_locks_shape env w :
  user_push_tokens (scheduledLocationHistory env w) = user_push_tokens w
  /\ location_lock_history (scheduledLocationHistory env w) = location_lock_history w
  /\ (locked_locations (scheduledLocationHistory env w) = locked_locations w
      \/ exists f,
           locked_locations (scheduledLocationHistory env w)
           = alter f (DEVICE_ID env) (locked_locations w)
           /\ forall doc,
                LockedLocation.deviceId (f doc) = LockedLocation.deviceId doc
                /\ LockedLocation.location (f doc) = LockedLocation.location doc
                /\ LockedLocation.lockedAt (f doc) = LockedLocation.lockedAt doc).
Proof.
  unfold scheduledLocationHistory. cbv zeta.
  destruct (nrf_history env (length (effects w))) as [data|]; [|repeat split; now left].
  set (w1 := storeLocationHistory env data _).
  destruct (locked_locations w1 !! DEVICE_ID env) as [lockedData|];
    [|repeat split; now left].
  destruct (items data) as [[|item rest]|]; try (repeat split; now left).
  unfold checkMovement.
  destruct (truthy (item_lat item) && truthy (item_lon item)); [|repeat split; now left].
  cbv zeta. destruct (Rgtb _ 10).
  - destruct (raise_frame env lockedData item
                (Geo.calculateDistance
                   (LockedLocation.lat (LockedLocation.location lockedData))
                   (LockedLocation.lon (LockedLocation.location lockedData))
                   (parseFloat (item_lat item)) (parseFloat (item_lon item))) w1)
      as (H1 & H2 & _ & H4).
    split; [exact H1|]. split; [exact H2|]. right. eexists. split; [exact H4|].
    intros doc. repeat split.
  - split; [reflexivity|]. split; [reflexivity|]. right. eexists. split; [reflexivity|].
    intros doc. repeat split.
Qed.

(** X22. A scheduled check changes no token document and no lock history
    entry; it creates and removes no lock document and changes none of
    another device; and the lock document of its device keeps its position
    and lock time. *)
Theorem scheduled_check_frame (env : Env) (w : World) :
  let w' := scheduledLocationHistory env w in
  user_push_tokens w' = user_push_tokens w
  /\ location_lock_history w' = location_lock_history w
  /\ dom (locked_locations w') = dom (locked_locations w)
  /\ (forall other, other <> DEVICE_ID env ->
        locked_locations w' !! other = locked_locations w !! other)
  /\ (forall doc, locked_locations w !! DEVICE_ID env = Some doc ->
        exists doc',
          locked_locations w' !! DEVICE_ID env = Some doc'
          /\ LockedLocation.location doc' = LockedLocation.location doc
          /\ LockedLocation.lockedAt doc' = LockedLocation.lockedAt doc).
Proof.
  intros w'. destruct (check_locks_shape env w) as (H1 & H2 & [H3|(f & H3 & Hf)]);
    fold w' in H1, H2, H3; (split; [exact H1|]); (split; [exact H2|]); rewrite H3.
  - split; [reflexivity|]. split; [reflexivity|].
    intros doc Hd. now exists doc.
  - split; [apply dom_alter_L|].
    split; [intros other Hne; apply lookup_alter_ne; congruence|].
    intros doc Hd. exists (f doc). rewrite lookup_alter_eq, Hd.
    destruct (Hf doc) as (_ & F1 & F2). now repeat split.
Qed.

(** ** Keys and active tokens *)

Lemma keys_consistent_serve r w : keys_consistent w -> keys_consistent (serve r w).
Proof.
  intros [Hl Ht].
  destruct r as [env body|env body|env body|env q|env|env t]; cbn [serve].
  - unfold postLockedLocation.
    destruct (LockRequest.deviceId body) as [d|]; [|now split].
    destruct (LockRequest.location body) as [l|]; [|now split].
    destruct (LockRequest.lat l); [|now split].
    destruct (LockRequest.lon l); [|now split].
    destruct (truthyS d) eqn:Td; [|now split].
    destruct (_ && _); [|now split].
    split; [|exact Ht]. cbn. intros key doc.
    rewrite lookup_insert. destruct (decide (d = key)) as [<-|Hne].
    + intros [= <-]. now split.
    + apply Hl.
  - unfold clearLockedLocation.
    destruct (truthyO truthyS _); [|now split].
    cbv zeta. destruct (locked_locations w !! _); [|now split].
    split; [|exact Ht]. cbn. intros key doc H.
    apply lookup_delete_Some in H as [_ H]. now apply Hl.
  - unfold registerFCMToken.
    destruct (TokenRequest.deviceId body) as [d|]; [|now split].
    destruct (TokenRequest.fcmToken body) as [tok|]; [|now split].
    destruct (_ && _); [|now split].
    cbv zeta.
    assert (H : forall w',
               locked_locations w' = locked_locations w ->
               (exists doc, user_push_tokens w' = <[tokenId d tok := doc]> (user_push_tokens w)
                            /\ TokenData.deviceId doc = d /\ TokenData.pushToken doc = tok
                            /\ TokenData.active doc = true) ->
               keys_consistent w').
    { intros w' E1 (doc0 & E2 & D1 & D2 & D3). split.
      - rewrite E1. exact Hl.
      - rewrite E2. intros key doc. rewrite lookup_insert.
        destruct (decide (tokenId d tok = key)) as [<-|Hne].
        + intros [= <-]. now rewrite D1, D2.
        + apply Ht. }
    destruct (isExpoToken _ _); apply H; try reflexivity;
      eexists; (split; [reflexivity|]); repeat split.
  - destruct (listing_frame_alerts env q w) as (_ & H1 & H2).
    split; [rewrite H1; exact Hl|rewrite H2; exact Ht].
  - destruct (check_locks_shape env w) as (H1 & _ & [H3|(f & H3 & Hf)]).
    + split; [rewrite H3; exact Hl|rewrite H1; exact Ht].
    + split; [|rewrite H1; exact Ht]. rewrite H3. intros key doc.
      rewrite lookup_alter. destruct (decide (DEVICE_ID env = key)) as [<-|Hne].
      * destruct (locked_locations w !! DEVICE_ID env) as [doc0|] eqn:E; [|discriminate].
        intros [= <-]. destruct (Hf doc0) as (F & _). rewrite F. now apply Hl.
      * apply Hl.
  - unfold run_timer. destruct (callback t). now split.
Qed.

(** X23. In every store that a sequence of requests builds from the empty
    store, each lock document is stored under the non-empty device id it
    holds, each token document under the id built from its device and the
    first 20 characters of its token, and every token document is active:
    the query for the active tokens of a device returns all its tokens. *)
Theorem stored_keys_consistent (rs : list Request) :
  let w := serveAll rs empty_world in
  (forall key doc, locked_locations w !! key = Some doc ->
     LockedLocation.deviceId doc = key /\ key <> EmptyString)
  /\ (forall key doc, user_push_tokens w !! key = Some doc ->
        key = tokenId (TokenData.deviceId doc) (TokenData.pushToken doc)
        /\ TokenData.active doc = true)
  /\ (forall deviceId,
        activeTokens deviceId w
        = List.filter (fun d => bool_decide (TokenData.deviceId d = deviceId))
                      (map snd (map_to_list (user_push_tokens w)))).
Proof.
  intros w.
  assert (H : keys_consistent w).
  { unfold w. assert (H0 : keys_consistent empty_world).
    { split; intros key doc H; cbn in H; now rewrite lookup_empty in H. }
    revert H0. generalize empty_world.
    induction rs as [|r rs IH]; intros w0 H0; [exact H0|].
    cbn. apply IH. now apply keys_consistent_serve. }
  destruct H as [Hl Ht]. split; [|split; [exact Ht|]].
  - intros key doc H. destruct (Hl key doc H) as [H1 H2]. split; [exact H1|].
    intros ->. discriminate.
  - intros deviceId. unfold activeTokens. apply filter_ext_in.
    intros doc Hin. apply in_map_iff in Hin as ([key doc'] & <- & Hin).
    apply list_elem_of_In, elem_of_map_to_list in Hin.
    destruct (Ht key doc' Hin) as [_ Ha]. cbn. rewrite Ha. apply andb_true_r.
Qed.


(** ** Timers and activations *)

Lemma timers_consistent_same w w' :
  timers w' = timers w -> activations w' = activations w ->
  timers_consistent w -> timers_consistent w'.
Proof. unfold timers_consistent. intros -> ->. trivial. Qed.

Lemma timers_consistent_two w w' d1 d2 :
  timers w' = {| callback := TurnOffLED d1; delay := 60000 |}
              :: {| callback := TurnOffLED d2; delay := 60000 |} :: timers w ->
  activations w' = S (S (activations w)) ->
  timers_consistent w -> timers_consistent w'.
Proof.
  unfold timers_consistent. intros -> -> [H1 H2]. split.
  - cbn. now rewrite H1.
  - repeat constructor. exact H2.
Qed.

Lemma notifyAlert_timers env deviceId a w :
  timers (notifyAlert env deviceId a w)
  = {| callback := TurnOffLED (MovementAlert.deviceId a); delay := 60000 |}
    :: {| callback := TurnOffLED deviceId; delay := 60000 |} :: timers w.
Proof.
  unfold notifyAlert. cbv zeta.
  pose proof (dispatch_timers env a (turnOnMovementAlertLED env deviceId w)) as H.
  destruct (sendMovementAlertNotification env a _) as [sent w2]. cbn [snd] in H.
  transitivity (timers w2); [destruct sent, (MovementAlert.id a); reflexivity|].
  rewrite H. reflexivity.
Qed.

Lemma timers_consistent_listing env q w :
  timers_consistent w -> timers_consistent (snd (getMovementAlerts env q w)).
Proof.
  destruct (Z_lt_le_dec (queryLimit q) 0) as [Hq|Hq].
  - now rewrite getMovementAlerts_rejected by exact Hq.
  - rewrite getMovementAlerts_world by exact Hq.
    generalize (highDistanceAlertsOf (listAlerts env q w)). intros alerts.
    revert w. induction alerts as [|a alerts IH]; intros w H; cbn [fold_left]; [exact H|].
    apply IH.
    eapply timers_consistent_two; [apply notifyAlert_timers| |exact H].
    apply (notifyAlert_effects env (queryDeviceId env q) a w).
Qed.

Lemma timers_consistent_check env w :
  timers_consistent w -> timers_consistent (scheduledLocationHistory env w).
Proof.
  intros H. unfold scheduledLocationHistory. cbv zeta.
  destruct (nrf_history env (length (effects w))) as [data|]; [|exact H].
  set (w1 := storeLocationHistory env data _).
  assert (H1 : timers_consistent w1) by exact H.
  destruct (locked_locations w1 !! DEVICE_ID env) as [lockedData|]; [|exact H1].
  destruct (items data) as [[|item rest]|]; try exact H1.
  unfold checkMovement.
  destruct (truthy (item_lat item) && truthy (item_lon item)); [|exact H1].
  cbv zeta. destruct (Rgtb _ 10); [|exact H1].
  eapply timers_consistent_two; [apply raise_timers|apply raise_activations|exact H1].
Qed.

Lemma timers_consistent_serve r w : timers_consistent w -> timers_consistent (serve r w).
Proof.
  intros H.
  destruct r as [env body|env body|env body|env q|env|env t]; cbn [serve].
  - unfold postLockedLocation.
    destruct (LockRequest.deviceId body); [|exact H].
    destruct (LockRequest.location body) as [l|]; [|exact H].
    destruct (LockRequest.lat l); [|exact H].
    destruct (LockRequest.lon l); [|exact H].
    destruct (_ && _); exact H.
  - unfold clearLockedLocation.
    destruct (truthyO truthyS _); [|exact H].
    cbv zeta. destruct (locked_locations w !! _); exact H.
  - unfold registerFCMToken.
    destruct (TokenRequest.deviceId body); [|exact H].
    destruct (TokenRequest.fcmToken body); [|exact H].
    destruct (_ && _); [|exact H].
    cbv zeta. destruct (isExpoToken _ _); exact H.
  - now apply timers_consistent_listing.
  - now apply timers_consistent_check.
  - unfold run_timer. destruct (callback t). exact H.
Qed.

(** X24. In every store that a sequence of requests builds from the empty
    store, the timers set so far are as many as the activation commands sent
    so far, and each of them runs for 60000 ms: no activation is left without
    its deactivation timer, and no request sets a timer of its own. *)
Theorem every_activation_has_its_timer (rs : list Request) :
  let w := serveAll rs empty_world in
  length (timers w) = activations w
  /\ Forall (fun t => delay t = 60000%Z) (timers w).
Proof.
  intros w. unfold w.
  assert (H0 : timers_consistent empty_world) by (split; [reflexivity|constructor]).
  revert H0. generalize empty_world.
  induction rs as [|r rs IH]; intros w0 H0; [exact H0|].
  cbn. apply IH. now apply timers_consistent_serve.
Qed.


(** ** Lock, then unlock *)

(** X25. Locking a device that was not locked, under a device id that
    Firestore accepts, and then unlocking it leaves
    the lock documents as they were before the two requests, and the lock
    history two entries longer: the lock entry, then the unlock entry that
    holds the document of the lock. *)
Theorem lock_then_unlock (env env' : Env) (body : LockRequest.t) (body' : UnlockRequest.t)
    (w : World) (deviceId : string) (location : LockRequest.location_t)
    (lat lon : JsScalar) :
  LockRequest.deviceId body = Some deviceId ->
  LockRequest.location body = Some location ->
  LockRequest.lat location = Some lat ->
  LockRequest.lon location = Some lon ->
  truthyS deviceId = true -> truthy lat = true -> truthy lon = true ->
  plainDocId deviceId = true ->
  UnlockRequest.deviceId body' = Some deviceId ->
  locked_locations w !! deviceId = None ->
  let w1 := snd (postLockedLocation env body w) in
  let r := clearLockedLocation env' body' w1 in
  fst r = {| status := 200; success := true |}
  /\ locked_locations (snd r) = locked_locations w
  /\ exists doc unlockedAt status timestamp,
       location_lock_history (snd r)
       = UnlockEntry deviceId unlockedAt status timestamp doc (serverTimestamp env')
         :: LockEntry doc :: location_lock_history w
       /\ LockedLocation.lat (LockedLocation.location doc) = parseFloat lat
       /\ LockedLocation.lon (LockedLocation.location doc) = parseFloat lon.
Proof.
  intros Hd Hl Hlat Hlon Td Tlat Tlon _ Hd' Hnone w1 r.
  destruct (postLockedLocation_valid env body w deviceId location lat lon
              Hd Hl Hlat Hlon Td Tlat Tlon)
    as (doc & Hr & _ & H1 & H2 & _).
  assert (Hw1 : w1 = set_location_lock_history (cons (LockEntry doc))
                       (set_locked_locations (insert deviceId doc) w))
    by (unfold w1; now rewrite Hr).
  assert (Hlook : locked_locations w1 !! deviceId = Some doc)
    by (rewrite Hw1; cbn; apply lookup_insert_eq).
  unfold r. rewrite (clearLockedLocation_found env' body' w1 deviceId doc Hd' Td Hlook).
  cbn [fst snd]. split; [reflexivity|]. split.
  - rewrite Hw1. cbn. rewrite delete_insert_eq. now apply delete_id.
  - eexists doc, _, _, _. split; [|split; assumption].
    rewrite Hw1. reflexivity.
Qed.

(** The device of the scenario, locked and unlocked. *)
Lemma lock_then_unlock_witness :
  locked_locations (snd (clearLockedLocation envRelock unlockRequest locked)) = ∅.
Proof.
  exact (proj1 (proj2 (lock_then_unlock envLock envRelock lockRequest unlockRequest
                         empty_world "lar91"
                         {| LockRequest.lat := Some (JString "10" 10);
                            LockRequest.lon := Some (JString "20" 20);
                            LockRequest.uncertainty := None;
                            LockRequest.serviceType := None |}
                         (JString "10" 10) (JString "20" 20)
                         eq_refl eq_refl eq_refl eq_refl eq_refl eq_refl eq_refl
                         eq_refl eq_refl (lookup_empty _)))).
Defined.

(** ** Order of the severities *)

(** X26. The severity does not decrease with the distance, and it is low up
    to 25, medium above 25 up to 50, and high above 50. *)
Theorem severity_monotone (d1 d2 : R) :
  (d1 <= d2 -> (severity_rank (severityOf d1) <= severity_rank (severityOf d2))%nat)
  /\ (severityOf d1 = low <-> d1 <= 25)
  /\ (severityOf d1 = medium <-> 25 < d1 <= 50)
  /\ (severityOf d1 = high <-> 50 < d1).
Proof.
  assert (Hc : forall d,
             (d <= 25 /\ severityOf d = low)
             \/ (25 < d <= 50 /\ severityOf d = medium)
             \/ (50 < d /\ severityOf d = high)).
  { intros d. destruct (Rle_dec d 25) as [H|H].
    - left. split; [exact H|now apply severityOf_low].
    - destruct (Rle_dec d 50) as [H'|H'].
      + right; left. split; [lra|apply severityOf_medium; lra].
      + right; right. split; [lra|apply severityOf_high; lra]. }
  split; [|split; [|split]].
  - intros Hle.
    destruct (Hc d1) as [[A1 ->]|[[A1 ->]|[A1 ->]]];
      destruct (Hc d2) as [[A2 ->]|[[A2 ->]|[A2 ->]]]; cbn; try lia; lra.
  - destruct (Hc d1) as [[A1 ->]|[[A1 ->]|[A1 ->]]]; split; intros H;
      first [reflexivity | discriminate | lra].
  - destruct (Hc d1) as [[A1 ->]|[[A1 ->]|[A1 ->]]]; split; intros H;
      first [reflexivity | discriminate | lra].
  - destruct (Hc d1) as [[A1 ->]|[[A1 ->]|[A1 ->]]]; split; intros H;
      first [reflexivity | discriminate | lra].
Qed.

(** 16 m and 111 m. *)
Lemma severity_monotone_witness :
  (severity_rank (severityOf 16) <= severity_rank (severityOf 111))%nat.
Proof.
  apply (proj1 (severity_monotone 16 111)). lra.
Defined.
